(* ===== verification/_CoqProject ===== *)
-Q . S2P
Prelude.v
Hx711.v
Hx711Device.v
Telemetry.v
Calibration.v
ControlLoop.v
PortRead.v
Cli.v
Stdout.v
