(* ===== verification/Prelude.v ===== *)
(** * A verification development for the CUDS thrust-test logger

    The program (src/logging/src/, two files) reads strain-gauge load
    cells through HX711 24-bit ADCs over GPIO lines (load_cell.rs), and
    in main.rs calibrates them, drives an ESC through a serial port during
    a throttle ramp, decodes the ESC's telemetry frames, and writes one
    CSV row per ramp step.  A Ctrl-C handler, running on its own thread,
    clears a shared [running] flag and stops the ESC.

    How the parts interact: [main] calls [calibrate_zero], which calls
    [Hx711::read_multiple] for five seconds; then [initialise], and per
    iteration [control_sequence] (port write and telemetry read, through
    [process_string]) and [read_multiple] again; the port is shared with
    the handler behind a mutex.

    Files, in dependency order, and what each models:
    - [Prelude] (this file): Rust panics ([expect], [unwrap], [v[i]] out
      of range) as the monad [outcome]; checked vector access [get_at] and
      [set_at]; [u32] arithmetic as [Z] masked to 32 bits; the f64
      operations as the class [FloatOps], with the exact instance [Q_ops]
      and the IEEE binary64 instance [F64_ops] on primitive floats; the
      loop [for i in 0..devices.len()] as [for_each], and the simulation
      theorem [for_each_sim] that turns a lock-step loop over shared
      vectors into independent per-channel runs.
    - [Hx711]: load_cell.rs.  The GPIO pins are the class [Gpio];
      [read_multiple] follows [Hx711::read_multiple] loop by loop over its
      vectors [wait_polls], [data], [temp], [err] (record [rm_store]);
      [read] is [Hx711::read].  [read_lane] is the same code on one device;
      [read_multiple_channelwise] proves the lock-step frame equal to the
      per-channel reads.  Also: decoding round trips, a stuck channel,
      the clock trace (25 pulses per device), that every reading is a
      number in [-1, 1) on any hardware ([read_multiple_readings_range])
      and that up to 24 devices never make a frame panic
      ([read_multiple_total]).  [script_gpio] replays a script of data
      levels for concrete runs.
    - [Hx711Device]: the HX711 as its datasheet describes it (busy, ready,
      a bit per rising edge), a [Gpio] instance; against it [read_multiple]
      and [read] return each device's conversion or the documented error,
      and a ready channel of index 24 or more panics.
    - [Telemetry]: [process_string] byte by byte (trim, [chunks(2)],
      [from_utf8], [u8::from_str_radix], the u16/u32 fields, the f64
      scaling), and the [read_line] loop of [control_sequence] as
      [read_frame] over a source of lines.
    - [Calibration]: [calibrate_zero] against the interface [Acquisition]
      (a state, its channel count, one frame), of which [read_multiple]
      is an instance satisfying [AcquisitionLaws]; the wall clock is a
      function of the loop-test index.
    - [ControlLoop]: [main] and the handler as a step relation [step] on
      a [world] (program counters of both threads, [running], the port
      mutex, the log of port writes, the port's input, devices, offsets,
      throttle, rows); [initialise], [control_sequence], [exit_sequence]
      are its critical sections, [thrust_of] the thrust of an iteration.
      Section [OneChannel] proves that with one channel only the
      telemetry read can make [main] panic.
    - [PortRead]: the [BufReader] of [control_sequence] over what each
      [read] of the port returns, with [BufRead::read_line]; proved equal
      to [read_frame] when every read returns one line, and shown to lose
      the bytes a read returns after the frame.
    - [Cli]: the rest of [main].  Module [Args] is the argument check of
      lines 51-63 ([check_args], with the lines it prints and the panic of
      [args[0]]); Module [CsvLog] the records of lines 79-81 and 120-132
      and the file after a run ([csv_log], over the rows [ControlLoop]
      records; the [csv] crate's writer is modelled from its
      documentation, f64 [Display] is a parameter [show], the clock a
      function of the iteration); Module [Setup] the devices of lines
      37-48 built from [config_load_cell_pins_list], with [Hx711::new]'s
      GPIO [expect]s ([hx711_new], [setup_devices]); Module [Start]
      [main] from its first line to the Ctrl-C handler ([main_start],
      lines 25-93), ending in the threads' initial state
      [ControlLoop.init].
    - [Stdout]: what [main] prints to the operator.  The output is a
      writer over [outcome] ([printing], with [plet]); an iteration of
      the ramp ([iteration_print], lines 102-135, with
      [process_string_print] and [thrust_loop_print]) and the
      calibration's report ([calibrate_report], lines 256-274) are the
      code with its [println!] calls; on their successful runs they
      return what [process_string], [thrust_loop] and [finalize] return.

    What the theorems show, by group: refinement of the lock-step frame
    by per-channel reads and functional correctness against the datasheet
    device (Hx711, Hx711Device); the codec's round trip from bytes to
    voltage and angular velocity and its error paths (Telemetry); the
    calibration's loop termination after exactly the frames of the
    window and its statistics in exact arithmetic, with the f64 anomaly
    of the variance, and the f64 statistics of a channel that never
    reads (0, not NaN) (Calibration); the invariants of every reachable
    world (throttle a multiple of 50 below 1600, rows in arithmetic
    progression, mutual exclusion on the port), the effect of Ctrl-C on
    further throttle increments, and a complete ramp without Ctrl-C
    (ControlLoop); the start of [main] (which failures of the port, the
    GPIO, the arguments and the file panic, in which order), the configured logger end to end (any HX711 behaviour, 32
    good frames, no Ctrl-C: the ESC commands sent and the 32 CSV
    records), the CSV file of every reachable
    world (header, then one record per row in column order, throttle
    field 50 (k + 1)), the second header a rerun appends, and that with
    the configured pin list [main] can only panic in the telemetry read
    (Cli); the termination of the frame loop over the port's bytes, the
    exactness of the line model, and the bytes a fresh [BufReader] drops
    (PortRead); the lines an iteration and the calibration print, in
    order, with the values they return (Stdout).  Several theorems record where the code departs from
    its design (see the doc comment of each).

    Bounds and fuel: the ready gate polls at most [max_wait_polls + 2]
    times ([wait_fuel], exactly the code's bound, so it never runs out);
    the calibration loop takes [fuel] loop tests and is proved to finish
    with any fuel above the index of the first test at which five seconds
    have elapsed; [read_frame] and the ramp are structural (the ramp runs
    at most 32 iterations, proved); the [read_line] loop over the port's
    bytes ([PortRead.frame_loop]) is given one test per byte and read
    left, proved enough ([frame_loop_enough]).  The f64 result of a
    channel that never reads is checked by evaluation for every window
    of 1 to [max_window] = 100000 frames (five seconds at the HX711's
    80 samples per second are 400).  Numbers: [i32]/[usize]
    values that stay small are kept as [Z] or [nat] with their bounds proved
    ([throttle_bounds], [telemetry_fields_bounds]); [u32] arithmetic of
    the bit loop is masked, and proved never to drop a bit.

    Not modelled: the text of f64 [Display] (shortest round-trip
    decimal; a parameter [show]), the value of [SystemTime::now] (a
    parameter; [{:.n}] is a parameter [show_prec] and [f64::sqrt] one
    too), the one-off [println!] lines of the Ctrl-C handler (line 89),
    [exit_sequence] (line 198) and line 95 ([ControlLoop]'s steps carry no
    output; the argument check's lines are in [Cli.Args]), the sleeps, and the opening of the
    serial port, the GPIO pins and the CSV file (I/O with external crates:
    [main_start] takes their results as parameters, the [expect]s on them
    are modelled, and the theorems on the ramp start after they
    succeeded); a failing [println!] (stdout is taken to be writable);
    [exit_sequence]'s release of the port and the return of [main] are
    one step of [ControlLoop.step]; writing the CSV header is
    assumed to succeed once the file is open; port writes and flushes are assumed to succeed
    (their failure is a panic the design leaves out of scope);
    [read_line]'s UTF-8 check is not modelled (the ESC sends ASCII). *)

From Stdlib Require Import ZArith QArith Lia.
From Stdlib Require Import Floats.
From stdpp Require Import base list.

Ltac invc H := inversion H; clear H; subst.

(** ** Panics

    A Rust panic aborts the thread; the model returns [Panic].  Panics
    carry no message: the program does not observe which one occurred. *)

Inductive outcome (A : Type) : Type :=
| Done (a : A)
| Panic.
Arguments Done {A} a.
Arguments Panic {A}.

Definition obind {A B} (m : outcome A) (k : A -> outcome B) : outcome B :=
  match m with Done a => k a | Panic => Panic end.

Definition omap {A B} (f : A -> B) (m : outcome A) : outcome B :=
  obind m (fun a => Done (f a)).

Declare Scope outcome_scope.
Delimit Scope outcome_scope with outcome.
(** [let* x := m in k] runs [m] and, unless it panicked, [k]; [x] may be
    a pattern such as [(a, b)]. *)
Notation "'let*' x ':=' m 'in' k" := (obind m (fun x => k))
  (at level 10, x pattern, m at level 100, k at level 200) : outcome_scope.
Open Scope outcome_scope.

(** A relation lifted to outcomes: both panic, or both return related
    values.  This is the simulation relation of the refinement proofs. *)
Definition orel {A B} (R : A -> B -> Prop) (m1 : outcome A) (m2 : outcome B) : Prop :=
  match m1, m2 with
  | Done a, Done b => R a b
  | Panic, Panic => True
  | _, _ => False
  end.

Lemma obind_done {A B} (a : A) (k : A -> outcome B) : obind (Done a) k = k a.
Proof. reflexivity. Qed.

Lemma obind_panic {A B} (k : A -> outcome B) : obind Panic k = Panic.
Proof. reflexivity. Qed.

(** Two computations without shared state commute in the panic monad. *)
Lemma obind_comm {A B C} (m1 : outcome A) (m2 : outcome B) (k : A -> B -> outcome C) :
  obind m1 (fun a => obind m2 (fun b => k a b)) = obind m2 (fun b => obind m1 (fun a => k a b)).
Proof. destruct m1, m2; reflexivity. Qed.

Lemma orel_bind {A B A' B'} (R : A -> B -> Prop) (R' : A' -> B' -> Prop)
    m1 m2 (k1 : A -> outcome A') (k2 : B -> outcome B') :
  orel R m1 m2 -> (forall a b, R a b -> orel R' (k1 a) (k2 b)) ->
  orel R' (obind m1 k1) (obind m2 k2).
Proof. destruct m1, m2; simpl; intuition. Qed.

Lemma orel_weaken {A B} (R R' : A -> B -> Prop) m1 m2 :
  orel R m1 m2 -> (forall a b, R a b -> R' a b) -> orel R' m1 m2.
Proof. destruct m1, m2; simpl; auto. Qed.

Lemma orel_weaken_r {A B} (R R' : A -> B -> Prop) m1 m2 :
  orel R m1 m2 -> (forall a b, m2 = Done b -> R a b -> R' a b) -> orel R' m1 m2.
Proof. destruct m1, m2; simpl; eauto. Qed.

Lemma orel_omap_eq {A B} (f : B -> A) (m1 : outcome A) (m2 : outcome B) :
  orel (fun a b => a = f b) m1 m2 -> m1 = omap f m2.
Proof. destruct m1, m2; simpl; intros; subst; done. Qed.

Lemma orel_eq {A} (m1 m2 : outcome A) : orel eq m1 m2 -> m1 = m2.
Proof. destruct m1, m2; simpl; congruence || tauto. Qed.

(** ** Vectors indexed as in Rust: [v[i]] panics out of range. *)

Definition get_at {A} (v : list A) (i : nat) : outcome A :=
  match v !! i with Some x => Done x | None => Panic end.

Definition set_at {A} (v : list A) (i : nat) (x : A) : outcome (list A) :=
  if decide (i < length v) then Done (<[i := x]> v) else Panic.

(** [v.contains(&i)] on a [Vec<usize>]. *)
Definition contains (v : list nat) (i : nat) : bool :=
  existsb (Nat.eqb i) v.

Lemma get_at_lookup {A} (v : list A) i x : v !! i = Some x -> get_at v i = Done x.
Proof. unfold get_at. by intros ->. Qed.

Lemma get_at_none {A} (v : list A) i : v !! i = None -> get_at v i = Panic.
Proof. unfold get_at. by intros ->. Qed.

Lemma set_at_lookup {A} (v : list A) i (x y : A) :
  v !! i = Some y -> set_at v i x = Done (<[i := x]> v).
Proof.
  intros H. unfold set_at. apply lookup_lt_Some in H. by rewrite decide_True.
Qed.

Lemma set_at_none {A} (v : list A) i (x : A) : v !! i = None -> set_at v i x = Panic.
Proof.
  intros H. unfold set_at. apply lookup_ge_None in H. rewrite decide_False; [done | lia].
Qed.

Lemma contains_push v i j : contains (v ++ [i]) j = contains v j || Nat.eqb j i.
Proof.
  unfold contains. rewrite existsb_app. simpl. by rewrite orb_false_r.
Qed.

(** ** Unsigned 32-bit integers: [u32] kept as [Z] in [0, 2^32). *)

Open Scope Z_scope.

Definition u32_wrap (x : Z) : Z := Z.land x (Z.ones 32).

(** [x <<= 1] on a [u32]: the bit shifted out of bit 31 is lost. *)
Definition shl1_u32 (x : Z) : Z := u32_wrap (Z.shiftl x 1).

Lemma shl1_u32_small x : 0 <= x < 2 ^ 31 -> shl1_u32 x = 2 * x.
Proof.
  intros Hx. unfold shl1_u32, u32_wrap.
  rewrite Z.land_ones by lia. rewrite Z.shiftl_mul_pow2 by lia.
  rewrite Z.mod_small; lia.
Qed.

(** [Z.lxor a (2^n - 1)] flips the low [n] bits of a value below [2^n]. *)
Lemma lxor_ones_small a n : 0 <= n -> 0 <= a < 2 ^ n -> Z.lxor a (Z.ones n) = Z.ones n - a.
Proof.
  intros Hn Ha.
  assert (Hl : Z.lxor a (Z.ones n) = Z.land (Z.lnot a) (Z.ones n)).
  { apply Z.bits_inj'. intros m Hm.
    rewrite Z.lxor_spec, Z.land_spec, Z.lnot_spec, Z.testbit_ones_nonneg by lia.
    destruct (Z.ltb_spec m n).
    - rewrite andb_true_r. destruct (Z.testbit a m); reflexivity.
    - rewrite xorb_false_r, andb_false_r.
      destruct (Z.eq_dec a 0) as [->|Ha0]; [apply Z.testbit_0_l |].
      apply Z.bits_above_log2; [lia |].
      apply Z.log2_lt_pow2; [lia |].
      apply Z.lt_le_trans with (2 ^ n); [lia | apply Z.pow_le_mono_r; lia]. }
  rewrite Hl, Z.land_ones, Z.lnot_eq_pred_opp by lia.
  rewrite Z.ones_equiv.
  symmetry. apply (Z.mod_unique _ _ (-1)); lia.
Qed.

(** Shifting in the bits of [v] from the most significant one. *)
Lemma shiftr_step v m : 0 <= m -> Z.shiftr v m = 2 * Z.shiftr v (m + 1) + Z.b2z (Z.testbit v m).
Proof.
  intros Hm. rewrite <- (Z.shiftr_shiftr v m 1) by lia. rewrite <- Z.div2_spec.
  rewrite Z.testbit_odd. apply Z.div2_odd.
Qed.

(** [(hi << n) | lo] is [hi * 2^n + lo] when [lo] fits in [n] bits. *)
Lemma lor_shiftl_small hi lo n : 0 <= n -> 0 <= lo < 2 ^ n ->
  Z.lor (Z.shiftl hi n) lo = hi * 2 ^ n + lo.
Proof.
  intros Hn Hlo. rewrite <- Z.shiftl_mul_pow2 by exact Hn.
  assert (Hand : Z.land (Z.shiftl hi n) lo = 0).
  { apply Z.bits_inj'. intros m Hm. rewrite Z.land_spec, Z.bits_0.
    destruct (Z.lt_ge_cases m n).
    - rewrite Z.shiftl_spec_low by lia. reflexivity.
    - destruct (Z.eq_dec lo 0) as [->|]; [rewrite Z.bits_0; apply andb_false_r|].
      rewrite (Z.bits_above_log2 lo m), andb_false_r; [reflexivity|lia|].
      assert (Z.log2 lo < n) by (apply Z.log2_lt_pow2; lia). lia. }
  rewrite Z.add_nocarry_lxor, Z.lxor_lor by exact Hand. reflexivity.
Qed.

(** ** The f64 operations of the code

    The code computes with [f64]: integer casts [n as f64], [+], [-], [*],
    [/] and literals.  The model is written once against this interface;
    [Q_ops] is exact rational arithmetic, [F64_ops] the IEEE binary64
    arithmetic of the kernel's primitive floats (round to nearest even),
    which is Rust's [f64]. *)

Class FloatOps (F : Type) := {
  f_of_Z : Z -> F;
  f_add : F -> F -> F;
  f_sub : F -> F -> F;
  f_mul : F -> F -> F;
  f_div : F -> F -> F
}.

Declare Scope fl_scope.
Delimit Scope fl_scope with fl.
Notation "x ⊕ y" := (f_add x y) (at level 50, left associativity) : fl_scope.
Notation "x ⊖ y" := (f_sub x y) (at level 50, left associativity) : fl_scope.
Notation "x ⊗ y" := (f_mul x y) (at level 40, left associativity) : fl_scope.
Notation "x ⊘ y" := (f_div x y) (at level 40, left associativity) : fl_scope.

(** A decimal literal [m e-k] of the source, as the correctly rounded
    quotient of two exactly representable integers: in binary64 this is
    the nearest double to the literal, as the Rust compiler reads it. *)
Definition f_lit {F} `{FloatOps F} (m : Z) (k : nat) : F :=
  f_div (f_of_Z m) (f_of_Z (10 ^ Z.of_nat k)).

#[export] Instance Q_ops : FloatOps Q := {
  f_of_Z := inject_Z;
  f_add := Qplus;
  f_sub := Qminus;
  f_mul := Qmult;
  f_div := Qdiv
}.

(** [n as f64] for an integer of magnitude below [2^53] (exact). *)
Definition float_of_Z (z : Z) : float :=
  if z <? 0 then PrimFloat.opp (PrimFloat.of_uint63 (Uint63.of_Z (- z)))
  else PrimFloat.of_uint63 (Uint63.of_Z z).

#[export] Instance F64_ops : FloatOps float := {
  f_of_Z := float_of_Z;
  f_add := PrimFloat.add;
  f_sub := PrimFloat.sub;
  f_mul := PrimFloat.mul;
  f_div := PrimFloat.div
}.

(** ** Loops over the devices

    [for_each body i ds s] is [for i in i..] over the device vector [ds],
    each iteration running [body i] on device [i] and the shared vectors
    [s] of the caller ([data], [temp], [err], ...). *)

Fixpoint for_each {D St} (body : nat -> D -> St -> outcome (D * St))
    (i : nat) (ds : list D) (s : St) : outcome (list D * St) :=
  match ds with
  | [] => Done ([], s)
  | d :: ds' =>
      let* (d', s') := body i d s in
      let* (ds'', s'') := for_each body (S i) ds' s' in
      Done (d' :: ds'', s'')
  end.

(** The same loop written channel by channel: each channel [i] runs [f i]
    on its own lane, panics included. *)
Fixpoint omapi {A B} (f : nat -> A -> outcome B) (i : nat) (l : list A) : outcome (list B) :=
  match l with
  | [] => Done []
  | x :: l' => let* y := f i x in let* ys := omapi f (S i) l' in Done (y :: ys)
  end.

Lemma omapi_length {A B} (f : nat -> A -> outcome B) i l r :
  omapi f i l = Done r -> length r = length l.
Proof.
  revert i r. induction l as [|x l IH]; simpl; intros i r H; [by invc H |].
  destruct (f i x); simpl in H; [| done].
  destruct (omapi f (S i) l) eqn:E; simpl in H; [| done].
  invc H. simpl. f_equal. eauto.
Qed.

(** Channel-wise composition: running two channel-wise loops one after
    the other is one channel-wise loop of the composed bodies. *)
Lemma omapi_fuse {A B C} (f : nat -> A -> outcome B) (g : nat -> B -> outcome C) i l :
  obind (omapi f i l) (omapi g i) = omapi (fun j x => obind (f j x) (g j)) i l.
Proof.
  revert i. induction l as [|x l IH]; intros i; [reflexivity |].
  simpl. rewrite <- IH. destruct (f i x) as [y|]; [| reflexivity].
  simpl. destruct (omapi f (S i) l) as [ys|]; simpl; destruct (g i y); reflexivity.
Qed.

(** [omapi] of a composed body, read one stage at a time: the stage
    [f] runs on every channel, then the rest [g]. *)
Lemma orel_omapi_bind {A B B' C E} (R : A -> list B' -> Prop) (R' : C -> list E -> Prop)
    (m : outcome A) (k : A -> outcome C) (f : nat -> B -> outcome B') (g : nat -> B' -> outcome E) i l :
  orel R m (omapi f i l) ->
  (forall a b, R a b -> orel R' (k a) (omapi g i b)) ->
  orel R' (obind m k) (omapi (fun j x => obind (f j x) (g j)) i l).
Proof. intros H1 H2. rewrite <- omapi_fuse. eapply orel_bind; eauto. Qed.

(** [imap_from h i l] applies [h j] to the element of index [j]. *)
Fixpoint imap_from {A B} (h : nat -> A -> B) (i : nat) (l : list A) : list B :=
  match l with [] => [] | x :: l' => h i x :: imap_from h (S i) l' end.

(** A stage that cannot panic is an [imap_from]. *)
Lemma omapi_pure_stage {A B C} (h : nat -> A -> B) (g : nat -> B -> outcome C) i l :
  omapi (fun j x => obind (Done (h j x)) (g j)) i l = omapi g i (imap_from h i l).
Proof.
  revert i. induction l as [|x l IH]; intros i; [reflexivity |]. simpl. by rewrite IH.
Qed.

Lemma imap_from_length {A B} (h : nat -> A -> B) i l : length (imap_from h i l) = length l.
Proof. revert i. induction l; simpl; auto. Qed.

(** A stage that cannot panic at all. *)
Lemma omapi_total {A B} (h : nat -> A -> B) i l :
  omapi (fun j x => Done (h j x)) i l = Done (imap_from h i l).
Proof.
  revert i. induction l as [|x l IH]; intros i; [reflexivity |]. simpl. by rewrite IH.
Qed.

Lemma omapi_total_ext {A B} (g : nat -> A -> outcome B) (h : nat -> A -> B) i l :
  (forall j x, g j x = Done (h j x)) -> omapi g i l = Done (imap_from h i l).
Proof.
  intros Hg. revert i. induction l as [|x l IH]; intros i; [reflexivity |].
  simpl. by rewrite Hg, IH.
Qed.

Lemma imap_from_const {A B} (f : A -> B) i l : imap_from (fun _ x => f x) i l = map f l.
Proof. revert i. induction l; simpl; congruence. Qed.

(** Channel [j] of a channel-wise loop that returned. *)
Lemma omapi_lookup {A B} (f : nat -> A -> outcome B) i l r j x :
  omapi f i l = Done r -> l !! j = Some x -> exists y, f (i + j)%nat x = Done y /\ r !! j = Some y.
Proof.
  revert i r j. induction l as [|x' l IH]; intros i r j Hr Hj; [done |].
  simpl in Hr. destruct (f i x') as [y|] eqn:Ef; simpl in Hr; [| done].
  destruct (omapi f (S i) l) as [ys|] eqn:Er; simpl in Hr; [| done]. invc Hr.
  destruct j as [|j]; simpl in Hj.
  - invc Hj. exists y. rewrite Nat.add_0_r. auto.
  - destruct (IH _ _ _ Er Hj) as (y' & Hy & Hy'). exists y'. rewrite <- Nat.add_succ_comm. auto.
Qed.

(** One channel that panics makes the whole loop panic. *)
Lemma omapi_panic {A B} (f : nat -> A -> outcome B) i l j x :
  l !! j = Some x -> f (i + j)%nat x = Panic -> omapi f i l = Panic.
Proof.
  revert i j. induction l as [|x' l IH]; intros i j Hj Hf; [done |].
  destruct j as [|j]; simpl in Hj.
  - invc Hj. rewrite Nat.add_0_r in Hf. simpl. by rewrite Hf.
  - simpl. rewrite (IH (S i) j Hj) by (by rewrite Nat.add_succ_comm). by destruct (f i x').
Qed.

Lemma omapi_panic_inv {A B} (f : nat -> A -> outcome B) i l :
  omapi f i l = Panic -> exists j x, l !! j = Some x /\ f (i + j)%nat x = Panic.
Proof.
  revert i. induction l as [|x l IH]; intros i H; [done |]. simpl in H.
  destruct (f i x) eqn:Ef; simpl in H.
  - destruct (omapi f (S i) l) eqn:Er; simpl in H; [done |].
    destruct (IH _ Er) as (j & y & Hj & Hy). exists (S j), y. rewrite <- Nat.add_succ_comm. auto.
  - exists 0%nat, x. rewrite Nat.add_0_r. auto.
Qed.

Lemma lookup_map_some {A B} (f : A -> B) (l : list A) j y :
  l !! j = Some y -> map f l !! j = Some (f y).
Proof. revert j. induction l as [|x l IH]; intros [|j]; simpl; intros Hj; try done; [by invc Hj | eauto]. Qed.

(** A channel-wise loop in which every channel returns. *)
Lemma omapi_done_forall {A B} (f : nat -> A -> outcome B) (h : A -> B) i l :
  (forall j x, l !! j = Some x -> f (i + j)%nat x = Done (h x)) -> omapi f i l = Done (map h l).
Proof.
  revert i. induction l as [|x l IH]; intros i Hf; [reflexivity |].
  simpl. pose proof (Hf 0%nat x eq_refl) as H0. rewrite Nat.add_0_r in H0. rewrite H0. simpl.
  rewrite IH; [reflexivity |]. intros j y Hj.
  replace (S i + j)%nat with (i + S j)%nat by lia. exact (Hf (S j) y Hj).
Qed.

Lemma omapi_map {A B C} (f : nat -> B -> outcome C) (h : A -> B) i l :
  omapi f i (map h l) = omapi (fun j x => f j (h x)) i l.
Proof.
  revert i. induction l as [|x l IH]; intros i; [reflexivity |]. simpl. by rewrite IH.
Qed.

Section Lanes.
(** A loop body is local when iteration [i] reads and writes only the
    slot [i] of the shared vectors; [slot i s] is that slot ([None]
    when a vector is too short).  [lbody] is the body on one lane. *)
Context {D St L : Type} (slot : nat -> St -> option L).
Context (body : nat -> D -> St -> outcome (D * St)).
Context (lbody : nat -> D * L -> outcome (D * L)).

Fixpoint lanes_of (i : nat) (s : St) (ds : list D) : option (list (D * L)) :=
  match ds with
  | [] => Some []
  | d :: ds' => l ← slot i s; r ← lanes_of (S i) s ds'; Some ((d, l) :: r)
  end.

Definition body_local : Prop :=
  forall i d s l, slot i s = Some l ->
    orel (fun '(d', s') '(d'', l') =>
            d' = d'' /\ slot i s' = Some l' /\ forall j, j <> i -> slot j s' = slot j s)
         (body i d s) (lbody i (d, l)).

Lemma lanes_of_frame i s s' ds :
  (forall j, (i <= j < i + length ds)%nat -> slot j s' = slot j s) ->
  lanes_of i s' ds = lanes_of i s ds.
Proof.
  revert i. induction ds as [|d ds IH]; intros i H; [reflexivity |].
  simpl. rewrite H by (simpl; lia). rewrite IH; [reflexivity |].
  intros j Hj. apply H. simpl. lia.
Qed.

Lemma lanes_of_store (g : St -> St) (h : nat -> L -> L) i s ds ls :
  (forall j l, slot j s = Some l -> slot j (g s) = Some (h j l)) ->
  lanes_of i s ds = Some ls ->
  lanes_of i (g s) ds = Some (imap_from (fun j '(d, l) => (d, h j l)) i ls).
Proof.
  intros Hg. revert i ls. induction ds as [|d ds IH]; simpl; intros i ls H; [by invc H |].
  destruct (slot i s) as [l|] eqn:Hs; simpl in H; [| done].
  destruct (lanes_of (S i) s ds) eqn:E; simpl in H; [| done].
  invc H. rewrite (Hg _ _ Hs). simpl. by rewrite (IH (S i) l0 E).
Qed.

Lemma lanes_of_fst i s ds ls : lanes_of i s ds = Some ls -> map fst ls = ds.
Proof.
  revert i ls. induction ds as [|d ds IH]; simpl; intros i ls H; [by invc H |].
  destruct (slot i s); simpl in H; [| done].
  destruct (lanes_of (S i) s ds) eqn:E; simpl in H; [| done].
  invc H. simpl. f_equal. eauto.
Qed.

Definition lanes_rel (i : nat) (s : St) (ds : list D) (r : list D * St) (ls : list (D * L)) : Prop :=
  lanes_of i (snd r) (fst r) = Some ls /\
  forall j, (j < i \/ i + length ds <= j)%nat -> slot j (snd r) = slot j s.

(** The simulation: a loop of local bodies is the channel-wise loop. *)
Theorem for_each_sim :
  body_local -> forall ds i s ls, lanes_of i s ds = Some ls ->
  orel (lanes_rel i s ds) (for_each body i ds s) (omapi lbody i ls).
Proof.
  intros Hloc ds. induction ds as [|d ds IH]; simpl; intros i s ls H.
  { invc H. split; [reflexivity | auto]. }
  destruct (slot i s) as [l|] eqn:Hs; simpl in H; [| done].
  destruct (lanes_of (S i) s ds) as [ls'|] eqn:Hr; simpl in H; [| done]. invc H.
  simpl. eapply orel_bind; [apply (Hloc i d s l Hs) |].
  intros [d1 s1] [d2 l1] (-> & Hs1 & Hfr).
  eapply orel_bind.
  { apply IH. rewrite (lanes_of_frame _ s); [exact Hr |].
    intros j Hj. apply Hfr. lia. }
  intros [ds2 s2] ls2 [Hl2 Hfr2]. simpl in *.
  split.
  - simpl. rewrite (Hfr2 i) by lia. rewrite Hs1, Hl2. reflexivity.
  - intros j Hj. simpl in Hj. rewrite Hfr2 by lia. apply Hfr. lia.
Qed.
End Lanes.

(** ** Automation *)

Create HintDb tts.
Create Rewrite HintDb tts_rw.


(** Case on the boolean tests the code branches on, as Props. *)
Ltac case_bool :=
  repeat match goal with
  | |- context [Z.ltb ?a ?b] => destruct (Z.ltb_spec a b)
  | |- context [Z.leb ?a ?b] => destruct (Z.leb_spec a b)
  | |- context [Z.eqb ?a ?b] => destruct (Z.eqb_spec a b)
  | |- context [Nat.eqb ?a ?b] => destruct (Nat.eqb_spec a b)
  | |- context [Nat.ltb ?a ?b] => destruct (Nat.ltb_spec a b)
  end.

#[export] Hint Resolve get_at_lookup set_at_lookup : tts.
#[export] Hint Rewrite @obind_done @obind_panic contains_push : tts_rw.
