(* ===== verification/Hx711.v ===== *)
(** * Hx711: the load-cell driver of src/logging/src/load_cell.rs

    The GPIO lines are the capability [Gpio]: a device [P] has its clock
    pin (an output, [set_high]/[set_low]) and its data pin (an input,
    [is_high], which returns the level and the device after the read, so
    that time may pass and the hardware may change between two reads).
    [read_multiple] follows [Hx711::read_multiple] loop by loop over the
    vectors of the function ([wait_polls], [data], the per-iteration
    array [temp] and the failure list [err]); [read] is [Hx711::read].
    The second half of the file proves that the lock-step routine is,
    channel by channel, the single-channel read [read_lane]. *)

From Stdlib Require Import ZArith QArith Lia String.
From stdpp Require Import base list.
From S2P Require Import Prelude.

Class Gpio (P : Type) := {
  set_high : P -> P;
  set_low : P -> P;
  is_high : P -> bool * P
}.

Open Scope Z_scope.

(** Two's complement of a 24-bit code, as lines 124-130 and 158-162
    compute it: [-((x & 0x7FFFFF) ^ 0x7FFFFF) + 1)] when bit 23 is set. *)
Definition decode24 (x : Z) : Z :=
  if 0 <? Z.land x 0x800000
  then - (Z.lxor (Z.land x 0x7FFFFF) 0x7FFFFF + 1)
  else x.

(** Re-encoding a signed reading as a 24-bit code: keep the low 24 bits. *)
Definition encode24 (v : Z) : Z := Z.land v (Z.ones 24).

(** The reading as an exact rational: the signed code over [2^23]. *)
Definition reading_Q (x : Z) : Q := inject_Z (decode24 x) / inject_Z (2 ^ 23).

(** The polling budget of lines 54 and 143. *)
Definition max_wait_polls : Z := 1000000.

(** The vectors of [read_multiple]. *)
Record rm_store := mk_store {
  wait_polls : list Z;
  data : list Z;
  temp : list Z;
  err : list nat
}.

Definition with_wait (w : list Z) (s : rm_store) := mk_store w (data s) (temp s) (err s).
Definition with_data (x : list Z) (s : rm_store) := mk_store (wait_polls s) x (temp s) (err s).
Definition with_temp (t : list Z) (s : rm_store) := mk_store (wait_polls s) (data s) t (err s).
Definition with_err (e : list nat) (s : rm_store) := mk_store (wait_polls s) (data s) (temp s) e.

(** [Result<f64, &str>] and [Result<i32, &str>] of the two readers. *)
Inductive hx_result (A : Type) : Type :=
| HxOk (v : A)
| HxErr (msg : string).
Arguments HxOk {A} v.
Arguments HxErr {A} msg.

Definition read_error : string := "Read Error".
Definition not_ready_error : string := "HX711 device is not ready".
Definition hx_read_error : string := "HX711 read error".

Section Driver.
Context {P : Type} `{Gpio P}.
Context {F : Type} `{FloatOps F}.

(** [Hx711::new] (lines 18-33): the pins are acquired from rppal, the
    one effect on the device is [clock_pin.set_low()]. *)
Definition new (d : P) : P := set_low d.

(** [data_pin.is_low()]: one read of the pin. *)
Definition is_low (d : P) : bool * P :=
  let '(b, d') := is_high d in (negb b, d').

(** The ready gate of one device (lines 53-60, and 142-147 of [read],
    the same loop): while the data pin is high, give up once
    [wait_polls > 1000000], else count the poll.  It returns the final
    count, whether it gave up, and the device.  The loop runs at most
    [max_wait_polls + 2] times, the fuel [wait_fuel]. *)
Fixpoint wait_ready (fuel : nat) (wp : Z) (d : P) : Z * bool * P :=
  match fuel with
  | O => (wp, true, d)
  | S fuel' =>
      let '(high, d') := is_high d in
      if high then
        if max_wait_polls <? wp then (wp, true, d')
        else wait_ready fuel' (wp + 1) d'
      else (wp, false, d')
  end.

Definition wait_fuel : nat := Z.to_nat (max_wait_polls + 2).


(** Lines 52-61, iteration [i]. *)
Definition ready_body (i : nat) (d : P) (s : rm_store) : outcome (P * rm_store) :=
  let* wp := get_at (wait_polls s) i in
  let '(wp', timed_out, d') := wait_ready wait_fuel wp d in
  let* w := set_at (wait_polls s) i wp' in
  Done (d', with_err (if timed_out then err s ++ [i] else err s) (with_wait w s)).

(** Lines 64-66 and 103-105; lines 67-69 and 106-108. *)
Definition clock_high_body (i : nat) (d : P) (s : rm_store) : outcome (P * rm_store) :=
  Done (set_high d, s).
Definition clock_low_body (i : nat) (d : P) (s : rm_store) : outcome (P * rm_store) :=
  Done (set_low d, s).

(** Lines 73-81 (and 82-90, the same loop): [temp[i] = 1] on a high
    pin, which panics when [i >= 24]. *)
Definition sample_body (i : nat) (d : P) (s : rm_store) : outcome (P * rm_store) :=
  if contains (err s) i then Done (d, s)
  else
    let '(high, d') := is_high d in
    if high then let* t := set_at (temp s) i 1 in Done (d', with_temp t s)
    else Done (d', s).

(** Lines 91-100: [data[i] <<= 1], then [data[i] += 1] when the third
    read is high or [temp[i] > 0]; [temp[i]] is read only when the
    third read is low ([||] is lazy). *)
Definition shift_body (i : nat) (d : P) (s : rm_store) : outcome (P * rm_store) :=
  if contains (err s) i then Done (d, s)
  else
    let* x := get_at (data s) i in
    let* dat := set_at (data s) i (shl1_u32 x) in
    let '(high, d') := is_high d in
    let* bit := (if high then Done true else let* t := get_at (temp s) i in Done (0 <? t)) in
    let* dat := (if bit then let* x1 := get_at dat i in set_at dat i (x1 + 1) else Done dat) in
    Done (d', with_data dat s).

(** One iteration of the loop of lines 63-101: the clocks high then low,
    a fresh [temp = [0; 24]], two sampling passes and the shift pass. *)
Definition shift_iteration (devs : list P) (s : rm_store) : outcome (list P * rm_store) :=
  let* (devs, s) := for_each clock_high_body 0 devs s in
  let* (devs, s) := for_each clock_low_body 0 devs s in
  let s := with_temp (replicate 24 0) s in
  let* (devs, s) := for_each sample_body 0 devs s in
  let* (devs, s) := for_each sample_body 0 devs s in
  for_each shift_body 0 devs s.

Fixpoint shift_loop (k : nat) (devs : list P) (s : rm_store) : outcome (list P * rm_store) :=
  match k with
  | O => Done (devs, s)
  | S k' => let* (devs, s) := shift_iteration devs s in shift_loop k' devs s
  end.

(** Lines 110-118: a pin still low after the 25th pulse is an error. *)
Definition post_body (i : nat) (d : P) (s : rm_store) : outcome (P * rm_store) :=
  if contains (err s) i then Done (d, s)
  else
    let '(low, d') := is_low d in
    Done (d', if low then with_err (err s ++ [i]) s else s).

(** Lines 120-134, iteration [i]: the decoded reading divided by
    [0x800000]; [data[i]] is rewritten in place for a negative code. *)
Definition output_body (i : nat) (s : rm_store) : outcome (hx_result F * rm_store) :=
  if contains (err s) i then Done (HxErr read_error, s)
  else
    let* x := get_at (data s) i in
    if 0 <? Z.land x 0x800000 then
      let* dat := set_at (data s) i (Z.land x 0x7FFFFF) in
      let* x1 := get_at dat i in
      let* dat := set_at dat i (Z.lxor x1 0x7FFFFF) in
      let* x2 := get_at dat i in
      let f64_data := (f_of_Z (x2 + 1) ⊗ f_of_Z (-1))%fl in
      Done (HxOk ((f64_data ⊗ f_of_Z 1) ⊘ f_of_Z 0x800000)%fl, with_data dat s)
    else
      let f64_data := f_of_Z x in
      Done (HxOk ((f64_data ⊗ f_of_Z 1) ⊘ f_of_Z 0x800000)%fl, s).

(** Lines 119-135: [output.push] for every device. *)
Fixpoint output_loop (i n : nat) (s : rm_store) (output : list (hx_result F))
    : outcome (list (hx_result F) * rm_store) :=
  match n with
  | O => Done (output, s)
  | S n' => let* (r, s') := output_body i s in output_loop (S i) n' s' (output ++ [r])
  end.

(** [Hx711::read_multiple] (lines 41-137).  The devices are [&mut]:
    their final state is returned with the output vector. *)
Definition read_multiple (devices : list P) : outcome (list P * list (hx_result F)) :=
  let n := length devices in
  let s := mk_store (replicate n 0) (replicate n 0) [] [] in
  let* (devices, s) := for_each ready_body 0 devices s in
  let* (devices, s) := shift_loop 24 devices s in
  let* (devices, s) := for_each clock_high_body 0 devices s in
  let* (devices, s) := for_each clock_low_body 0 devices s in
  let* (devices, s) := for_each post_body 0 devices s in
  let* (output, _) := output_loop 0 n s [] in
  Done (devices, output).

(** The bit loop of [read] (lines 149-156): clock high, shift, clock
    low, then one sample of the data pin. *)
Fixpoint read_bits (k : nat) (d : P) (output : Z) : P * Z :=
  match k with
  | O => (d, output)
  | S k' =>
      let d := set_high d in
      let output := Z.shiftl output 1 in
      let d := set_low d in
      let '(high, d) := is_high d in
      read_bits k' d (if high then output + 1 else output)
  end.

(** [Hx711::read] (lines 139-171), on [i32]. *)
Definition read (d : P) : P * hx_result Z :=
  let d := set_low d in
  let '(_, timed_out, d) := wait_ready wait_fuel 0 d in
  if timed_out then (d, HxErr not_ready_error)
  else
    let '(d, output) := read_bits 24 d 0 in
    let d := set_high d in
    let output :=
      if 0 <? Z.land output 0x800000
      then - (Z.lxor (Z.land output 0x7FFFFF) 0x7FFFFF + 1)
      else output in
    let d := set_low d in
    let '(low, d) := is_low d in
    if low then (d, HxErr hx_read_error) else (d, HxOk output).
End Driver.

(** The fuel is a million: tactics must not unfold it ([vm_compute] does). *)
Opaque wait_fuel.

(** ** One channel

    [slot i s] is what iteration [i] of every loop reads and writes:
    [wait_polls[i]], [data[i]], [temp[i]] ([None] when [i >= 24], where
    [temp[i]] panics) and [err.contains(&i)]. *)

Record lane := mk_lane {
  l_wait : Z;
  l_data : Z;
  l_temp : option Z;
  l_err : bool
}.

Definition slot (i : nat) (s : rm_store) : option lane :=
  match wait_polls s !! i, data s !! i with
  | Some w, Some x => Some (mk_lane w x (temp s !! i) (contains (err s) i))
  | _, _ => None
  end.

Definition init_lane : lane := mk_lane 0 0 None false.

(** A data line held at a fixed level, for concrete runs: [true] is a
    device that never becomes ready, [false] a line shorted low. *)
#[export] Instance level_gpio : Gpio bool := {|
  set_high b := b;
  set_low b := b;
  is_high b := (b, b)
|}.

(** A data line that replays a script of levels, one per read, and
    stays high once the script is spent. *)
#[export] Instance script_gpio : Gpio (list bool) := {|
  set_high bs := bs;
  set_low bs := bs;
  is_high bs := match bs with [] => (true, []) | b :: bs' => (b, bs') end
|}.

(** The script of a device that is ready at once and shifts out the
    24 bits [bits], most significant first: each bit is read three
    times in its iteration, and the line is high after the 25th pulse. *)
Definition sample_script (bits : list bool) : list bool :=
  false :: flat_map (fun b => [b; b; b]) bits ++ [true].

(** The pin events a device sees; [traced_gpio] records them. *)
Inductive pin_event := ClockHigh | ClockLow | DataRead (b : bool).

#[export] Instance traced_gpio {P} `{Gpio P} : Gpio (list pin_event * P) := {|
  set_high td := (td.1 ++ [ClockHigh], set_high td.2);
  set_low td := (td.1 ++ [ClockLow], set_low td.2);
  is_high td := let '(b, d') := is_high td.2 in (b, (td.1 ++ [DataRead b], d'))
|}.

Definition is_clock_event (e : pin_event) : bool :=
  match e with DataRead _ => false | _ => true end.

Definition clock_events (t : list pin_event) : list pin_event := List.filter is_clock_event t.

(** [n] clock pulses: high then low, [n] times. *)
Definition pulses (n : nat) : list pin_event := concat (repeat [ClockHigh; ClockLow] n).

Section Channel.
Context {P : Type} `{Gpio P}.
Context {F : Type} `{FloatOps F}.

(** The loop bodies of [read_multiple] on one channel. *)
Definition ready_lane (i : nat) (dl : P * lane) : outcome (P * lane) :=
  let '(d, l) := dl in
  let '(wp', timed_out, d') := wait_ready wait_fuel (l_wait l) d in
  Done (d', mk_lane wp' (l_data l) (l_temp l) (l_err l || timed_out)).

Definition clock_high_lane (i : nat) (dl : P * lane) : outcome (P * lane) :=
  Done (set_high dl.1, dl.2).

Definition clock_low_lane (i : nat) (dl : P * lane) : outcome (P * lane) :=
  Done (set_low dl.1, dl.2).

(** The fresh [temp] array of an iteration, seen from channel [i]. *)
Definition reset_temp (i : nat) (dl : P * lane) : P * lane :=
  let '(d, l) := dl in (d, mk_lane (l_wait l) (l_data l) (replicate 24 0 !! i) (l_err l)).

Definition sample_lane (i : nat) (dl : P * lane) : outcome (P * lane) :=
  let '(d, l) := dl in
  if l_err l then Done (d, l)
  else
    let '(high, d') := is_high d in
    if high then
      match l_temp l with
      | Some _ => Done (d', mk_lane (l_wait l) (l_data l) (Some 1) (l_err l))
      | None => Panic
      end
    else Done (d', l).

Definition shift_lane (i : nat) (dl : P * lane) : outcome (P * lane) :=
  let '(d, l) := dl in
  if l_err l then Done (d, l)
  else
    let x := shl1_u32 (l_data l) in
    let '(high, d') := is_high d in
    let* bit := (if high then Done true
                 else match l_temp l with Some t => Done (0 <? t) | None => Panic end) in
    Done (d', mk_lane (l_wait l) (if bit then x + 1 else x) (l_temp l) (l_err l)).

Definition iteration_lane (i : nat) (dl : P * lane) : outcome (P * lane) :=
  let* dl := clock_high_lane i dl in
  let* dl := clock_low_lane i dl in
  let* dl := Done (reset_temp i dl) in
  let* dl := sample_lane i dl in
  let* dl := sample_lane i dl in
  shift_lane i dl.

Fixpoint shift_lanes (k : nat) (i : nat) (dl : P * lane) : outcome (P * lane) :=
  match k with
  | O => Done dl
  | S k' => let* dl := iteration_lane i dl in shift_lanes k' i dl
  end.

Definition post_lane (i : nat) (dl : P * lane) : outcome (P * lane) :=
  let '(d, l) := dl in
  if l_err l then Done (d, l)
  else let '(low, d') := is_low d in Done (d', mk_lane (l_wait l) (l_data l) (l_temp l) low).

(** The value pushed for a good channel (lines 123-133). *)
Definition to_reading (x : Z) : F :=
  let f64_data :=
    if 0 <? Z.land x 0x800000
    then (f_of_Z (Z.lxor (Z.land x 0x7FFFFF) 0x7FFFFF + 1) ⊗ f_of_Z (-1))%fl
    else f_of_Z x in
  ((f64_data ⊗ f_of_Z 1) ⊘ f_of_Z 0x800000)%fl.

Definition output_lane (l : lane) : hx_result F :=
  if l_err l then HxErr read_error else HxOk (to_reading (l_data l)).

(** The read of one channel [i], on its own: what [read_multiple] does
    to device [i] and reports for it. *)
Definition read_lane (i : nat) (d : P) : outcome (P * hx_result F) :=
  let* dl := ready_lane i (d, init_lane) in
  let* dl := shift_lanes 24 i dl in
  let* dl := clock_high_lane i dl in
  let* dl := clock_low_lane i dl in
  let* (d', l) := post_lane i dl in
  Done (d', output_lane l).
End Channel.

(** ** Locality of the loop bodies *)

Lemma slot_some i s l :
  slot i s = Some l ->
  wait_polls s !! i = Some (l_wait l) /\ data s !! i = Some (l_data l) /\
  temp s !! i = l_temp l /\ contains (err s) i = l_err l.
Proof.
  unfold slot. destruct (wait_polls s !! i), (data s !! i); intros H; invc H; auto.
Qed.

(** The other slots of a store changed at slot [i] only. *)
Ltac slot_frame :=
  let j := fresh "j" in let Hj := fresh "Hj" in
  intros j Hj; unfold slot; simpl;
  rewrite ?list_lookup_insert_ne by congruence; rewrite ?contains_push;
  try (replace (Nat.eqb j _) with false by (symmetry; apply Nat.eqb_neq; congruence));
  rewrite ?orb_false_r; reflexivity.

Ltac slot_here Hw Hd Ht He :=
  unfold slot; simpl;
  rewrite ?list_lookup_insert_eq by (eapply lookup_lt_Some; eauto);
  rewrite ?Hw, ?Hd, ?Ht; rewrite ?contains_push, ?Nat.eqb_refl, ?He; reflexivity.

Section Locality.
Context {P : Type} `{Gpio P}.

Lemma ready_local : body_local slot (@ready_body P _) ready_lane.
Proof.
  intros i d s [w x t e] Hs. destruct (slot_some _ _ _ Hs) as (Hw & Hd & Ht & He); simpl in *.
  unfold ready_body, ready_lane; simpl. rewrite (get_at_lookup _ _ _ Hw). simpl.
  destruct (wait_ready wait_fuel w d) as [[wp' to] d'].
  rewrite (set_at_lookup _ _ _ _ Hw). simpl. split; [reflexivity | split].
  - unfold slot; simpl. rewrite list_lookup_insert_eq by (eapply lookup_lt_Some; eauto).
    rewrite Hd, Ht. destruct to; rewrite ?contains_push, ?Nat.eqb_refl, He, ?orb_false_r; reflexivity.
  - destruct to; slot_frame.
Qed.

Lemma clock_high_local : body_local slot (@clock_high_body P _) clock_high_lane.
Proof. intros i d s l Hs. simpl. auto. Qed.

Lemma clock_low_local : body_local slot (@clock_low_body P _) clock_low_lane.
Proof. intros i d s l Hs. simpl. auto. Qed.

Lemma sample_local : body_local slot (@sample_body P _) sample_lane.
Proof.
  intros i d s [w x t e] Hs. destruct (slot_some _ _ _ Hs) as (Hw & Hd & Ht & He); simpl in *.
  unfold sample_body, sample_lane. rewrite He. destruct e; [simpl; auto |].
  destruct (is_high d) as [[|] d'].
  - destruct t as [t|].
    + rewrite (set_at_lookup _ _ _ _ Ht). simpl. split; [reflexivity | split].
      * slot_here Hw Hd Ht He.
      * slot_frame.
    + rewrite (set_at_none _ _ _ Ht). exact I.
  - simpl. auto.
Qed.

Lemma shift_local : body_local slot (@shift_body P _) shift_lane.
Proof.
  intros i d s [w x t e] Hs. destruct (slot_some _ _ _ Hs) as (Hw & Hd & Ht & He); simpl in *.
  unfold shift_body, shift_lane. rewrite He. destruct e; [simpl; auto |].
  rewrite (get_at_lookup _ _ _ Hd). simpl. rewrite (set_at_lookup _ _ _ _ Hd). simpl.
  assert (Hd' : <[i:=shl1_u32 x]> (data s) !! i = Some (shl1_u32 x))
    by (apply list_lookup_insert_eq; eapply lookup_lt_Some; eauto).
  destruct (is_high d) as [[|] d'].
  - simpl. rewrite (get_at_lookup _ _ _ Hd'). simpl. rewrite (set_at_lookup _ _ _ _ Hd'). simpl.
    split; [reflexivity | split].
    + unfold slot; simpl. rewrite list_insert_insert_eq, list_lookup_insert_eq by (eapply lookup_lt_Some; eauto).
      rewrite Hw, Ht, He. reflexivity.
    + slot_frame.
  - destruct t as [t|]; [| rewrite (get_at_none _ _ Ht); exact I].
    rewrite (get_at_lookup _ _ _ Ht). simpl.
    destruct (0 <? t).
    + rewrite (get_at_lookup _ _ _ Hd'). simpl. rewrite (set_at_lookup _ _ _ _ Hd'). simpl.
      split; [reflexivity | split].
      * unfold slot; simpl. rewrite list_insert_insert_eq, list_lookup_insert_eq by (eapply lookup_lt_Some; eauto).
        rewrite Hw, Ht, He. reflexivity.
      * slot_frame.
    + simpl. split; [reflexivity | split].
      * slot_here Hw Hd Ht He.
      * slot_frame.
Qed.

Lemma post_local : body_local slot (@post_body P _) post_lane.
Proof.
  intros i d s [w x t e] Hs. destruct (slot_some _ _ _ Hs) as (Hw & Hd & Ht & He); simpl in *.
  unfold post_body, post_lane, is_low. rewrite He. destruct e; [simpl; auto |].
  destruct (is_high d) as [[|] d']; simpl; (split; [reflexivity | split]).
  - unfold slot; simpl. rewrite Hw, Hd, Ht, He. reflexivity.
  - auto.
  - slot_here Hw Hd Ht He.
  - slot_frame.
Qed.
End Locality.

(** ** The lock-step read is the channel-by-channel read *)

Section Refinement.
Context {P : Type} `{Gpio P}.
Context {F : Type} `{FloatOps F}.

(** The relation kept between the vectors and the lanes: the lanes are
    the slots of the [n] devices. *)
Definition lanes_rel_n (n : nat) (r : list P * rm_store) (ls : list (P * lane)) : Prop :=
  lanes_of slot 0 r.2 r.1 = Some ls /\ length ls = n.

Lemma pass_sim body lbody n ds s ls :
  body_local slot body lbody -> lanes_of slot 0 s ds = Some ls -> length ls = n ->
  orel (lanes_rel_n n) (for_each body 0 ds s) (omapi lbody 0 ls).
Proof.
  intros Hloc Hl Hn. eapply orel_weaken_r; [apply (for_each_sim slot body lbody Hloc _ _ _ _ Hl) |].
  intros [ds' s'] ls' Hd [H1 _]. split; [exact H1 |]. apply omapi_length in Hd. lia.
Qed.

Lemma shift_iteration_sim n ds s ls :
  lanes_of slot 0 s ds = Some ls -> length ls = n ->
  orel (lanes_rel_n n) (shift_iteration ds s) (omapi iteration_lane 0 ls).
Proof.
  intros Hl Hn. unfold shift_iteration, iteration_lane.
  eapply orel_omapi_bind; [apply (pass_sim _ _ n _ _ _ clock_high_local Hl Hn) |].
  intros [ds1 s1] ls1 [H1 Hn1]. cbv beta iota zeta.
  eapply orel_omapi_bind; [apply (pass_sim _ _ n _ _ _ clock_low_local H1 Hn1) |].
  intros [ds2 s2] ls2 [H2 Hn2]. cbv beta iota zeta.
  rewrite omapi_pure_stage.
  eapply orel_omapi_bind.
  { apply (pass_sim _ _ n _ _ _ sample_local); [| by rewrite imap_from_length].
    apply (lanes_of_store slot (with_temp (replicate 24 0))
             (fun j l => mk_lane (l_wait l) (l_data l) (replicate 24 0 !! j) (l_err l)));
      [| exact H2].
    intros j l Hs. destruct (slot_some _ _ _ Hs) as (Hw & Hd & Ht & He).
    unfold slot; simpl. by rewrite Hw, Hd, He. }
  intros [ds3 s3] ls3 [H3 Hn3]. cbv beta iota zeta.
  eapply orel_omapi_bind; [apply (pass_sim _ _ n _ _ _ sample_local H3 Hn3) |].
  intros [ds4 s4] ls4 [H4 Hn4].
  exact (pass_sim _ _ n _ _ _ shift_local H4 Hn4).
Qed.

Lemma shift_loop_sim k n ds s ls :
  lanes_of slot 0 s ds = Some ls -> length ls = n ->
  orel (lanes_rel_n n) (shift_loop k ds s) (omapi (shift_lanes k) 0 ls).
Proof.
  revert ds s ls. induction k as [|k IH]; intros ds s ls Hl Hn.
  - simpl. rewrite (omapi_total (fun _ dl => dl)).
    assert (Hid : forall i (l : list (P * lane)), imap_from (fun _ dl => dl) i l = l)
      by (intros i l; revert i; induction l; simpl; congruence).
    rewrite Hid. split; [exact Hl | exact Hn].
  - change (orel (lanes_rel_n n) (shift_loop (S k) ds s)
              (omapi (fun j dl => obind (iteration_lane j dl) (shift_lanes k j)) 0 ls)).
    simpl. eapply orel_omapi_bind; [apply (shift_iteration_sim n _ _ _ Hl Hn) |].
    intros [ds1 s1] ls1 [H1 Hn1]. exact (IH _ _ _ H1 Hn1).
Qed.

Lemma output_body_spec i s l :
  slot i s = Some l ->
  exists s', output_body i s = Done (output_lane (F := F) l, s') /\
             forall j, j <> i -> slot j s' = slot j s.
Proof.
  intros Hs. destruct (slot_some _ _ _ Hs) as (Hw & Hd & Ht & He).
  destruct l as [w x t e]; simpl in *.
  unfold output_body, output_lane, to_reading. rewrite He. destruct e; [by exists s |].
  rewrite (get_at_lookup _ _ _ Hd). simpl.
  destruct (0 <? Z.land x 0x800000).
  - rewrite (set_at_lookup _ _ _ _ Hd). simpl.
    assert (Hlt : (i < length (data s))%nat) by (eapply lookup_lt_Some; eauto).
    rewrite (get_at_lookup _ _ _ (list_lookup_insert_eq _ _ _ Hlt)). simpl.
    rewrite (set_at_lookup _ _ _ _ (list_lookup_insert_eq _ _ _ Hlt)). simpl.
    rewrite (get_at_lookup _ _ _ (list_lookup_insert_eq _ _ _ (eq_ind_r (fun m => (i < m)%nat) Hlt (length_insert _ _ _)))).
    simpl. eexists; split; [reflexivity | slot_frame].
  - eexists; split; [reflexivity | auto].
Qed.

Lemma output_loop_spec ds i s out ls :
  lanes_of slot i s ds = Some ls ->
  exists s', output_loop (F := F) i (length ds) s out
             = Done (out ++ map (fun dl : P * lane => output_lane dl.2) ls, s').
Proof.
  revert i s out ls. induction ds as [|d ds IH]; simpl; intros i s out ls Hl.
  { invc Hl. exists s. by rewrite app_nil_r. }
  destruct (slot i s) as [l|] eqn:Hs; simpl in Hl; [| done].
  destruct (lanes_of slot (S i) s ds) as [ls'|] eqn:Hr; simpl in Hl; [| done]. invc Hl.
  destruct (output_body_spec _ _ _ Hs) as (s1 & -> & Hfr). simpl.
  rewrite <- (lanes_of_frame slot (S i) s s1) in Hr by (intros j Hj; apply Hfr; lia).
  destruct (IH _ _ (out ++ [output_lane l]) _ Hr) as [s2 ->].
  exists s2. by rewrite <- app_assoc.
Qed.

Lemma lanes_of_init ds i s :
  (forall j, (i <= j < i + length ds)%nat -> slot j s = Some init_lane) ->
  lanes_of slot i s ds = Some (map (fun d : P => (d, init_lane)) ds).
Proof.
  revert i. induction ds as [|d ds IH]; intros i Hj; [reflexivity |].
  simpl. rewrite Hj by (simpl; lia). simpl. rewrite IH; [reflexivity |].
  intros j Hj'. apply Hj. simpl. lia.
Qed.

Lemma read_multiple_lanes (devs : list P) :
  read_multiple (F := F) devs = omap (fun res => (map fst res, map snd res)) (omapi read_lane 0 devs).
Proof.
  apply orel_omap_eq. unfold read_multiple, read_lane.
  set (n := length devs).
  assert (Hinit : lanes_of slot 0 (mk_store (replicate n 0) (replicate n 0) [] []) devs
               = Some (map (fun d => (d, init_lane)) devs)).
  { apply lanes_of_init. intros j Hj. unfold slot; simpl.
    rewrite !lookup_replicate_2 by (subst n; lia). reflexivity. }
  eapply (orel_omapi_bind _ _ _ _ (fun j d => ready_lane j (d, init_lane))).
  { rewrite <- (omapi_map ready_lane (fun d => (d, init_lane))).
    apply (pass_sim _ _ n _ _ _ ready_local Hinit). by rewrite length_map. }
  intros [ds1 s1] ls1 [H1 Hn1]. cbv beta iota zeta.
  eapply orel_omapi_bind; [apply (shift_loop_sim 24 n _ _ _ H1 Hn1) |].
  intros [ds2 s2] ls2 [H2 Hn2]. cbv beta iota zeta.
  eapply orel_omapi_bind; [apply (pass_sim _ _ n _ _ _ clock_high_local H2 Hn2) |].
  intros [ds3 s3] ls3 [H3 Hn3]. cbv beta iota zeta.
  eapply orel_omapi_bind; [apply (pass_sim _ _ n _ _ _ clock_low_local H3 Hn3) |].
  intros [ds4 s4] ls4 [H4 Hn4]. cbv beta iota zeta.
  eapply orel_omapi_bind; [apply (pass_sim _ _ n _ _ _ post_local H4 Hn4) |].
  intros [ds5 s5] ls5 [H5 Hn5]. simpl in H5.
  rewrite (omapi_total_ext _ (fun _ '(d', l) => (d', output_lane l))) by (intros j [d' l]; reflexivity).
  pose proof (lanes_of_fst slot _ _ _ _ H5) as Hfst.
  replace n with (length ds5) by (subst ds5; rewrite length_map; done).
  destruct (output_loop_spec _ _ _ [] _ H5) as [s6 ->]. simpl.
  rewrite imap_from_const. rewrite <- Hfst. clear.
  induction ls5 as [|[d l] ls IH]; simpl; [reflexivity |]. by invc IH.
Qed.

(** C1: [read_multiple] reads every channel exactly as [read_lane] reads
    it alone: the lock-step interleaving of the loops is invisible, and
    one channel's failure or panic is the channel's own. *)
Theorem read_multiple_channelwise (devs : list P) :
  read_multiple (F := F) devs = omap (fun res => (map fst res, map snd res)) (omapi read_lane 0 devs).
Proof. apply read_multiple_lanes. Qed.
End Refinement.

(** ** Two's-complement decoding *)

Lemma land_bit23 x : 0 <= x < 2 ^ 24 -> Z.land x 0x800000 = if x <? 2 ^ 23 then 0 else 2 ^ 23.
Proof.
  intros Hx. change 0x800000 with (2 ^ 23).
  apply Z.bits_inj'. intros m Hm. rewrite Z.land_spec, Z.pow2_bits_eqb by lia.
  destruct (Z.eqb_spec 23 m) as [<-|Hne].
  - destruct (Z.ltb_spec x (2 ^ 23)).
    + rewrite Z.testbit_0_l. apply Bool.andb_false_iff. left.
      apply Z.testbit_false; [lia |]. rewrite Z.div_small; [reflexivity | lia].
    + rewrite Z.pow2_bits_true by lia. rewrite andb_true_r.
      apply Z.testbit_true; [lia |].
      replace (x / 2 ^ 23) with 1; [reflexivity |].
      apply (Z.div_unique_pos _ _ _ (x - 2 ^ 23)); lia.
  - rewrite andb_false_r. destruct (x <? 2 ^ 23).
    + by rewrite Z.testbit_0_l.
    + rewrite Z.pow2_bits_eqb by lia. symmetry. apply Z.eqb_neq. lia.
Qed.

(** The code's decoding is two's complement on 24 bits. *)
Lemma decode24_spec x : 0 <= x < 2 ^ 24 -> decode24 x = if x <? 2 ^ 23 then x else x - 2 ^ 24.
Proof.
  intros Hx. unfold decode24. rewrite land_bit23 by lia.
  destruct (Z.ltb_spec x (2 ^ 23)); [reflexivity |]. simpl.
  change 0x7FFFFF with (Z.ones 23).
  rewrite Z.land_ones by lia. rewrite lxor_ones_small by (try apply Z.mod_pos_bound; lia).
  rewrite Z.ones_equiv. rewrite (Z.mod_eq x (2 ^ 23)) by lia.
  replace (x / 2 ^ 23) with 1 by (apply (Z.div_unique_pos _ _ _ (x - 2 ^ 23)); lia).
  lia.
Qed.

#[export] Hint Rewrite decode24_spec using lia : tts_rw.

Lemma decode24_range x : 0 <= x < 2 ^ 24 -> - 2 ^ 23 <= decode24 x < 2 ^ 23.
Proof. intros Hx. rewrite decode24_spec by lia. destruct (Z.ltb_spec x (2 ^ 23)); lia. Qed.

Lemma encode24_spec v : encode24 v = v mod 2 ^ 24.
Proof. unfold encode24. apply Z.land_ones. lia. Qed.

(** decode then re-encode is the identity on every 24-bit code,
    [0x800000] included. *)
Theorem decode24_roundtrip x : 0 <= x < 2 ^ 24 -> encode24 (decode24 x) = x.
Proof.
  intros Hx. rewrite encode24_spec, decode24_spec by lia.
  destruct (Z.ltb_spec x (2 ^ 23)).
  - apply Z.mod_small. lia.
  - rewrite <- (Z.mod_add _ 1) by lia. replace (x - 2 ^ 24 + 1 * 2 ^ 24) with x by lia.
    apply Z.mod_small. lia.
Qed.

(** encode then decode is the identity on every signed 24-bit value. *)
Theorem encode24_roundtrip v : - 2 ^ 23 <= v < 2 ^ 23 -> decode24 (encode24 v) = v.
Proof.
  intros Hv. pose proof (Z.mod_pos_bound v (2 ^ 24) ltac:(lia)) as Hb.
  rewrite encode24_spec, decode24_spec by lia.
  destruct (Z.ltb_spec v 0).
  - rewrite <- (Z.mod_add _ 1) by lia. rewrite Z.mod_small by lia.
    destruct (Z.ltb_spec (v + 1 * 2 ^ 24) (2 ^ 23)); lia.
  - rewrite Z.mod_small by lia. destruct (Z.ltb_spec v (2 ^ 23)); lia.
Qed.

(** In exact arithmetic the value pushed by line 133 is the signed code
    over [2^23]. *)
Lemma to_reading_Q x : 0 <= x < 2 ^ 24 -> to_reading (F := Q) x == reading_Q x.
Proof.
  intros Hx. unfold to_reading, reading_Q, decode24.
  cbv beta iota delta [f_of_Z f_mul f_div Q_ops].
  change (2 ^ 23) with 0x800000.
  destruct (0 <? Z.land x 0x800000);
    [rewrite inject_Z_opp |]; field; unfold Qeq; simpl; lia.
Qed.

Lemma reading_Q_make x : reading_Q x == decode24 x # 8388608.
Proof. unfold reading_Q, Qeq, Qdiv, Qmult, Qinv, inject_Z. simpl. lia. Qed.

Lemma reading_Q_bounds x : 0 <= x < 2 ^ 24 -> (-1 <= reading_Q x < 1)%Q.
Proof.
  intros Hx. rewrite reading_Q_make. pose proof (decode24_range x Hx) as Hr.
  unfold Qle, Qlt; simpl. lia.
Qed.

(** every reading lies in [-1, 1); it is [-1] exactly for the code
    [0x800000], so the magnitude is not always below 1. *)
Theorem reading_Q_range x :
  0 <= x < 2 ^ 24 -> (-1 <= reading_Q x < 1)%Q /\ (reading_Q x == -1 <-> x = 0x800000).
Proof.
  intros Hx. rewrite reading_Q_make. pose proof (decode24_range x Hx) as Hr.
  pose proof (decode24_spec x Hx) as Hs.
  unfold Qle, Qlt, Qeq; simpl. destruct (Z.ltb_spec x (2 ^ 23)); lia.
Qed.

(** ** One channel on any hardware *)

Section AnyHardware.
Context {P : Type} `{Gpio P}.
Context {F : Type} `{FloatOps F}.

Definition pulse (d : P) : P := set_low (set_high d).

Lemma iteration_failed i d l :
  l_err l = true ->
  iteration_lane i (d, l) = Done (pulse d, mk_lane (l_wait l) (l_data l) (replicate 24 0 !! i) true).
Proof. destruct l as [w x t e]; simpl; intros ->. reflexivity. Qed.

(** A channel that failed the ready gate is only clocked. *)
Lemma shift_lanes_failed k i d l :
  l_err l = true -> exists l', shift_lanes k i (d, l) = Done (Nat.iter k pulse d, l') /\ l_err l' = true.
Proof.
  revert d l. induction k as [|k IH]; intros d l He; [by exists l |].
  change (shift_lanes (S k) i (d, l)) with (obind (iteration_lane i (d, l)) (shift_lanes k i)).
  rewrite iteration_failed by done. cbn [obind].
  destruct (IH (pulse d) (mk_lane (l_wait l) (l_data l) (replicate 24 0 !! i) true) eq_refl)
    as (l' & -> & He').
  exists l'. by rewrite <- Nat.iter_succ_r.
Qed.

(** A channel whose ready gate gave up reports [Err("Read Error")] after
    25 clock pulses, whatever its data pin does afterwards. *)
Lemma read_lane_timeout i d wp d1 :
  wait_ready wait_fuel 0 d = (wp, true, d1) ->
  read_lane (F := F) i d = Done (Nat.iter 25 pulse d1, HxErr read_error).
Proof.
  intros Hw.
  assert (Hr : ready_lane i (d, init_lane) = Done (d1, mk_lane wp 0 None true))
    by (unfold ready_lane; simpl; rewrite Hw; reflexivity).
  unfold read_lane. rewrite Hr. cbn [obind].
  destruct (shift_lanes_failed 24 i d1 (mk_lane wp 0 None true) eq_refl) as (l' & -> & He).
  cbn [obind]. destruct l' as [w x t e]; simpl in He; subst. reflexivity.
Qed.

Section Stuck.
(** A device whose data pin stays high: the HX711 never finishes a
    conversion (unpowered, disconnected, or busy). *)
Variable stuck : P -> Prop.
Hypothesis stuck_high : forall d, stuck d -> (is_high d).1 = true /\ stuck (is_high d).2.

Lemma wait_ready_stuck fuel wp d : stuck d -> (wait_ready fuel wp d).1.2 = true /\ stuck (wait_ready fuel wp d).2.
Proof.
  revert wp d. induction fuel as [|fuel IH]; intros wp d Hd; [auto |].
  simpl. destruct (stuck_high d Hd) as [Hb Hd'].
  destruct (is_high d) as [b d']; simpl in *; subst.
  destruct (max_wait_polls <? wp); [auto | apply IH; exact Hd'].
Qed.

Lemma read_lane_stuck i d : stuck d -> exists d', read_lane (F := F) i d = Done (d', HxErr read_error).
Proof.
  intros Hd. destruct (wait_ready_stuck wait_fuel 0 d Hd) as [Ht _].
  destruct (wait_ready wait_fuel 0 d) as [[wp to] d1] eqn:Hw. simpl in Ht. subst.
  eexists. apply (read_lane_timeout i d wp d1 Hw).
Qed.
End Stuck.
End AnyHardware.

(** ** Properties of a whole frame *)

Section Frame.
Context {P : Type} `{Gpio P}.
Context {F : Type} `{FloatOps F}.

Lemma read_multiple_channel_of devs devs' out j d :
  read_multiple (F := F) devs = Done (devs', out) -> devs !! j = Some d ->
  exists r, read_lane j d = Done r /\ devs' !! j = Some r.1 /\ out !! j = Some r.2.
Proof.
  rewrite read_multiple_lanes.
  destruct (omapi (read_lane (F := F)) 0 devs) as [res|] eqn:E; simpl; [| done].
  intros Hr Hj. invc Hr. destruct (omapi_lookup _ _ _ _ _ _ E Hj) as (y & Hy & Hl).
  exists y. split; [exact Hy |]. split; apply lookup_map_some; exact Hl.
Qed.

Lemma read_multiple_panic_iff devs :
  read_multiple (F := F) devs = Panic <-> exists j d, devs !! j = Some d /\ read_lane (F := F) j d = Panic.
Proof.
  rewrite read_multiple_lanes. split.
  - destruct (omapi (read_lane (F := F)) 0 devs) eqn:E; simpl; [done |]. intros _. exact (omapi_panic_inv _ _ _ E).
  - intros (j & d & Hj & Hd). by rewrite (omapi_panic _ 0 _ _ _ Hj Hd).
Qed.

Section StuckChannel.
Variable stuck : P -> Prop.
Hypothesis stuck_high : forall d, stuck d -> (is_high d).1 = true /\ stuck (is_high d).2.

(** C12: a channel [k] whose device never leaves busy reports
    [Err("Read Error")], and never is the channel that makes the frame
    panic; every other channel is read as if [k] were absent. *)
Theorem read_multiple_stuck_channel devs k dk :
  devs !! k = Some dk -> stuck dk ->
  (forall devs' out, read_multiple (F := F) devs = Done (devs', out) -> out !! k = Some (HxErr read_error)) /\
  (read_multiple (F := F) devs = Panic ->
     exists j d, j <> k /\ devs !! j = Some d /\ read_lane (F := F) j d = Panic).
Proof.
  intros Hk Hs. destruct (read_lane_stuck stuck stuck_high k dk Hs) as [d' Hd'].
  split.
  - intros devs' out Hr. destruct (read_multiple_channel_of _ _ _ _ _ Hr Hk) as (r & Hr' & _ & ->).
    rewrite Hd' in Hr'. by invc Hr'.
  - intros Hp. apply read_multiple_panic_iff in Hp as (j & d & Hj & Hd).
    exists j, d. repeat split; auto. intros ->. rewrite Hk in Hj. invc Hj. congruence.
Qed.
End StuckChannel.
Lemma read_multiple_lengths_out devs devs' out :
  read_multiple (F := F) devs = Done (devs', out) -> length out = length devs.
Proof.
  rewrite read_multiple_lanes. destruct (omapi _ 0 devs) as [res|] eqn:E; [|discriminate].
  cbn. intros Hd. invc Hd. apply omapi_length in E. rewrite length_map. exact E.
Qed.
End Frame.

(** ** The type of a reading

    On any hardware, the accumulator of a channel holds at most [k] bits
    after [k] iterations, so the [u32] shift never drops a bit and every
    reading [read_multiple] returns lies in [-1, 1). *)

Section Readings.
Context {P : Type} `{Gpio P}.

Lemma sample_lane_data i (d d' : P) l l' : sample_lane i (d, l) = Done (d', l') -> l_data l' = l_data l.
Proof.
  unfold sample_lane. destruct (l_err l); [intros E; invc E; reflexivity|].
  destruct (is_high d) as [[|] d1]; [destruct (l_temp l)|]; intros E; invc E; reflexivity.
Qed.

Lemma iteration_lane_data i (d d' : P) l l' : iteration_lane i (d, l) = Done (d', l') ->
  0 <= l_data l < 2 ^ 31 ->
  l_data l' = l_data l \/ l_data l' = 2 * l_data l \/ l_data l' = 2 * l_data l + 1.
Proof.
  intros E Hb. unfold iteration_lane in E. cbn [clock_high_lane clock_low_lane obind fst snd reset_temp] in E.
  destruct (sample_lane i _) as [[d1 l1]|] eqn:E1; [|discriminate]. cbn [obind] in E.
  destruct (sample_lane i (d1, l1)) as [[d2 l2]|] eqn:E2; [|discriminate]. cbn [obind] in E.
  apply sample_lane_data in E1, E2. cbn [l_data] in E1.
  unfold shift_lane in E. destruct (l_err l2); [invc E; left; congruence|].
  rewrite shl1_u32_small in E by lia.
  destruct (is_high d2) as [[|] d3]; [|destruct (l_temp l2) as [t|]; [|discriminate]];
    cbn [obind] in E; try destruct (0 <? t); invc E; cbn [l_data]; lia.
Qed.

Lemma shift_lanes_data k i (d d' : P) l l' m : shift_lanes k i (d, l) = Done (d', l') ->
  0 <= l_data l < 2 ^ Z.of_nat m -> (m + k <= 31)%nat -> 0 <= l_data l' < 2 ^ Z.of_nat (m + k).
Proof.
  revert d l m. induction k as [|k IH]; intros d l m E Hb Hk.
  - invc E. rewrite Nat.add_0_r. exact Hb.
  - cbn [shift_lanes] in E. destruct (iteration_lane i (d, l)) as [[d1 l1]|] eqn:E1; [|discriminate].
    cbn [obind] in E. replace (m + S k)%nat with (S m + k)%nat by lia. apply (IH d1 l1 (S m) E); [|lia].
    assert (Hp : 2 ^ Z.of_nat m <= 2 ^ 31) by (apply Z.pow_le_mono_r; lia).
    rewrite Nat2Z.inj_succ, Z.pow_succ_r by lia.
    destruct (iteration_lane_data i d d1 l l1 E1 ltac:(lia)) as [-> | [-> | ->]]; lia.
Qed.

Lemma read_lane_value {F} `{FloatOps F} i (d d' : P) x : read_lane (F := F) i d = Done (d', HxOk x) ->
  exists v, 0 <= v < 2 ^ 24 /\ x = to_reading v.
Proof.
  unfold read_lane, ready_lane, init_lane. cbn [l_wait l_data l_temp l_err].
  destruct (wait_ready wait_fuel 0 d) as [[wp to] d0]. cbn [obind].
  destruct (shift_lanes 24 i (d0, _)) as [[d1 l1]|] eqn:E; cbn [obind]; [|discriminate].
  apply shift_lanes_data with (m := O) in E; [|cbn; lia|lia]. cbn in E.
  unfold clock_high_lane, clock_low_lane, post_lane. cbn [obind fst snd].
  destruct (l_err l1) eqn:Ee; [|destruct (is_low _)]; cbn [obind]; intros R; invc R;
    unfold output_lane in *; cbn [l_err l_data] in *; rewrite ?Ee in *; try discriminate.
  all: repeat match goal with b : bool |- _ => destruct b end; try discriminate.
  all: match goal with H : _ = HxOk _ |- _ => invc H end; eexists; split; [|reflexivity]; lia.
Qed.
Lemma iteration_lane_total i (dl : P * lane) : (i < 24)%nat -> exists r, iteration_lane i dl = Done r.
Proof.
  intros Hi. destruct dl as [d l].
  unfold iteration_lane, clock_high_lane, clock_low_lane, reset_temp, sample_lane, shift_lane.
  cbn [obind fst snd]. rewrite lookup_replicate_2 by lia. cbn [l_err l_temp l_data l_wait].
  destruct (l_err l); [eauto|].
  repeat match goal with |- context [is_high ?x] =>
    destruct (is_high x) as [[|] ?]; cbn [obind l_err l_temp l_data l_wait] end; eauto.
Qed.

Lemma shift_lanes_total k i (dl : P * lane) : (i < 24)%nat -> exists r, shift_lanes k i dl = Done r.
Proof.
  intros Hi. revert dl. induction k as [|k IH]; intros dl; [eexists; reflexivity|].
  cbn [shift_lanes]. destruct (iteration_lane_total i dl Hi) as [dl1 ->]. apply IH.
Qed.

(** A channel of index below 24 reads without a panic, on any hardware. *)
Lemma read_lane_total {F} `{FloatOps F} i (d : P) : (i < 24)%nat -> exists r, read_lane (F := F) i d = Done r.
Proof.
  intros Hi. unfold read_lane, ready_lane.
  destruct (wait_ready wait_fuel (l_wait init_lane) d) as [[wp to] d0]. cbn [obind].
  destruct (shift_lanes_total 24 i (d0, mk_lane wp (l_data init_lane) (l_temp init_lane) (l_err init_lane || to)) Hi)
    as [[d1 l1] ->].
  unfold clock_high_lane, clock_low_lane, post_lane. cbn [obind fst snd].
  destruct (l_err l1); [|destruct (is_low _)]; cbn [obind]; eauto.
Qed.

End Readings.

(** C18: Every value [read_multiple] returns, on any hardware, is a
    [Reading] of the design's type: a number in [-1, 1). *)
Theorem read_multiple_readings_range {P} `{Gpio P} (devs devs' : list P) out j x :
  read_multiple (F := Q) devs = Done (devs', out) -> out !! j = Some (HxOk x) -> (-1 <= x < 1)%Q.
Proof.
  intros Hr Hj. destruct (devs !! j) as [d|] eqn:Hd.
  - destruct (read_multiple_channel_of _ _ _ j d Hr Hd) as ([d1 r] & Hl & _ & Ho).
    rewrite Hj in Ho. invc Ho. destruct (read_lane_value j d d1 x Hl) as (v & Hv & ->).
    rewrite (to_reading_Q v Hv). apply reading_Q_bounds, Hv.
  - apply read_multiple_lengths_out in Hr. apply lookup_lt_Some in Hj. apply lookup_ge_None in Hd. lia.
Qed.

Lemma read_multiple_not_panic {P} `{Gpio P} {F} `{FloatOps F} (devs : list P) :
  (length devs <= 24)%nat -> read_multiple (F := F) devs <> Panic.
Proof.
  intros Hl E. destruct (proj1 (read_multiple_panic_iff devs) E) as (j & d & Hj & Hp).
  apply lookup_lt_Some in Hj. destruct (read_lane_total (F := F) j d ltac:(lia)) as [r Hr]. congruence.
Qed.

(** C15: With at most 24 devices [read_multiple] returns on any
    hardware, one result per device: the [temp] array of 24 entries,
    indexed by the device, is the only place where it can panic. *)
Theorem read_multiple_total {P} `{Gpio P} {F} `{FloatOps F} (devs : list P) : (length devs <= 24)%nat ->
  exists devs' out, read_multiple (F := F) devs = Done (devs', out) /\ length out = length devs.
Proof.
  intros Hl. destruct (read_multiple (F := F) devs) as [[devs' out]|] eqn:E.
  - exists devs', out. split; [reflexivity|]. exact (read_multiple_lengths_out devs devs' out E).
  - exfalso. exact (read_multiple_not_panic devs Hl E).
Qed.

Lemma read_multiple_total_witness :
  (length [true; false] <= 24)%nat /\ exists devs' out,
    read_multiple (F := Q) [true; false] = Done (devs', out) /\ length out = length [true; false].
Proof. split; [cbn; lia|]. apply read_multiple_total. cbn. lia. Defined.

(** A device that shifts out [0x800000] gives the least reading, -1. *)
Lemma read_multiple_readings_range_witness :
  read_multiple (F := Q) [sample_script (true :: replicate 23 false)]
    = Done ([[]], [HxOk (-8388608 # 8388608)]) /\ (-1 <= -8388608 # 8388608 < 1)%Q.
Proof.
  assert (E : read_multiple (F := Q) [sample_script (true :: replicate 23 false)]
              = Done ([[]], [HxOk (-8388608 # 8388608)])) by (vm_compute; reflexivity).
  split; [exact E|]. exact (read_multiple_readings_range _ _ _ 0 _ E eq_refl).
Defined.

(** ** Clock pulses *)

Section Trace.
Context {P : Type} `{Gpio P}.
Context {F : Type} `{FloatOps F}.

Definition clk (td : list pin_event * P) : list pin_event := clock_events td.1.

Lemma clock_events_app t u : clock_events (t ++ u) = clock_events t ++ clock_events u.
Proof.
  unfold clock_events. induction t as [|e t IH]; [reflexivity |].
  simpl. destruct (is_clock_event e); simpl; congruence.
Qed.

Lemma pulses_S_r n : pulses (S n) = pulses n ++ [ClockHigh; ClockLow].
Proof.
  unfold pulses. induction n as [|n IH]; [reflexivity |].
  change (concat (repeat [ClockHigh; ClockLow] (S (S n))))
    with ([ClockHigh; ClockLow] ++ concat (repeat [ClockHigh; ClockLow] (S n))).
  rewrite IH at 1. rewrite app_assoc. reflexivity.
Qed.

Lemma read_clk (td : list pin_event * P) : clk (is_high td).2 = clk td.
Proof.
  destruct td as [t d]. unfold clk. simpl. destruct (is_high d) as [b d']. simpl.
  rewrite clock_events_app. simpl. by rewrite app_nil_r.
Qed.

Lemma wait_ready_clk fuel wp (td : list pin_event * P) : clk (wait_ready fuel wp td).2 = clk td.
Proof.
  revert wp td. induction fuel as [|fuel IH]; intros wp td; [reflexivity |].
  cbn [wait_ready]. pose proof (read_clk td) as Hr. destruct (is_high td) as [b td']. simpl in Hr.
  destruct b; [destruct (max_wait_polls <? wp); [exact Hr | rewrite IH; exact Hr] | exact Hr].
Qed.

Lemma sample_clk i (td td' : list pin_event * P) l l' :
  sample_lane i (td, l) = Done (td', l') -> clk td' = clk td.
Proof.
  unfold sample_lane. destruct (l_err l); [intros E; by invc E |].
  pose proof (read_clk td) as Hr. destruct (is_high td) as [[|] td1]; simpl in Hr.
  - destruct (l_temp l); intros E; invc E. exact Hr.
  - intros E; invc E. exact Hr.
Qed.

Lemma shift_clk i (td td' : list pin_event * P) l l' :
  shift_lane i (td, l) = Done (td', l') -> clk td' = clk td.
Proof.
  unfold shift_lane. destruct (l_err l); [intros E; by invc E |].
  pose proof (read_clk td) as Hr. destruct (is_high td) as [[|] td1]; simpl in Hr.
  - intros E; invc E. exact Hr.
  - destruct (l_temp l); simpl; intros E; invc E. exact Hr.
Qed.

Lemma post_clk i (td td' : list pin_event * P) l l' :
  post_lane i (td, l) = Done (td', l') -> clk td' = clk td.
Proof.
  unfold post_lane, is_low. destruct (l_err l); [intros E; by invc E |].
  pose proof (read_clk td) as Hr. destruct (is_high td) as [b td1]; simpl in Hr.
  intros E; invc E. exact Hr.
Qed.

Lemma iteration_clk i (td td' : list pin_event * P) l l' :
  iteration_lane i (td, l) = Done (td', l') -> clk td' = clk td ++ [ClockHigh; ClockLow].
Proof.
  unfold iteration_lane, clock_high_lane, clock_low_lane. cbn [obind fst snd].
  set (td0 := (td.1 ++ [ClockHigh], set_high td.2)).
  set (td1 := (td0.1 ++ [ClockLow], set_low td0.2)).
  assert (H1 : clk td1 = clk td ++ [ClockHigh; ClockLow]).
  { subst td0 td1. unfold clk. simpl. rewrite !clock_events_app. simpl. by rewrite <- app_assoc. }
  unfold reset_temp. cbn [obind].
  destruct (sample_lane i _) as [[td2 l2]|] eqn:E2; cbn [obind]; [| done].
  destruct (sample_lane i (td2, l2)) as [[td3 l3]|] eqn:E3; cbn [obind]; [| done].
  intros E4. rewrite (shift_clk _ _ _ _ _ E4), (sample_clk _ _ _ _ _ E3), (sample_clk _ _ _ _ _ E2).
  exact H1.
Qed.

Lemma shift_lanes_clk k i (td td' : list pin_event * P) l l' :
  shift_lanes k i (td, l) = Done (td', l') -> clk td' = clk td ++ pulses k.
Proof.
  revert td l. induction k as [|k IH]; intros td l E.
  - invc E. by rewrite app_nil_r.
  - change (shift_lanes (S k) i (td, l)) with (obind (iteration_lane i (td, l)) (shift_lanes k i)) in E.
    destruct (iteration_lane i (td, l)) as [[td1 l1]|] eqn:E1; cbn [obind] in E; [| done].
    rewrite (IH _ _ E), (iteration_clk _ _ _ _ _ E1). unfold pulses. simpl. by rewrite <- app_assoc.
Qed.

(** C24: every device of a frame, the ones that failed the ready gate
    included, sees exactly 25 clock pulses and no other clock edge. *)
Theorem read_lane_pulses i (td td' : list pin_event * P) r :
  read_lane (F := F) i td = Done (td', r) -> clk td' = clk td ++ pulses 25.
Proof.
  unfold read_lane, ready_lane. cbn [obind].
  pose proof (wait_ready_clk wait_fuel (l_wait init_lane) td) as Hw.
  destruct (wait_ready wait_fuel (l_wait init_lane) td) as [[wp to] td1]. simpl in Hw. cbn [obind].
  destruct (shift_lanes 24 i _) as [[td2 l2]|] eqn:E2; cbn [obind]; [| done].
  unfold clock_high_lane, clock_low_lane. cbn [obind fst snd].
  destruct (post_lane i _) as [[td3 l3]|] eqn:E3; cbn [obind]; [| done].
  intros E. invc E. rewrite (post_clk _ _ _ _ _ E3).
  unfold clk in *. simpl. rewrite !clock_events_app.
  change (clock_events td2.1) with (clk td2). rewrite (shift_lanes_clk _ _ _ _ _ _ E2).
  unfold clk. rewrite Hw, pulses_S_r. simpl. by rewrite <- !app_assoc.
Qed.
End Trace.

(** ** Witnesses *)

Lemma decode24_roundtrip_witness :
  (0 <= 0x800000 < 2 ^ 24) /\ encode24 (decode24 0x800000) = 0x800000.
Proof. split; [lia | apply decode24_roundtrip; lia]. Defined.

Lemma encode24_roundtrip_witness : (- 2 ^ 23 <= -1 < 2 ^ 23) /\ decode24 (encode24 (-1)) = -1.
Proof. split; [lia | apply encode24_roundtrip; lia]. Defined.

Lemma reading_Q_range_witness :
  (0 <= 0x800000 < 2 ^ 24) /\
  ((-1 <= reading_Q 0x800000 < 1)%Q /\ (reading_Q 0x800000 == -1 <-> 0x800000 = 0x800000)).
Proof. split; [lia | apply reading_Q_range; lia]. Defined.

(** Channel 1 never becomes ready. *)
Lemma read_multiple_stuck_channel_witness :
  [false; true] !! 1%nat = Some true /\
  ((forall devs' out, read_multiple (F := Q) [false; true] = Done (devs', out) ->
      out !! 1%nat = Some (HxErr read_error)) /\
   (read_multiple (F := Q) [false; true] = Panic ->
      exists j d, j <> 1%nat /\ [false; true] !! j = Some d /\ read_lane (F := Q) j d = Panic)).
Proof.
  split; [reflexivity |].
  assert (Hst : forall d : bool, d = true -> (is_high d).1 = true /\ (is_high d).2 = true)
    by (intros d ->; split; reflexivity).
  exact (read_multiple_stuck_channel (fun b => b = true) Hst [false; true] 1 true eq_refl eq_refl).
Defined.

Lemma read_lane_pulses_witness :
  exists td' r, read_lane (F := Q) 0 ([], false) = Done (td', r) /\ clk td' = clk ([], false) ++ pulses 25.
Proof.
  destruct (read_lane (F := Q) 0 ([], false)) as [[td' r]|] eqn:E; [| vm_compute in E; discriminate].
  exists td', r. split; [reflexivity | exact (read_lane_pulses 0 _ _ _ E)].
Defined.
