(* ===== verification/Hx711Device.v ===== *)
(** * Hx711Device: the HX711 as its datasheet describes it

    A device model for the [Gpio] capability of [Hx711]: the converter is
    busy (DOUT high) for [dv_busy] more polls, then ready (DOUT low); each
    rising edge of PD_SCK shifts out the next bit of the 24-bit conversion,
    most significant first, and after the 25th edge DOUT stays high until
    the next conversion.  Against this device the driver is proved to
    return each channel's conversion ([read_multiple_ideal], [read_ideal]),
    to report a device that stays busy too long, and to panic on a ready
    channel of index 24 or more (the [temp: [u32; 24]] array). *)

From Stdlib Require Import ZArith QArith Lia String.
From stdpp Require Import base list.
From S2P Require Import Prelude Hx711.

Open Scope Z_scope.

Record hx711_dev := mk_dev {
  dv_busy : Z;       (** polls left before the conversion is ready *)
  dv_value : Z;      (** the 24-bit conversion result *)
  dv_edges : nat;    (** rising edges of PD_SCK since it became ready *)
  dv_clk : bool      (** the level of PD_SCK *)
}.

(** The level of DOUT: high while busy, low when ready, then bit
    [23 - k] of the value after the [k+1]-th edge, high after the 25th. *)
Definition dout (d : hx711_dev) : bool :=
  if 0 <? dv_busy d then true
  else
    match dv_edges d with
    | O => false
    | S k => if (k <? 24)%nat then Z.testbit (dv_value d) (23 - Z.of_nat k) else true
    end.

#[export] Instance hx711_gpio : Gpio hx711_dev := {|
  set_high d :=
    if dv_clk d then d
    else if 0 <? dv_busy d then mk_dev (dv_busy d) (dv_value d) (dv_edges d) true
    else mk_dev 0 (dv_value d) (S (dv_edges d)) true;
  set_low d := mk_dev (dv_busy d) (dv_value d) (dv_edges d) false;
  is_high d :=
    (dout d, if 0 <? dv_busy d then mk_dev (dv_busy d - 1) (dv_value d) (dv_edges d) (dv_clk d) else d)
|}.

(** A device before a read: clock low, no edge yet, a 24-bit value, and
    a number of polls before it is ready. *)
Definition fresh (d : hx711_dev) : Prop :=
  0 <= dv_busy d /\ dv_edges d = 0%nat /\ dv_clk d = false /\ 0 <= dv_value d < 2 ^ 24.

(** What a frame reports for a fresh device, and the device afterwards. *)
Definition expected {F} `{FloatOps F} (d : hx711_dev) : hx_result F :=
  if dv_busy d <=? max_wait_polls + 1 then HxOk (to_reading (dv_value d)) else HxErr read_error.

Definition settled (d : hx711_dev) : hx711_dev :=
  if dv_busy d <=? max_wait_polls + 2 then mk_dev 0 (dv_value d) 25 false
  else mk_dev (dv_busy d - (max_wait_polls + 2)) (dv_value d) 0 false.

(** ** The ready gate *)

Lemma wait_fuel_Z : Z.of_nat wait_fuel = max_wait_polls + 2.
Proof. unfold wait_fuel. rewrite Z2Nat.id; [reflexivity | discriminate]. Qed.

Lemma wait_ready_ready f wp b v c :
  0 <= b -> 0 <= wp -> wp + b <= max_wait_polls + 1 -> b < Z.of_nat f ->
  wait_ready f wp (mk_dev b v 0 c) = (wp + b, false, mk_dev 0 v 0 c).
Proof.
  revert wp b. induction f as [|f IH]; intros wp b Hb Hwp Hle Hf; [lia |].
  cbn [wait_ready]. unfold is_high, hx711_gpio, dout; cbn [dv_busy dv_edges dv_value dv_clk].
  destruct (Z.ltb_spec 0 b).
  - destruct (Z.ltb_spec max_wait_polls wp); [unfold max_wait_polls in *; lia |].
    rewrite IH by lia. replace (wp + 1 + (b - 1)) with (wp + b) by lia. reflexivity.
  - replace b with 0 by lia. rewrite Z.add_0_r. reflexivity.
Qed.

Lemma wait_ready_timeout f wp b v c :
  0 <= wp <= max_wait_polls + 1 -> max_wait_polls + 2 - wp <= b ->
  max_wait_polls + 2 - wp <= Z.of_nat f ->
  wait_ready f wp (mk_dev b v 0 c) = (max_wait_polls + 1, true, mk_dev (b - (max_wait_polls + 2 - wp)) v 0 c).
Proof.
  revert wp b. induction f as [|f IH]; intros wp b Hwp Hb Hf; [lia |].
  cbn [wait_ready]. unfold is_high, hx711_gpio, dout; cbn [dv_busy dv_edges dv_value dv_clk].
  destruct (Z.ltb_spec 0 b); [| lia].
  destruct (Z.ltb_spec max_wait_polls wp).
  - replace wp with (max_wait_polls + 1) by lia.
    replace (b - (max_wait_polls + 2 - (max_wait_polls + 1))) with (b - 1) by lia. reflexivity.
  - rewrite IH by lia.
    replace (b - 1 - (max_wait_polls + 2 - (wp + 1))) with (b - (max_wait_polls + 2 - wp)) by lia.
    reflexivity.
Qed.

(** ** The 24 bits *)

Section Ideal.
Context {F : Type} `{FloatOps F}.

Lemma shiftr_small v j : 0 <= v < 2 ^ 24 -> (j <= 24)%nat -> 0 <= Z.shiftr v (24 - Z.of_nat j) < 2 ^ 24.
Proof.
  intros Hv Hj. rewrite Z.shiftr_div_pow2 by lia. split; [apply Z.div_pos; lia |].
  apply (Z.le_lt_trans _ v); [apply Z.div_le_upper_bound; nia | lia].
Qed.

(** One bit: the three samples all read bit [23 - j], which is shifted in. *)
Lemma iteration_ideal i v j wp t :
  (i < 24)%nat -> (j < 24)%nat -> 0 <= v < 2 ^ 24 ->
  exists t', iteration_lane i (mk_dev 0 v j false, mk_lane wp (Z.shiftr v (24 - Z.of_nat j)) t false)
             = Done (mk_dev 0 v (S j) false, mk_lane wp (Z.shiftr v (24 - Z.of_nat (S j))) t' false).
Proof.
  intros Hi Hj Hv.
  assert (Hr : replicate 24 0 !! i = Some 0) by (apply lookup_replicate_2; lia).
  assert (Hb : (j <? 24)%nat = true) by (apply Nat.ltb_lt; lia).
  pose proof (shiftr_small v j Hv ltac:(lia)) as Hs.
  rewrite (shiftr_step v (24 - Z.of_nat (S j))) in * by lia.
  replace (24 - Z.of_nat (S j) + 1) with (24 - Z.of_nat j) by lia.
  replace (24 - Z.of_nat (S j)) with (23 - Z.of_nat j) by lia.
  unfold iteration_lane, clock_high_lane, clock_low_lane, reset_temp, sample_lane, shift_lane.
  cbn [obind fst snd l_err l_temp l_data l_wait set_high set_low is_high hx711_gpio dv_clk dv_busy
       dv_value dv_edges Z.ltb Z.compare].
  unfold dout; cbn [dv_busy dv_edges dv_value Z.ltb Z.compare]. rewrite Hb, Hr.
  destruct (Z.testbit v (23 - Z.of_nat j)) eqn:Eb;
    repeat first [rewrite Hb | rewrite Eb | progress simpl];
    rewrite shl1_u32_small by lia; rewrite ?Z.add_0_r; eexists; reflexivity.
Qed.

Lemma shift_lanes_ideal k i v j wp t :
  (i < 24)%nat -> (j + k <= 24)%nat -> 0 <= v < 2 ^ 24 ->
  exists t', shift_lanes k i (mk_dev 0 v j false, mk_lane wp (Z.shiftr v (24 - Z.of_nat j)) t false)
             = Done (mk_dev 0 v (j + k) false, mk_lane wp (Z.shiftr v (24 - Z.of_nat (j + k))) t' false).
Proof.
  revert j t. induction k as [|k IH]; intros j t Hi Hjk Hv.
  { exists t. by rewrite Nat.add_0_r. }
  destruct (iteration_ideal i v j wp t Hi ltac:(lia) Hv) as [t1 Ht1].
  change (shift_lanes (S k) i ?dl) with (obind (iteration_lane i dl) (shift_lanes k i)).
  rewrite Ht1. cbn [obind].
  destruct (IH (S j) t1 Hi ltac:(lia) Hv) as [t2 Ht2]. exists t2.
  rewrite Ht2. by rewrite Nat.add_succ_comm.
Qed.

(** The ready gate of a fresh device, ready within the budget. *)
Lemma ready_lane_ideal i b v :
  0 <= b <= max_wait_polls + 1 -> 0 <= v < 2 ^ 24 ->
  ready_lane i (mk_dev b v 0 false, init_lane) = Done (mk_dev 0 v 0 false, mk_lane b 0 None false).
Proof.
  intros Hb Hv. unfold ready_lane. cbn [l_wait l_data l_temp l_err init_lane].
  rewrite wait_ready_ready by (rewrite ?wait_fuel_Z; unfold max_wait_polls in *; lia). reflexivity.
Qed.

(** A channel of index below 24 whose device is ready within the
    polling budget reads the device's conversion. *)
Theorem read_lane_ideal i b v :
  (i < 24)%nat -> 0 <= b <= max_wait_polls + 1 -> 0 <= v < 2 ^ 24 ->
  read_lane (F := F) i (mk_dev b v 0 false) = Done (mk_dev 0 v 25 false, HxOk (to_reading v)).
Proof.
  intros Hi Hb Hv. unfold read_lane. rewrite ready_lane_ideal by lia. cbn [obind].
  assert (H0 : Z.shiftr v (24 - Z.of_nat 0) = 0).
  { rewrite Z.shiftr_div_pow2 by lia. apply Z.div_small. exact Hv. }
  destruct (shift_lanes_ideal 24 i v 0 b None Hi ltac:(lia) Hv) as [t Ht].
  rewrite H0 in Ht. rewrite Ht. cbn [obind].
  replace (Z.shiftr v (24 - Z.of_nat (0 + 24))) with v
    by (rewrite Z.shiftr_div_pow2 by lia; symmetry; apply Z.div_1_r).
  reflexivity.
Qed.

(** A ready channel of index 24 or more panics at its first bit: the
    first sample writes [temp[i]] when the bit is 1, the shift pass reads
    [temp[i]] when it is 0. *)
Lemma iteration_ideal_panic i v j wp t :
  (24 <= i)%nat -> (j < 24)%nat ->
  iteration_lane i (mk_dev 0 v j false, mk_lane wp (Z.shiftr v (24 - Z.of_nat j)) t false) = Panic.
Proof.
  intros Hi Hj.
  assert (Hr : replicate 24 0 !! i = None) by (apply lookup_replicate_None; lia).
  assert (Hb : (j <? 24)%nat = true) by (apply Nat.ltb_lt; lia).
  unfold iteration_lane, clock_high_lane, clock_low_lane, reset_temp, sample_lane, shift_lane.
  cbn [obind fst snd l_err l_temp l_data l_wait set_high set_low is_high hx711_gpio dv_clk dv_busy
       dv_value dv_edges Z.ltb Z.compare].
  unfold dout; cbn [dv_busy dv_edges dv_value Z.ltb Z.compare]. rewrite Hb, Hr.
  destruct (Z.testbit v (23 - Z.of_nat j)) eqn:Eb; repeat first [rewrite Hb | rewrite Eb | progress simpl];
    reflexivity.
Qed.

(** A ready channel of index 24 or more panics ([temp] has 24 slots). *)
Theorem read_lane_ideal_panic i b v :
  (24 <= i)%nat -> 0 <= b <= max_wait_polls + 1 -> 0 <= v < 2 ^ 24 ->
  read_lane (F := F) i (mk_dev b v 0 false) = Panic.
Proof.
  intros Hi Hb Hv. unfold read_lane. rewrite ready_lane_ideal by lia. cbn [obind].
  change (shift_lanes 24 i ?dl) with (obind (iteration_lane i dl) (shift_lanes 23 i)).
  pose proof (iteration_ideal_panic i v 0 b None Hi ltac:(lia)) as Hp.
  replace (Z.shiftr v (24 - Z.of_nat 0)) with 0 in Hp
    by (rewrite Z.shiftr_div_pow2 by lia; symmetry; apply Z.div_small; exact Hv).
  rewrite Hp. reflexivity.
Qed.

Lemma pulses_ready n v k : Nat.iter n pulse (mk_dev 0 v k false) = mk_dev 0 v (k + n) false.
Proof.
  induction n as [|n IH]; [by rewrite Nat.add_0_r |].
  rewrite Nat.iter_succ, IH. unfold pulse. simpl. by rewrite Nat.add_succ_r.
Qed.

Lemma pulses_busy n b v k : 0 < b -> Nat.iter n pulse (mk_dev b v k false) = mk_dev b v k false.
Proof.
  intros Hb. induction n as [|n IH]; [reflexivity |].
  rewrite Nat.iter_succ, IH. unfold pulse. simpl. destruct (Z.ltb_spec 0 b); [reflexivity | lia].
Qed.

(** A fresh device that is ready in time reads its value; one that is
    not is reported, and is left as [settled] says. *)
Lemma read_lane_fresh i d :
  (i < 24)%nat -> fresh d -> read_lane (F := F) i d = Done (settled d, expected d).
Proof.
  intros Hi (Hb & He & Hc & Hv). destruct d as [b v e c]; simpl in *; subst.
  unfold settled, expected; simpl.
  destruct (Z.leb_spec b (max_wait_polls + 1)).
  - rewrite read_lane_ideal by lia. destruct (Z.leb_spec b (max_wait_polls + 2)); [reflexivity | lia].
  - rewrite (read_lane_timeout i _ (max_wait_polls + 1) (mk_dev (b - (max_wait_polls + 2)) v 0 false)).
    + destruct (Z.leb_spec b (max_wait_polls + 2)).
      * replace (b - (max_wait_polls + 2)) with 0 by lia. by rewrite pulses_ready.
      * rewrite pulses_busy by lia. reflexivity.
    + rewrite wait_ready_timeout by (rewrite ?wait_fuel_Z; unfold max_wait_polls in *; lia).
      replace (b - (max_wait_polls + 2 - 0)) with (b - (max_wait_polls + 2)) by lia. reflexivity.
Qed.
End Ideal.

(** ** [Hx711::read] on a datasheet device *)

Lemma read_bits_ideal k v j :
  (j + k <= 24)%nat -> 0 <= v < 2 ^ 24 ->
  read_bits k (mk_dev 0 v j false) (Z.shiftr v (24 - Z.of_nat j))
  = (mk_dev 0 v (j + k) false, Z.shiftr v (24 - Z.of_nat (j + k))).
Proof.
  revert j. induction k as [|k IH]; intros j Hjk Hv; [by rewrite Nat.add_0_r |].
  assert (Hb : (j <? 24)%nat = true) by (apply Nat.ltb_lt; lia).
  assert (Hstep : Z.shiftr v (24 - Z.of_nat (S j))
                  = 2 * Z.shiftr v (24 - Z.of_nat j) + Z.b2z (Z.testbit v (23 - Z.of_nat j))).
  { rewrite (shiftr_step v (24 - Z.of_nat (S j))) by lia.
    replace (24 - Z.of_nat (S j) + 1) with (24 - Z.of_nat j) by lia.
    replace (24 - Z.of_nat (S j)) with (23 - Z.of_nat j) by lia. reflexivity. }
  cbn [read_bits]. simpl. unfold dout; simpl. rewrite Hb. rewrite Z.shiftl_mul_pow2 by lia.
  rewrite <- Nat.add_succ_comm, <- (IH (S j)) by lia. f_equal.
  rewrite Hstep. destruct (Z.testbit v (23 - Z.of_nat j)); simpl; lia.
Qed.

Lemma read_ideal_spec b v :
  0 <= b <= max_wait_polls + 1 -> 0 <= v < 2 ^ 24 ->
  read (mk_dev b v 0 false) = (mk_dev 0 v 25 false, HxOk (decode24 v)).
Proof.
  intros Hb Hv. unfold read. cbn [set_low hx711_gpio dv_busy dv_value dv_edges dv_clk].
  rewrite wait_ready_ready by (rewrite ?wait_fuel_Z; unfold max_wait_polls in *; lia).
  cbn [fst snd].
  replace 0 with (Z.shiftr v (24 - Z.of_nat 0)) at 2
    by (rewrite Z.shiftr_div_pow2 by lia; apply Z.div_small; exact Hv).
  rewrite (read_bits_ideal 24 v 0) by lia.
  replace (Z.shiftr v (24 - Z.of_nat (0 + 24))) with v
    by (rewrite Z.shiftr_div_pow2 by lia; symmetry; apply Z.div_1_r).
  reflexivity.
Qed.

(** C25: [Hx711::read] of a fresh device ready within the polling budget
    returns its conversion as a signed integer, after 25 pulses. *)
Theorem read_ideal d : fresh d -> dv_busy d <= max_wait_polls + 1 ->
  read d = (settled d, HxOk (decode24 (dv_value d))).
Proof.
  intros (Hb & He & Hc & Hv) Hr. destruct d as [b v e c]; cbn in *; subst.
  rewrite read_ideal_spec by lia. unfold settled; cbn [dv_busy dv_value].
  replace (b <=? max_wait_polls + 2) with true by (symmetry; apply Z.leb_le; lia). reflexivity.
Qed.

(** [Hx711::read] of a device still busy after the budget returns
    [Err("HX711 device is not ready")] without a single clock pulse. *)
Theorem read_ideal_timeout d : fresh d -> max_wait_polls + 1 < dv_busy d ->
  read d = (mk_dev (dv_busy d - (max_wait_polls + 2)) (dv_value d) 0 false, HxErr not_ready_error).
Proof.
  intros (Hb0 & He & Hc & Hv) Hb. destruct d as [b v e c]; cbn in *; subst. unfold read. cbn [set_low hx711_gpio dv_busy dv_value dv_edges dv_clk].
  rewrite wait_ready_timeout by (rewrite ?wait_fuel_Z; unfold max_wait_polls in *; lia).
  replace (b - (max_wait_polls + 2 - 0)) with (b - (max_wait_polls + 2)) by lia. reflexivity.
Qed.

(** C30: on a datasheet device, the value [read_multiple] reports for a
    channel is the value [Hx711::read] returns, over [2^23], and both
    leave the device in the same state. *)
Theorem read_multiple_agrees_with_read i d :
  (i < 24)%nat -> fresh d -> dv_busy d <= max_wait_polls + 1 ->
  exists q z d', read_lane (F := Q) i d = Done (d', HxOk q) /\
                 read d = (d', HxOk z) /\ q == inject_Z z / inject_Z (2 ^ 23).
Proof.
  intros Hi (Hb0 & He & Hc & Hv) Hb. destruct d as [b v e c]; cbn in *; subst. exists (to_reading v), (decode24 v), (mk_dev 0 v 25 false).
  rewrite read_lane_ideal, read_ideal_spec by lia. split; [reflexivity | split; [reflexivity |]].
  rewrite to_reading_Q by lia. reflexivity.
Qed.

(** ** Frames of datasheet devices *)

Section IdealFrame.
Context {F : Type} `{FloatOps F}.

(** C2: a frame of at most 24 fresh HX711 devices reports, for each, its
    conversion if it became ready within the polling budget and
    [Err("Read Error")] if not, whatever the other channels do. *)
Theorem read_multiple_ideal devs :
  Forall fresh devs -> (length devs <= 24)%nat ->
  read_multiple (F := F) devs = Done (map settled devs, map expected devs).
Proof.
  intros Hf Hn. rewrite read_multiple_lanes.
  rewrite (omapi_done_forall _ (fun d => (settled d, expected d))).
  - simpl. by rewrite !map_map.
  - intros j d Hj. simpl. apply read_lane_fresh.
    + apply lookup_lt_Some in Hj. lia.
    + exact (proj1 (Forall_lookup _ _) Hf _ _ Hj).
Qed.

(** C16: a frame with a ready device at channel 24 or beyond panics. *)
Theorem read_multiple_ideal_panic devs j d :
  devs !! j = Some d -> (24 <= j)%nat -> fresh d -> dv_busy d <= max_wait_polls + 1 ->
  read_multiple (F := F) devs = Panic.
Proof.
  intros Hj Hi (Hb & He & Hc & Hv) Hr. apply read_multiple_panic_iff. exists j, d. split; [exact Hj |].
  destruct d as [b v e c]; simpl in *; subst. apply read_lane_ideal_panic; lia.
Qed.
End IdealFrame.

(** ** Witnesses *)

(** Channel 0 is ready after 3 polls, channel 1 stays busy too long. *)
Lemma read_multiple_ideal_witness :
  (Forall fresh [mk_dev 3 0x123456 0 false; mk_dev 2000000 5 0 false] /\
   (length [mk_dev 3 0x123456 0 false; mk_dev 2000000 5 0 false] <= 24)%nat) /\
  read_multiple (F := Q) [mk_dev 3 0x123456 0 false; mk_dev 2000000 5 0 false]
  = Done (map settled [mk_dev 3 0x123456 0 false; mk_dev 2000000 5 0 false],
          map expected [mk_dev 3 0x123456 0 false; mk_dev 2000000 5 0 false]).
Proof.
  assert (Hf : Forall fresh [mk_dev 3 0x123456 0 false; mk_dev 2000000 5 0 false])
    by (repeat constructor; unfold fresh; simpl; lia).
  split; [split; [exact Hf | simpl; lia] |].
  apply read_multiple_ideal; [exact Hf | simpl; lia].
Defined.

Lemma read_multiple_ideal_panic_witness :
  (replicate 24 (mk_dev 0 0 0 false) ++ [mk_dev 1 5 0 false]) !! 24%nat = Some (mk_dev 1 5 0 false) /\
  (24 <= 24)%nat /\ fresh (mk_dev 1 5 0 false) /\ dv_busy (mk_dev 1 5 0 false) <= max_wait_polls + 1 /\
  read_multiple (F := Q) (replicate 24 (mk_dev 0 0 0 false) ++ [mk_dev 1 5 0 false]) = Panic.
Proof.
  assert (Hf : fresh (mk_dev 1 5 0 false)) by (unfold fresh; simpl; lia).
  assert (Hb : dv_busy (mk_dev 1 5 0 false) <= max_wait_polls + 1) by (simpl; unfold max_wait_polls; lia).
  split; [reflexivity | split; [lia | split; [exact Hf | split; [exact Hb |]]]].
  exact (read_multiple_ideal_panic (F := Q) (replicate 24 (mk_dev 0 0 0 false) ++ [mk_dev 1 5 0 false]) 24 _
           eq_refl ltac:(lia) Hf Hb).
Defined.

Lemma read_ideal_witness :
  (fresh (mk_dev 7 0xFFFFFF 0 false) /\ dv_busy (mk_dev 7 0xFFFFFF 0 false) <= max_wait_polls + 1) /\
  read (mk_dev 7 0xFFFFFF 0 false) = (settled (mk_dev 7 0xFFFFFF 0 false), HxOk (decode24 0xFFFFFF)).
Proof.
  assert (H1 : fresh (mk_dev 7 0xFFFFFF 0 false)) by (unfold fresh; cbn; repeat split; lia).
  assert (H2 : dv_busy (mk_dev 7 0xFFFFFF 0 false) <= max_wait_polls + 1) by (cbn; unfold max_wait_polls; lia).
  split; [split; assumption|]. exact (read_ideal _ H1 H2).
Defined.

Lemma read_ideal_timeout_witness :
  (fresh (mk_dev 1000005 42 0 false) /\ max_wait_polls + 1 < dv_busy (mk_dev 1000005 42 0 false)) /\
  read (mk_dev 1000005 42 0 false)
  = (mk_dev (1000005 - (max_wait_polls + 2)) 42 0 false, HxErr not_ready_error).
Proof.
  assert (H1 : fresh (mk_dev 1000005 42 0 false)) by (unfold fresh; cbn; repeat split; lia).
  assert (H2 : max_wait_polls + 1 < dv_busy (mk_dev 1000005 42 0 false)) by (cbn; unfold max_wait_polls; lia).
  split; [split; assumption|]. exact (read_ideal_timeout _ H1 H2).
Defined.

Lemma read_multiple_agrees_with_read_witness :
  ((0 < 24)%nat /\ fresh (mk_dev 0 0x800000 0 false) /\ dv_busy (mk_dev 0 0x800000 0 false) <= max_wait_polls + 1) /\
  exists q z d, read_lane (F := Q) 0 (mk_dev 0 0x800000 0 false) = Done (d, HxOk q) /\
                read (mk_dev 0 0x800000 0 false) = (d, HxOk z) /\ q == inject_Z z / inject_Z (2 ^ 23).
Proof.
  assert (H1 : fresh (mk_dev 0 0x800000 0 false)) by (unfold fresh; cbn; repeat split; lia).
  assert (H2 : dv_busy (mk_dev 0 0x800000 0 false) <= max_wait_polls + 1) by (cbn; unfold max_wait_polls; lia).
  split; [split; [lia | split; assumption] |].
  apply read_multiple_agrees_with_read; [lia | exact H1 | exact H2].
Defined.
