(* ===== verification/Telemetry.v ===== *)
(** * Telemetry: the ESC frame codec of src/logging/src/main.rs

    [process_string] (lines 143-172) turns one telemetry line into the
    row [voltage; omega]: it trims the trailing ["\r\n"]s, cuts the bytes
    into chunks of two, parses each chunk with [u8::from_str_radix(_, 16)]
    (panicking on a bad chunk), assembles the big-endian fields and scales
    them in f64.  [read_frame] is the line loop of [control_sequence]
    (lines 213-221): it appends lines to one buffer until the buffer is 22
    bytes long.  Strings are Stdlib strings of 8-bit [ascii] characters, so
    [String.length] is Rust's [str::len] in bytes. *)

From Stdlib Require Import ZArith QArith Qfield Lia String Ascii List Floats.
From stdpp Require Import base list.
From S2P Require Import Prelude.
Import ListNotations.

Open Scope Z_scope.

Definition byte_of (c : ascii) : Z := Z.of_nat (nat_of_ascii c).

(** [data.trim_end_matches("\r\n")]: remove every trailing ["\r\n"]. *)
Fixpoint trim_crlf_rev (r : list ascii) : list ascii :=
  match r with
  | c1 :: c2 :: r' =>
      if Ascii.eqb c1 "010"%char && Ascii.eqb c2 "013"%char then trim_crlf_rev r' else r
  | _ => r
  end.

Definition trim_end_matches_crlf (s : string) : list ascii :=
  rev (trim_crlf_rev (rev (list_ascii_of_string s))).

(** [as_bytes().chunks(2)]: the last chunk has one byte when the length
    is odd. *)
Fixpoint chunks2 (l : list ascii) : list (list ascii) :=
  match l with
  | c1 :: c2 :: l' => [c1; c2] :: chunks2 l'
  | [c] => [[c]]
  | [] => []
  end.

(** [std::str::from_utf8(chunk)] on a chunk of one or two bytes. *)
Definition utf8_chunk_ok (chunk : list ascii) : bool :=
  match chunk with
  | [c] => byte_of c <? 128
  | [c1; c2] =>
      (byte_of c1 <? 128) && (byte_of c2 <? 128)
      || (194 <=? byte_of c1) && (byte_of c1 <=? 223) && (128 <=? byte_of c2) && (byte_of c2 <=? 191)
  | _ => false
  end.

(** [char::to_digit(16)]. *)
Definition hex_digit (c : ascii) : option Z :=
  let n := byte_of c in
  if (48 <=? n) && (n <=? 57) then Some (n - 48)
  else if (97 <=? n) && (n <=? 102) then Some (n - 87)
  else if (65 <=? n) && (n <=? 70) then Some (n - 55)
  else None.

Fixpoint digits_u8 (acc : Z) (ds : list ascii) : option Z :=
  match ds with
  | [] => Some acc
  | c :: ds' =>
      match hex_digit c with
      | Some d => if acc * 16 + d <? 256 then digits_u8 (acc * 16 + d) ds' else None
      | None => None
      end
  end.

(** [u8::from_str_radix(s, 16)]: empty is an error, a lone sign is an
    error, a leading ['+'] is accepted, then hexadecimal digits with an
    overflow check. *)
Definition from_str_radix16 (s : list ascii) : option Z :=
  match s with
  | [] => None
  | [c] => if Ascii.eqb c "+"%char || Ascii.eqb c "-"%char then None else digits_u8 0 s
  | c :: rest => if Ascii.eqb c "+"%char then digits_u8 0 rest else digits_u8 0 s
  end.

(** The closure of lines 149-152, with its two [expect]s. *)
Definition parse_chunk (chunk : list ascii) : outcome Z :=
  if utf8_chunk_ok chunk then
    match from_str_radix16 chunk with Some b => Done b | None => Panic end
  else Panic.

Fixpoint parse_chunks (cs : list (list ascii)) : outcome (list Z) :=
  match cs with
  | [] => Done []
  | c :: cs' => let* b := parse_chunk c in let* bs := parse_chunks cs' in Done (b :: bs)
  end.

(** [((u16::from(hi)) << 8) | u16::from(lo)]. *)
Definition be16 (hi lo : Z) : Z := Z.lor (Z.shiftl hi 8) lo.

(** Everything lines 155-161 compute from one frame. *)
Record telemetry_frame (F : Type) := mk_frame {
  temperature : Z;
  voltage : F;
  current : F;
  m_ah : F;
  erpm : F;
  omega : F
}.
Arguments mk_frame {F}.
Arguments temperature {F}.
Arguments voltage {F}.
Arguments current {F}.
Arguments m_ah {F}.
Arguments erpm {F}.
Arguments omega {F}.

Definition MOTOR_MAGNET_POLES {F} `{FloatOps F} : F := f_of_Z 14.

Section Codec.
Context {F : Type} `{FloatOps F}.

(** Lines 155-161; [telemetry[k]] panics when the frame is short. *)
Definition decode_fields (telemetry : list Z) : outcome (telemetry_frame F) :=
  let* t0 := get_at telemetry 0 in
  let* t1 := get_at telemetry 1 in
  let* t2 := get_at telemetry 2 in
  let* t3 := get_at telemetry 3 in
  let* t4 := get_at telemetry 4 in
  let* t5 := get_at telemetry 5 in
  let* t6 := get_at telemetry 6 in
  let* t7 := get_at telemetry 7 in
  let* t8 := get_at telemetry 8 in
  let voltage := (f_of_Z (be16 t1 t2) ⊘ f_of_Z 100)%fl in
  let current := (f_of_Z (be16 t3 t4) ⊘ f_of_Z 100)%fl in
  let m_ah := f_of_Z (be16 t5 t6) in
  let erpm := f_of_Z (100 * Z.lor (Z.shiftl t7 8) t8) in
  let omega := (erpm ⊗ f_of_Z 2 ⊗ f_lit 314 2 ⊘ f_of_Z 60 ⊘ MOTOR_MAGNET_POLES ⊘ f_of_Z 2)%fl in
  Done (mk_frame t0 voltage current m_ah erpm omega).

(** [process_string] (lines 143-172): the row [voltage, omega]. *)
Definition process_string (data : string) : outcome (F * F) :=
  let* telemetry := parse_chunks (chunks2 (trim_end_matches_crlf data)) in
  let* fr := decode_fields telemetry in
  Done (voltage fr, omega fr).
End Codec.

(** What [read_line] gives at each call of the loop: a line with its
    terminator, or an error (the port's 6 s timeout). *)
Definition line_source := list (option string).

(** Lines 217-221: [read_line] appends to [telemetry], until its length
    is 22.  The buffer is never cleared inside the loop. *)
Fixpoint read_frame (lines : line_source) (telemetry : string) : outcome (string * line_source) :=
  match lines with
  | [] => Panic
  | None :: _ => Panic
  | Some l :: rest =>
      let telemetry := (telemetry ++ l)%string in
      if Nat.eqb (String.length telemetry) 22 then Done (telemetry, rest)
      else read_frame rest telemetry
  end.

(** Lines 213-224 of [control_sequence], after the ["r"] write: read a
    22-byte buffer, decode it, and hand back the rest of the port's lines
    (the next call reads from the line after the frame; [PortRead]
    models the bytes under the lines and proves this exact when each
    read of the port returns one line). *)
Definition read_telemetry {F} `{FloatOps F} (lines : line_source) : outcome ((F * F) * line_source) :=
  let* (telemetry, rest) := read_frame lines EmptyString in
  let* row := process_string telemetry in
  Done (row, rest).

(** ** The ESC side of the wire: hexadecimal text of a byte list *)

Definition hex_char (n : Z) : ascii :=
  ascii_of_nat (Z.to_nat (if n <? 10 then 48 + n else 87 + n)).

Definition hex_byte (b : Z) : list ascii := [hex_char (b / 16); hex_char (b mod 16)].

Definition hex_bytes (bs : list Z) : list ascii := List.concat (map hex_byte bs).

(** A frame as the ESC sends it: the hex text and the ["\r\n"] terminator. *)
Definition frame_text (bs : list Z) : string :=
  string_of_list_ascii (hex_bytes bs ++ ["013"; "010"]%char).

Definition is_byte (b : Z) : Prop := 0 <= b < 256.

(** ** Lemmas on bytes and characters *)

Lemma byte_of_hex_char n : 0 <= n < 16 -> byte_of (hex_char n) = if n <? 10 then 48 + n else 87 + n.
Proof.
  intros Hn. unfold byte_of, hex_char. rewrite nat_ascii_embedding.
  - destruct (Z.ltb_spec n 10); lia.
  - destruct (Z.ltb_spec n 10); lia.
Qed.

Lemma byte_of_inj c d : byte_of c = byte_of d -> c = d.
Proof.
  unfold byte_of. intros E. apply Nat2Z.inj in E.
  rewrite <- (ascii_nat_embedding c), <- (ascii_nat_embedding d), E. reflexivity.
Qed.

Lemma byte_of_range c : 0 <= byte_of c < 256.
Proof. unfold byte_of. pose proof (nat_ascii_bounded c). lia. Qed.

Lemma hex_digit_char n : 0 <= n < 16 -> hex_digit (hex_char n) = Some n.
Proof.
  intros Hn. unfold hex_digit. rewrite byte_of_hex_char by exact Hn.
  destruct (Z.ltb_spec n 10);
    repeat match goal with
    | |- context [(?a <=? ?b)%Z] => destruct (Z.leb_spec a b)
    end; cbn; try (f_equal; lia); lia.
Qed.

Lemma hex_char_ne n c : 0 <= n < 16 -> byte_of c < 48 -> Ascii.eqb (hex_char n) c = false.
Proof.
  intros Hn Hc. apply Ascii.eqb_neq; intros E; apply (f_equal byte_of) in E.
  rewrite byte_of_hex_char in E by exact Hn. destruct (Z.ltb_spec n 10); lia.
Qed.

Lemma byte_split b : is_byte b -> 0 <= b / 16 < 16 /\ 0 <= b mod 16 < 16 /\ b = 16 * (b / 16) + b mod 16.
Proof. unfold is_byte. intros Hb. pose proof (Z.div_mod b 16). repeat split; lia || (apply Z.mod_pos_bound; lia) || (apply Z.div_pos; lia) || idtac.
  apply Z.div_lt_upper_bound; lia. Qed.

Lemma parse_chunk_hex b : is_byte b -> parse_chunk (hex_byte b) = Done b.
Proof.
  intros Hb. destruct (byte_split b Hb) as (Hh & Hl & Eb).
  unfold parse_chunk, hex_byte, utf8_chunk_ok, from_str_radix16.
  rewrite !byte_of_hex_char by lia.
  replace ((if b / 16 <? 10 then 48 + b / 16 else 87 + b / 16) <? 128) with true
    by (symmetry; destruct (Z.ltb_spec (b / 16) 10); apply Z.ltb_lt; lia).
  replace ((if b mod 16 <? 10 then 48 + b mod 16 else 87 + b mod 16) <? 128) with true
    by (symmetry; destruct (Z.ltb_spec (b mod 16) 10); apply Z.ltb_lt; lia).
  rewrite hex_char_ne by (lia || reflexivity). cbn [andb orb digits_u8].
  rewrite !hex_digit_char by lia.
  replace (0 * 16 + b / 16) with (b / 16) by lia.
  replace (b / 16 <? 256) with true by (symmetry; apply Z.ltb_lt; lia).
  cbv iota beta. replace (b / 16 * 16 + b mod 16) with b by lia.
  replace (b <? 256) with true by (symmetry; apply Z.ltb_lt; unfold is_byte in Hb; lia).
  reflexivity.
Qed.

Lemma chunks2_hex bs : chunks2 (hex_bytes bs) = map hex_byte bs.
Proof. induction bs as [|b bs IH]; [reflexivity|]. cbn. f_equal. exact IH. Qed.

Lemma parse_chunks_hex bs : Forall is_byte bs -> parse_chunks (map hex_byte bs) = Done bs.
Proof.
  induction 1 as [|b bs Hb _ IH]; [reflexivity|].
  cbn [map parse_chunks]. rewrite parse_chunk_hex, IH by exact Hb. reflexivity.
Qed.

Lemma trim_crlf_rev_keep c r : Ascii.eqb c "010"%char = false -> trim_crlf_rev (c :: r) = c :: r.
Proof. intros E. destruct r; cbn; [reflexivity|]. rewrite E. reflexivity. Qed.

Lemma trim_crlf_rev_crlf r : trim_crlf_rev ("010" :: "013" :: r)%char = trim_crlf_rev r.
Proof. reflexivity. Qed.

Lemma trim_frame_text bs : Forall is_byte bs -> trim_end_matches_crlf (frame_text bs) = hex_bytes bs.
Proof.
  intros Hbs. unfold trim_end_matches_crlf, frame_text.
  rewrite list_ascii_of_string_of_list_ascii, rev_app_distr. cbn [rev app].
  rewrite trim_crlf_rev_crlf.
  induction bs as [|b bs' _] using rev_ind; [reflexivity|].
  apply Forall_app in Hbs as [_ Hb]. apply Forall_inv in Hb.
  destruct (byte_split b Hb) as (_ & Hl & _).
  unfold hex_bytes. rewrite map_app, concat_app. cbn [map List.concat hex_byte app].
  rewrite rev_app_distr. cbn [rev app].
  rewrite trim_crlf_rev_keep by (apply hex_char_ne; [lia|reflexivity]).
  cbn [rev]. rewrite rev_involutive, <- app_assoc. reflexivity.
Qed.

(** ** Fields of a frame *)

Lemma be16_bytes hi lo : is_byte hi -> is_byte lo -> be16 hi lo = 256 * hi + lo.
Proof. unfold be16, is_byte. intros Hh Hl. rewrite lor_shiftl_small; cbn; lia. Qed.

(** The u16 fields of lines 156-158 cannot overflow ([u16] holds them)
    and the u32 product of line 159 stays below [2^32]. *)
Theorem telemetry_fields_bounds hi lo : is_byte hi -> is_byte lo ->
  0 <= be16 hi lo < 2 ^ 16 /\ 0 <= 100 * Z.lor (Z.shiftl hi 8) lo < 2 ^ 32.
Proof.
  intros Hh Hl. pose proof (be16_bytes hi lo Hh Hl) as E. unfold be16 in E.
  unfold is_byte, be16 in *. rewrite E. change (2 ^ 16) with 65536. change (2 ^ 32) with 4294967296. lia.
Qed.

Section Frames.
Context {F : Type} `{FloatOps F}.

Lemma decode_fields_bytes b0 b1 b2 b3 b4 b5 b6 b7 b8 rest :
  Forall is_byte [b1; b2; b3; b4; b5; b6; b7; b8] ->
  decode_fields (F := F) (b0 :: b1 :: b2 :: b3 :: b4 :: b5 :: b6 :: b7 :: b8 :: rest) =
  Done (mk_frame b0 (f_of_Z (256 * b1 + b2) ⊘ f_of_Z 100)%fl
                    (f_of_Z (256 * b3 + b4) ⊘ f_of_Z 100)%fl
                    (f_of_Z (256 * b5 + b6))
                    (f_of_Z (100 * (256 * b7 + b8)))
                    (f_of_Z (100 * (256 * b7 + b8)) ⊗ f_of_Z 2 ⊗ f_lit 314 2 ⊘ f_of_Z 60
                       ⊘ MOTOR_MAGNET_POLES ⊘ f_of_Z 2)%fl).
Proof.
  intros Hb. repeat (apply Forall_cons in Hb as [? Hb]).
  unfold decode_fields. cbn [get_at lookup list_lookup obind].
  rewrite !be16_bytes by assumption.
  pose proof (be16_bytes b7 b8) as E. unfold be16 in E. rewrite E by assumption.
  reflexivity.
Qed.

Lemma decode_fields_short telemetry : (length telemetry < 9)%nat -> decode_fields (F := F) telemetry = Panic.
Proof.
  intros Hl. unfold decode_fields.
  do 9 (destruct telemetry as [|? telemetry]; [reflexivity|cbn [get_at lookup list_lookup obind]]).
  cbn in Hl. lia.
Qed.
End Frames.

(** ** Strings *)

Lemma string_length_append s1 s2 : String.length (s1 ++ s2) = (String.length s1 + String.length s2)%nat.
Proof. induction s1 as [|c s1 IH]; cbn; [reflexivity|]. rewrite IH. reflexivity. Qed.

Lemma string_append_assoc s1 s2 s3 : ((s1 ++ s2) ++ s3 = s1 ++ (s2 ++ s3))%string.
Proof. induction s1 as [|c s1 IH]; cbn; [reflexivity|]. rewrite IH. reflexivity. Qed.

Lemma string_append_empty s : (s ++ EmptyString)%string = s.
Proof. induction s as [|c s IH]; cbn; [reflexivity|]. rewrite IH. reflexivity. Qed.

Lemma string_length_of_list l : String.length (string_of_list_ascii l) = List.length l.
Proof. induction l as [|c l IH]; cbn; [reflexivity|]. rewrite IH. reflexivity. Qed.

Lemma hex_bytes_length bs : List.length (hex_bytes bs) = (2 * List.length bs)%nat.
Proof. unfold hex_bytes. induction bs as [|b bs IH]; cbn; [reflexivity|]. rewrite IH. lia. Qed.

Lemma frame_text_length bs : String.length (frame_text bs) = (2 * List.length bs + 2)%nat.
Proof. unfold frame_text. rewrite string_length_of_list, length_app, hex_bytes_length. cbn. lia. Qed.

(** ** Parsing failures *)

Lemma parse_chunks_app_panic cs c : parse_chunk c = Panic -> parse_chunks (cs ++ [c]) = Panic.
Proof.
  intros Hc. induction cs as [|c' cs IH]; cbn [app parse_chunks].
  - rewrite Hc. reflexivity.
  - rewrite IH. destruct (parse_chunk c'); reflexivity.
Qed.

(** The last chunk of [l ++ [x]] ends with [x]. *)
Lemma chunks2_snoc l x : exists pre, chunks2 (l ++ [x]) = pre ++ [[x]] \/
  exists y, chunks2 (l ++ [x]) = pre ++ [[y; x]].
Proof.
  induction l as [l IH] using (well_founded_induction (Wf_nat.well_founded_ltof _ (@List.length ascii))).
  destruct l as [|a [|b l]].
  - exists []. left. reflexivity.
  - exists []. right. exists a. reflexivity.
  - destruct (IH l) as (pre & E); [unfold Wf_nat.ltof; cbn; lia|].
    exists ([a; b] :: pre). cbn [app chunks2].
    destruct E as [E | (y & E)]; rewrite E; [left | right; exists y]; reflexivity.
Qed.

Lemma parse_chunk_lf_end chunk : (chunk = ["010"%char] \/ exists y, chunk = [y; "010"%char]) ->
  parse_chunk chunk = Panic.
Proof.
  intros [-> | (y & ->)]; [reflexivity|].
  unfold parse_chunk, from_str_radix16. destruct (utf8_chunk_ok _); [|reflexivity].
  destruct (Ascii.eqb y "+"%char); [reflexivity|].
  cbn [digits_u8]. destruct (hex_digit y); [|reflexivity].
  destruct (_ <? 256); reflexivity.
Qed.

(** ** Decoding a frame *)

Section Decode.
Context {F : Type} `{FloatOps F}.

Lemma process_string_bytes b0 b1 b2 b3 b4 b5 b6 b7 b8 rest :
  Forall is_byte (b0 :: b1 :: b2 :: b3 :: b4 :: b5 :: b6 :: b7 :: b8 :: rest) ->
  process_string (F := F) (frame_text (b0 :: b1 :: b2 :: b3 :: b4 :: b5 :: b6 :: b7 :: b8 :: rest)) =
  Done ((f_of_Z (256 * b1 + b2) ⊘ f_of_Z 100)%fl,
        (f_of_Z (100 * (256 * b7 + b8)) ⊗ f_of_Z 2 ⊗ f_lit 314 2 ⊘ f_of_Z 60
           ⊘ f_of_Z 14 ⊘ f_of_Z 2)%fl).
Proof.
  intros Hb. unfold process_string.
  rewrite trim_frame_text, chunks2_hex, parse_chunks_hex by exact Hb. cbn [obind].
  apply Forall_inv_tail in Hb.
  change (Forall is_byte ([b1; b2; b3; b4; b5; b6; b7; b8] ++ rest)) in Hb.
  apply Forall_app in Hb as [Hb _]. rewrite decode_fields_bytes by exact Hb. reflexivity.
Qed.

(** C23: A frame the ESC sends for the bytes [b0 .. b8] (and any bytes after
    them), hex-encoded and terminated by ["\r\n"], decodes to the voltage
    [(256 b1 + b2) / 100] and to [omega] computed from the eRPM
    [100 (256 b7 + b8)], with the f64 operations of line 161. *)
Theorem process_string_frame b0 b1 b2 b3 b4 b5 b6 b7 b8 rest :
  Forall is_byte (b0 :: b1 :: b2 :: b3 :: b4 :: b5 :: b6 :: b7 :: b8 :: rest) ->
  process_string (F := F) (frame_text (b0 :: b1 :: b2 :: b3 :: b4 :: b5 :: b6 :: b7 :: b8 :: rest)) =
  Done ((f_of_Z (256 * b1 + b2) ⊘ f_of_Z 100)%fl,
        (f_of_Z (100 * (256 * b7 + b8)) ⊗ f_of_Z 2 ⊗ f_lit 314 2 ⊘ f_of_Z 60
           ⊘ f_of_Z 14 ⊘ f_of_Z 2)%fl).
Proof. apply process_string_bytes. Qed.
End Decode.

(** In exact arithmetic [erpm * 2 * 3.14 / 60 / 14 / 2] is
    [erpm * 157 / 42000]. *)
Lemma omega_Q (e : Z) :
  (f_of_Z e ⊗ f_of_Z 2 ⊗ f_lit 314 2 ⊘ f_of_Z 60 ⊘ f_of_Z 14 ⊘ f_of_Z 2 : Q)%fl == inject_Z e * (157 # 42000).
Proof.
  cbn [f_of_Z f_mul f_div f_lit Q_ops]. unfold f_lit. cbn [f_of_Z f_div Q_ops].
  change (10 ^ Z.of_nat 2) with 100. rewrite Qmake_Qdiv. unfold inject_Z. field.
Qed.

(** ** The frame loop *)

Lemma read_frame_first l rest : String.length l = 22%nat -> read_frame (Some l :: rest) EmptyString = Done (l, rest).
Proof. intros Hl. cbn [read_frame String.append]. rewrite Hl. reflexivity. Qed.

(** Once the buffer is longer than 22 bytes the loop can only panic. *)
Lemma read_frame_overrun lines t : (22 < String.length t)%nat -> read_frame lines t = Panic.
Proof.
  revert t. induction lines as [|[l|] lines IH]; intros t Ht; cbn [read_frame]; try reflexivity.
  rewrite string_length_append. destruct (Nat.eqb_spec (String.length t + String.length l) 22); [lia|].
  apply IH. rewrite string_length_append. lia.
Qed.

Lemma trim_crlf_rev_bare_lf c r : Ascii.eqb c "013"%char = false ->
  trim_crlf_rev ("010" :: c :: r)%char = ("010" :: c :: r)%char.
Proof. intros E. cbn [trim_crlf_rev]. rewrite E. reflexivity. Qed.

(** ** Properties of the codec and of the frame loop *)

(** C3: End to end, in exact arithmetic: when the port's first line is a
    frame of 10 bytes (20 hex digits and ["\r\n"], 22 bytes), the
    telemetry read of [control_sequence] returns the voltage
    [(256 b1 + b2) / 100] and [omega = erpm * 157 / 42000], where
    [erpm = 100 (256 b7 + b8)], and leaves the following lines unread. *)
Theorem read_telemetry_frame bs rest : Forall is_byte bs -> List.length bs = 10%nat ->
  exists v o, read_telemetry (F := Q) (Some (frame_text bs) :: rest) = Done ((v, o), rest) /\
    v == inject_Z (256 * nth 1 bs 0 + nth 2 bs 0) / 100 /\
    o == inject_Z (100 * (256 * nth 7 bs 0 + nth 8 bs 0)) * (157 # 42000).
Proof.
  intros Hb Hl. unfold read_telemetry.
  rewrite read_frame_first by (rewrite frame_text_length, Hl; reflexivity). cbn [obind].
  do 9 (destruct bs as [|? bs]; [discriminate|]).
  rewrite process_string_bytes by exact Hb. cbn [obind nth].
  eexists _, _. split; [reflexivity|]. split; [reflexivity|]. apply omega_Q.
Qed.

(** C13: The buffer is not cleared between reads: a short line (a partial
    or garbled frame) followed by a well-formed 22-byte frame makes the
    loop panic, whatever the port sends afterwards, where the design
    retries until it reads a frame of the expected length. *)
Theorem read_frame_short_line l f ls :
  (0 < String.length l < 22)%nat -> String.length f = 22%nat ->
  read_frame (Some l :: Some f :: ls) EmptyString = Panic.
Proof.
  intros Hl Hf. cbn [read_frame String.append].
  destruct (Nat.eqb_spec (String.length l) 22); [lia|].
  rewrite string_length_append, Hf. destruct (Nat.eqb_spec (String.length l + 22) 22); [lia|].
  apply read_frame_overrun. rewrite string_length_append. lia.
Qed.

(** C35: A frame of the length the design gives (22 hex characters, 11
    bytes, before its terminator) is never accepted: the buffer already
    holds 24 bytes after the first line and the read panics. *)
Theorem read_telemetry_long_frame {F} `{FloatOps F} bs ls : (11 <= List.length bs)%nat ->
  read_telemetry (F := F) (Some (frame_text bs) :: ls) = Panic.
Proof.
  intros Hl. unfold read_telemetry. cbn [read_frame String.append].
  rewrite frame_text_length. destruct (Nat.eqb_spec (2 * List.length bs + 2) 22); [lia|].
  rewrite read_frame_overrun by (rewrite frame_text_length; lia). reflexivity.
Qed.

(** C38: A line terminated by a bare ["\n"] (no ["\r"] before it) is not
    trimmed, and its last chunk holds the ["\n"]: [process_string] panics
    on the parse. *)
Theorem process_string_bare_lf {F} `{FloatOps F} l c : Ascii.eqb c "013"%char = false ->
  process_string (F := F) (string_of_list_ascii (l ++ [c; "010"]%char)) = Panic.
Proof.
  intros Hc. unfold process_string, trim_end_matches_crlf.
  rewrite list_ascii_of_string_of_list_ascii, rev_app_distr. cbn [rev app].
  rewrite trim_crlf_rev_bare_lf by exact Hc. cbn [rev]. rewrite rev_involutive, <- !app_assoc.
  cbn [app]. replace (l ++ [c; "010"%char]) with ((l ++ [c]) ++ ["010"%char]) by (rewrite <- app_assoc; reflexivity).
  destruct (chunks2_snoc (l ++ [c]) "010"%char) as (pre & E).
  assert (Hp : parse_chunks (chunks2 ((l ++ [c]) ++ ["010"%char])) = Panic).
  { destruct E as [E | (y & E)]; rewrite E; apply parse_chunks_app_panic, parse_chunk_lf_end; eauto. }
  rewrite Hp. reflexivity.
Qed.

(** A frame of fewer than 9 bytes makes [process_string] panic on
    the index [telemetry[k]] of lines 155-159. *)
Theorem process_string_short {F} `{FloatOps F} bs : Forall is_byte bs -> (List.length bs < 9)%nat ->
  process_string (F := F) (frame_text bs) = Panic.
Proof.
  intros Hb Hl. unfold process_string.
  rewrite trim_frame_text, chunks2_hex, parse_chunks_hex by exact Hb. cbn [obind].
  rewrite decode_fields_short by exact Hl. reflexivity.
Qed.

(** [u8::from_str_radix] accepts a leading ['+']: the chunk ["+d"]
    decodes to the digit [d], where the design rejects a pair that is
    not two hexadecimal digits. *)
Theorem parse_chunk_plus d : 0 <= d < 16 -> parse_chunk ["+"%char; hex_char d] = Done d.
Proof.
  intros Hd. unfold parse_chunk, utf8_chunk_ok, from_str_radix16.
  rewrite byte_of_hex_char by exact Hd.
  replace ((if d <? 10 then 48 + d else 87 + d) <? 128) with true
    by (symmetry; destruct (Z.ltb_spec d 10); apply Z.ltb_lt; lia).
  cbn [digits_u8 andb orb]. change (byte_of "+"%char <? 128) with true. cbn [andb orb].
  change (Ascii.eqb "+" "+")%char with true. cbn iota.
  rewrite hex_digit_char by exact Hd. replace (0 * 16 + d <? 256) with true by (symmetry; apply Z.ltb_lt; lia).
  reflexivity.
Qed.

(** On the frame [1a04b00064012c000a00] the f64 codec gives 12 V and
    [omega = 3.7380952380952381]: the eRPM is 1000, and the f64 operations
    of line 161 are the ones evaluated. *)
Example process_string_f64_example :
  process_string (F := float) (frame_text [26; 4; 176; 0; 100; 1; 44; 0; 10; 0]) =
  Done (12%float, 0x1.de79e79e79e7ap+1%float).
Proof. vm_compute. reflexivity. Qed.

(** ** Witnesses *)

Ltac bytes_ok := repeat (constructor; [unfold is_byte; lia|]); constructor.

Lemma telemetry_fields_bounds_witness :
  is_byte 255 /\ is_byte 255 /\
  0 <= be16 255 255 < 2 ^ 16 /\ 0 <= 100 * Z.lor (Z.shiftl 255 8) 255 < 2 ^ 32.
Proof.
  assert (Hb : is_byte 255) by (unfold is_byte; lia).
  split; [exact Hb|]. split; [exact Hb|]. apply (telemetry_fields_bounds 255 255 Hb Hb).
Defined.

Lemma read_telemetry_frame_witness :
  Forall is_byte [26; 4; 176; 0; 100; 1; 44; 0; 10; 0] /\
  List.length [26; 4; 176; 0; 100; 1; 44; 0; 10; 0] = 10%nat /\
  exists v o, read_telemetry (F := Q) (Some (frame_text [26; 4; 176; 0; 100; 1; 44; 0; 10; 0]) :: []) =
    Done ((v, o), []) /\
    v == inject_Z (256 * nth 1 [26; 4; 176; 0; 100; 1; 44; 0; 10; 0] 0 + nth 2 [26; 4; 176; 0; 100; 1; 44; 0; 10; 0] 0) / 100 /\
    o == inject_Z (100 * (256 * nth 7 [26; 4; 176; 0; 100; 1; 44; 0; 10; 0] 0 + nth 8 [26; 4; 176; 0; 100; 1; 44; 0; 10; 0] 0)) * (157 # 42000).
Proof.
  assert (Hb : Forall is_byte [26; 4; 176; 0; 100; 1; 44; 0; 10; 0]) by bytes_ok.
  split; [exact Hb|]. split; [reflexivity|]. apply (read_telemetry_frame _ [] Hb). reflexivity.
Defined.

Lemma read_frame_short_line_witness :
  (0 < String.length (frame_text [26%Z; 4%Z]) < 22)%nat /\
  String.length (frame_text [26; 4; 176; 0; 100; 1; 44; 0; 10; 0]) = 22%nat /\
  read_frame (Some (frame_text [26; 4]) :: Some (frame_text [26; 4; 176; 0; 100; 1; 44; 0; 10; 0]) :: []) EmptyString = Panic.
Proof.
  split; [vm_compute; lia|]. split; [reflexivity|].
  apply read_frame_short_line; [vm_compute; lia | reflexivity].
Defined.

Lemma read_telemetry_long_frame_witness :
  (11 <= List.length [26%Z; 4%Z; 176%Z; 0%Z; 100%Z; 1%Z; 44%Z; 0%Z; 10%Z; 0%Z; 0%Z])%nat /\
  read_telemetry (F := Q) (Some (frame_text [26; 4; 176; 0; 100; 1; 44; 0; 10; 0; 0]) :: []) = Panic.
Proof. split; [cbn; lia|]. apply read_telemetry_long_frame. cbn; lia. Defined.

Lemma process_string_bare_lf_witness :
  Ascii.eqb "0" "013" = false /\
  process_string (F := Q) (string_of_list_ascii (list_ascii_of_string "1a04b00064012c000a0" ++ ["0"; "010"]))%char = Panic.
Proof. split; [reflexivity|]. apply process_string_bare_lf. reflexivity. Defined.

Lemma parse_chunk_plus_witness : 0 <= 15 < 16 /\ parse_chunk ["+"%char; hex_char 15] = Done 15.
Proof. split; [lia|]. apply parse_chunk_plus. lia. Defined.

Lemma process_string_frame_witness :
  Forall is_byte [26; 4; 176; 0; 100; 1; 44; 0; 10; 0] /\
  process_string (F := float) (frame_text [26; 4; 176; 0; 100; 1; 44; 0; 10; 0]) =
  Done ((f_of_Z (256 * 4 + 176) ⊘ f_of_Z 100)%fl,
        (f_of_Z (100 * (256 * 0 + 10)) ⊗ f_of_Z 2 ⊗ f_lit 314 2 ⊘ f_of_Z 60 ⊘ f_of_Z 14 ⊘ f_of_Z 2)%fl).
Proof.
  assert (Hb : Forall is_byte [26; 4; 176; 0; 100; 1; 44; 0; 10; 0]) by bytes_ok.
  split; [exact Hb|]. apply (process_string_frame _ _ _ _ _ _ _ _ _ _ Hb).
Defined.
