(* ===== verification/Calibration.v ===== *)
(** * Calibration: [calibrate_zero] of src/logging/src/main.rs

    [calibrate_zero] (lines 229-278) calls the synchronized acquisition
    until five seconds have elapsed, adds every successful reading of
    channel [i] to [statistics[i] = (sum, sum_of_squares)], counts the
    frames in [readings_count], and then turns each channel's statistics
    into an offset and a variance through [CALIBRATION_GRADIENTS[i]].

    The acquisition is the interface [Acquisition]: a state, its number
    of channels and one frame.  [read_multiple] over a vector of HX711
    devices is an instance ([hx711_acquisition]) and satisfies the laws
    [AcquisitionLaws] that the theorems on the vector of statistics use.
    The wall clock is a function [elapsed k]: the value of
    [start_time.elapsed().as_secs()] at the [k]-th test of the loop.
    Section [AllFailedF64] evaluates, with IEEE binary64 arithmetic, the
    statistics of a channel that never reads, for every window of up
    to [max_window] frames. *)

From Stdlib Require Import ZArith QArith Qfield Lia String List Floats.
From stdpp Require Import base list.
From S2P Require Import Prelude Hx711.
Import ListNotations.

Open Scope Z_scope.

(** What [calibrate_zero] needs of the acquisition: the number of
    channels (the statistics vector is [vec![(0.0, 0.0); len]]) and one
    frame, with one result per channel. *)
Class Acquisition (St F : Type) := {
  channels : St -> nat;
  acquire : St -> outcome (St * list (hx_result F))
}.

(** A frame has one result per channel and keeps the channels. *)
Class AcquisitionLaws (St F : Type) `{Acquisition St F} := {
  acquire_length s s' rs : acquire s = Done (s', rs) -> length rs = channels s;
  acquire_channels s s' rs : acquire s = Done (s', rs) -> channels s' = channels s
}.

#[export] Instance hx711_acquisition {P} `{Gpio P} {F} `{FloatOps F} : Acquisition (list P) F := {|
  channels := @length P;
  acquire := read_multiple
|}.

(** [const CALIBRATION_GRADIENTS: [f64; 1] = [2.46324555e-5]]. *)
Definition CALIBRATION_GRADIENTS {F} `{FloatOps F} : list F := [f_lit 246324555 13].

(** [let average_time = 5]. *)
Definition average_time : Z := 5.

Section Calibrate.
Context {St F : Type} `{FloatOps F} {acq : Acquisition St F}.

Definition zero_stat : F * F := (f_of_Z 0, f_of_Z 0).

(** Lines 239-252, from index [i] of [load_cell_read] on. *)
Fixpoint accumulate (i : nat) (load_cell_read : list (hx_result F)) (statistics : list (F * F))
    : outcome (list (F * F)) :=
  match load_cell_read with
  | [] => Done statistics
  | HxErr _ :: rest => accumulate (S i) rest statistics
  | HxOk read_result :: rest =>
      let statistics := if (length statistics <=? i)%nat then statistics ++ [zero_stat] else statistics in
      let* (sum, sum_of_squares) := get_at statistics i in
      let* statistics := set_at statistics i
           ((sum ⊕ read_result)%fl, (sum_of_squares ⊕ read_result ⊗ read_result)%fl) in
      accumulate (S i) rest statistics
  end.

(** One iteration of the [while] body: a frame, then the accumulation. *)
Definition calib_iteration (s : St) (statistics : list (F * F)) : outcome (St * list (F * F)) :=
  let* (s', load_cell_read) := acquire s in
  let* statistics := accumulate 0 load_cell_read statistics in
  Done (s', statistics).

(** Lines 236-254.  [fuel] bounds the number of tests of the loop
    condition; [None] is a run that has not finished within it. *)
Fixpoint calib_loop (elapsed : nat -> Z) (fuel k : nat) (s : St) (statistics : list (F * F))
    (readings_count : Z) : option (outcome (St * list (F * F) * Z)) :=
  match fuel with
  | O => None
  | S fuel =>
      if elapsed k <? average_time then
        match calib_iteration s statistics with
        | Panic => Some Panic
        | Done (s', statistics) => calib_loop elapsed fuel (S k) s' statistics (readings_count + 1)
        end
      else Some (Done (s, statistics, readings_count))
  end.

(** Lines 256-275, from channel [i] on: the mean and the variance, scaled
    by [coeff = -1.0 / CALIBRATION_GRADIENTS[i]]. *)
Fixpoint finalize (i : nat) (statistics : list (F * F)) (readings_count : Z) : outcome (list (F * F)) :=
  match statistics with
  | [] => Done []
  | (sum, sum_of_squares) :: rest =>
      let mean := (sum ⊘ f_of_Z readings_count)%fl in
      let variance := (sum_of_squares ⊘ f_of_Z readings_count ⊖ mean ⊗ mean)%fl in
      let* g := get_at CALIBRATION_GRADIENTS i in
      let coeff := (f_of_Z (-1) ⊘ g)%fl in
      let mean := (coeff ⊗ mean)%fl in
      let variance := (coeff ⊗ coeff ⊗ variance)%fl in
      let* rest := finalize (S i) rest readings_count in
      Done ((mean, variance) :: rest)
  end.

(** Lines 229-275: the statistics vector at the end of [calibrate_zero],
    each entry [(offset, variance)]. *)
Definition calibrate_stats (elapsed : nat -> Z) (fuel : nat) (s : St)
    : option (outcome (St * list (F * F))) :=
  match calib_loop elapsed fuel 0 s (replicate (channels s) zero_stat) 0 with
  | None => None
  | Some Panic => Some Panic
  | Some (Done (s', statistics, readings_count)) =>
      Some (omap (fun st => (s', st)) (finalize 0 statistics readings_count))
  end.

(** [calibrate_zero]: line 277 keeps the first component, the offset. *)
Definition calibrate_zero (elapsed : nat -> Z) (fuel : nat) (s : St) : option (outcome (St * list F)) :=
  option_map (omap (fun r => (r.1, map fst r.2))) (calibrate_stats elapsed fuel s).

(** The frames of [n] iterations, the loop without its clock. *)
Fixpoint calib_iterate (n : nat) (s : St) (statistics : list (F * F)) : outcome (St * list (F * F)) :=
  match n with
  | O => Done (s, statistics)
  | S n => let* (s', statistics) := calib_iteration s statistics in calib_iterate n s' statistics
  end.
End Calibrate.

(** A synthetic one-channel acquisition: frame [n] reads [frame n]. *)
Definition trace_acquisition {F} (frame : nat -> hx_result F) : Acquisition nat F := {|
  channels _ := 1%nat;
  acquire n := Done (S n, [frame n])
|}.

(** A clock that reaches five seconds at the [n]-th test. *)
Definition clock_after (n : nat) (k : nat) : Z := if (k <? n)%nat then 0 else 5.

(** Frames of the synthetic channels the witnesses use. *)
Definition steady (n : nat) : hx_result Q := HxOk (1 # 2).
Definition alternating (n : nat) : hx_result Q := if Nat.even n then HxOk (1 # 2) else HxErr read_error.
Definition failing (n : nat) : hx_result Q := HxErr read_error.

(** [k0] is the first test of the loop at which five seconds have
    elapsed. *)
Definition first_elapsed (elapsed : nat -> Z) (k0 : nat) : Prop :=
  (forall j, (j < k0)%nat -> elapsed j < average_time) /\ average_time <= elapsed k0.

(** ** The loop runs one frame per elapsed-time test below five seconds *)

Section Loop.
Context {St F : Type} `{FloatOps F} `{Acquisition St F}.

Lemma calib_loop_iterate elapsed k0 : first_elapsed elapsed k0 ->
  forall fuel k s st c, (k <= k0)%nat -> (k0 - k < fuel)%nat ->
  calib_loop elapsed fuel k s st c =
  Some (omap (fun r => (r.1, r.2, c + Z.of_nat (k0 - k))) (calib_iterate (k0 - k) s st)).
Proof.
  intros [Hbefore Hat] fuel. induction fuel as [|fuel IH]; intros k s st c Hk Hf; [lia|].
  cbn [calib_loop]. destruct (Nat.eq_dec k k0) as [->|Hne].
  - replace (elapsed k0 <? average_time) with false by (symmetry; apply Z.ltb_ge; exact Hat).
    rewrite Nat.sub_diag. cbn. rewrite Z.add_0_r. reflexivity.
  - replace (elapsed k <? average_time) with true by (symmetry; apply Z.ltb_lt, Hbefore; lia).
    replace (k0 - k)%nat with (S (k0 - S k)) by lia. cbn [calib_iterate].
    destruct (calib_iteration s st) as [[s' st']|]; [|reflexivity]. cbn [obind].
    rewrite IH by lia. f_equal. destruct (calib_iterate _ s' st') as [[? ?]|]; [|reflexivity].
    cbn. f_equal. f_equal. lia.
Qed.

(** With [fuel] above the first test at which five seconds have elapsed
    the loop finishes after exactly [k0] frames. *)
Lemma calibrate_stats_iterate elapsed k0 fuel s : first_elapsed elapsed k0 -> (k0 < fuel)%nat ->
  calibrate_stats elapsed fuel s =
  Some (let* (s', st) := calib_iterate k0 s (replicate (channels s) zero_stat) in
        let* fin := finalize 0 st (Z.of_nat k0) in Done (s', fin)).
Proof.
  intros Hk0 Hf. unfold calibrate_stats.
  rewrite (calib_loop_iterate elapsed k0 Hk0) by lia. rewrite Nat.sub_0_r.
  destruct (calib_iterate k0 s _) as [[s' st]|]; [|reflexivity]. cbn [omap obind fst snd].
  rewrite Z.add_0_l. destruct (finalize 0 st (Z.of_nat k0)); reflexivity.

Qed.
End Loop.

(** ** The HX711 frame satisfies the acquisition laws *)

Lemma read_multiple_lengths {P} `{Gpio P} {F} `{FloatOps F} (devs devs' : list P) out :
  read_multiple (F := F) devs = Done (devs', out) -> length out = length devs /\ length devs' = length devs.
Proof.
  rewrite read_multiple_lanes. destruct (omapi _ 0 devs) as [res|] eqn:E; [|discriminate].
  cbn. intros Hd. inversion Hd; subst. apply omapi_length in E. rewrite !length_map. auto.
Qed.

#[export] Instance hx711_acquisition_laws {P} `{Gpio P} {F} `{FloatOps F} :
  AcquisitionLaws (list P) F.
Proof.
  split; intros s s' rs Hs; apply read_multiple_lengths in Hs; apply Hs.
Qed.

(** ** The statistics vector keeps one entry per channel *)

Section Shape.
Context {St F : Type} `{FloatOps F} `{Acquisition St F} `{!AcquisitionLaws St F}.

Lemma accumulate_length i rd st st' : (i + length rd <= length st)%nat ->
  accumulate i rd st = Done st' -> length st' = length st.
Proof.
  revert i st. induction rd as [|[x|m] rd IH]; intros i st Hl Hacc; cbn [accumulate] in Hacc.
  - inversion Hacc; reflexivity.
  - cbn in Hl. destruct (Nat.leb_spec (length st) i); [lia|].
    destruct (lookup_lt_is_Some_2 st i) as [[sum sq] Hi]; [lia|].
    rewrite (get_at_lookup _ _ _ Hi) in Hacc. cbn [obind] in Hacc.
    rewrite (set_at_lookup _ _ _ _ Hi) in Hacc. cbn [obind] in Hacc.
    apply IH in Hacc; [rewrite Hacc, length_insert; reflexivity|]. rewrite length_insert. lia.
  - cbn in Hl. apply IH in Hacc; [exact Hacc|lia].
Qed.


Lemma finalize_two a b rest c : finalize (F := F) 0 (a :: b :: rest) c = Panic.
Proof. destruct a, b. reflexivity. Qed.

Lemma calib_iterate_length n s st s' st' : length st = channels s ->
  calib_iterate n s st = Done (s', st') -> length st' = length st.
Proof.
  revert s st. induction n as [|n IH]; intros s st Hl Hit; cbn [calib_iterate] in Hit.
  - inversion Hit; subst. reflexivity.
  - unfold calib_iteration in Hit.
    destruct (acquire s) as [[s1 rd]|] eqn:Ea; [|discriminate]. cbn [obind] in Hit.
    destruct (accumulate 0 rd st) as [st1|] eqn:Eacc; [|discriminate]. cbn [obind] in Hit.
    assert (E1 : length st1 = length st).
    { apply (accumulate_length 0 rd st st1); [|exact Eacc]. rewrite (acquire_length s s1 rd Ea). lia. }
    rewrite <- E1. apply (IH s1 st1); [|exact Hit]. rewrite (acquire_channels s s1 rd Ea). lia.
Qed.

(** With two channels or more, a calibration that runs to its end
    panics: [CALIBRATION_GRADIENTS] has one entry. *)
Lemma calibrate_stats_multi elapsed k0 fuel s : first_elapsed elapsed k0 -> (k0 < fuel)%nat ->
  (2 <= channels s)%nat -> calibrate_stats elapsed fuel s = Some Panic.
Proof.
  intros Hk0 Hf Hc. rewrite (calibrate_stats_iterate elapsed k0) by assumption.
  destruct (calib_iterate k0 s _) as [[s' st]|] eqn:E; [|reflexivity]. cbn [obind].
  apply calib_iterate_length in E; [|apply length_replicate].
  rewrite length_replicate in E. destruct st as [|a [|b rest]]; cbn in E; [lia|lia|].
  rewrite finalize_two. reflexivity.
Qed.

Lemma accumulate_total i rd st : (i + length rd <= length st)%nat -> exists st', accumulate i rd st = Done st'.
Proof.
  revert i st. induction rd as [|[x|m] rd IH]; intros i st Hl; cbn [accumulate]; [eauto| |].
  - cbn in Hl. destruct (Nat.leb_spec (length st) i); [lia|].
    destruct (lookup_lt_is_Some_2 st i) as [[sum sq] Hi]; [lia|].
    rewrite (get_at_lookup _ _ _ Hi). cbn [obind]. rewrite (set_at_lookup _ _ _ _ Hi). cbn [obind].
    apply IH. rewrite length_insert. lia.
  - cbn in Hl. apply IH. lia.
Qed.
End Shape.

(** ** One channel: the calibration never panics *)

Section OneChannelTotal.
Context {St F : Type} `{FloatOps F} `{Acquisition St F} `{!AcquisitionLaws St F}.
(** A frame of one channel returns. *)
Hypothesis acquire_one : forall s, channels s = 1%nat -> acquire s <> Panic.

Lemma calib_loop_one elapsed fuel k s st c : channels s = 1%nat -> length st = 1%nat ->
  calib_loop elapsed fuel k s st c = None \/
  exists s' st' c', calib_loop elapsed fuel k s st c = Some (Done (s', st', c')) /\
    channels s' = 1%nat /\ length st' = 1%nat.
Proof.
  revert k s st c. induction fuel as [|fuel IH]; intros k s st c Hc Hl; cbn [calib_loop]; [left; reflexivity|].
  destruct (elapsed k <? average_time); [|right; eauto 10].
  unfold calib_iteration. destruct (acquire s) as [[s1 rd]|] eqn:Ea; [|exfalso; exact (acquire_one s Hc Ea)].
  cbn [obind]. pose proof (acquire_length s s1 rd Ea). pose proof (acquire_channels s s1 rd Ea).
  destruct (accumulate_total 0 rd st ltac:(lia)) as [st1 Eacc]. rewrite Eacc. cbn [obind].
  apply IH; [lia|]. rewrite (accumulate_length 0 rd st st1 ltac:(lia) Eacc). exact Hl.
Qed.

(** With one channel, [calibrate_zero] either runs out of fuel or
    returns one offset, and leaves one channel. *)
Lemma calibrate_zero_one elapsed fuel s : channels s = 1%nat ->
  calibrate_zero elapsed fuel s = None \/
  exists s' offs, calibrate_zero elapsed fuel s = Some (Done (s', offs)) /\
    channels s' = 1%nat /\ length offs = 1%nat.
Proof.
  intros Hc. unfold calibrate_zero, calibrate_stats.
  destruct (calib_loop_one elapsed fuel 0 s (replicate (channels s) zero_stat) 0 Hc)
    as [-> | (s' & st & c & -> & Hc' & Hl)]; [rewrite length_replicate; exact Hc|left; reflexivity|].
  destruct st as [|[a b] [|st2 rest]]; cbn in Hl; try lia.
  right. eexists _, _. split; [reflexivity|]. split; [exact Hc'|reflexivity].
Qed.
(** With more fuel than the index of the first test at which five
    seconds have elapsed, a one-channel calibration returns one offset. *)
Lemma calibrate_zero_one_done elapsed k0 fuel s : first_elapsed elapsed k0 -> (k0 < fuel)%nat ->
  channels s = 1%nat ->
  exists s' offs, calibrate_zero elapsed fuel s = Some (Done (s', offs)) /\
    channels s' = 1%nat /\ length offs = 1%nat.
Proof.
  intros Hk Hf Hc. destruct (calibrate_zero_one elapsed fuel s Hc) as [E|H']; [|exact H'].
  exfalso. unfold calibrate_zero in E. rewrite (calibrate_stats_iterate elapsed k0) in E by assumption.
  discriminate.
Qed.
End OneChannelTotal.

(** ** One channel in exact arithmetic *)

(** The gradient [2.46324555e-5] in Q. *)
Lemma gradient_Q : (CALIBRATION_GRADIENTS : list Q) = [246324555 # 10000000000000].
Proof. unfold CALIBRATION_GRADIENTS, f_lit. cbn. f_equal. Qed.

Section OneChannel.
Open Scope Q_scope.
Context {St : Type} {acq : Acquisition St Q}.
(** The frames of a one-channel acquisition: from state [s] the frame
    reads [rd s] and leaves the state [next s]. *)
Variables (next : St -> St) (rd : St -> hx_result Q).
Hypothesis Hacq : forall s, acquire s = Done (next s, [rd s]).

(** The value a frame adds to the sum: the reading, or nothing. *)
Definition ok_value (r : hx_result Q) : Q := match r with HxOk x => x | HxErr _ => 0 end.

Fixpoint sum_ok (n : nat) (s : St) : Q :=
  match n with O => 0 | S n => ok_value (rd s) + sum_ok n (next s) end.

Fixpoint sum_sq (n : nat) (s : St) : Q :=
  match n with O => 0 | S n => ok_value (rd s) * ok_value (rd s) + sum_sq n (next s) end.

Lemma calib_iteration_one s a b : exists a' b',
  calib_iteration s [(a, b)] = Done (next s, [(a', b')]) /\
  a' == a + ok_value (rd s) /\ b' == b + ok_value (rd s) * ok_value (rd s).
Proof.
  unfold calib_iteration. rewrite Hacq. cbn [obind].
  destruct (rd s) as [x|m]; cbn.
  - eexists _, _. split; [reflexivity|]. split; reflexivity.
  - eexists _, _. split; [reflexivity|]. split; ring.
Qed.

Lemma calib_iterate_one n s a b : exists a' b',
  calib_iterate n s [(a, b)] = Done (Nat.iter n next s, [(a', b')]) /\
  a' == a + sum_ok n s /\ b' == b + sum_sq n s.
Proof.
  revert s a b. induction n as [|n IH]; intros s a b.
  - exists a, b. split; [reflexivity|]. cbn. split; ring.
  - destruct (calib_iteration_one s a b) as (a1 & b1 & E & Ha & Hb).
    destruct (IH (next s) a1 b1) as (a' & b' & E' & Ha' & Hb').
    exists a', b'. cbn [calib_iterate]. rewrite E. cbn [obind]. rewrite E', <- Nat.iter_succ_r.
    split; [reflexivity|]. cbn [sum_ok sum_sq]. rewrite Ha', Hb', Ha, Hb. split; ring.
Qed.

Lemma finalize_one sum sq c : exists off var,
  finalize 0 [(sum, sq)] c = Done [(off, var)] /\
  off == - (sum / inject_Z c) / (246324555 # 10000000000000) /\
  var == (sq / inject_Z c - (sum / inject_Z c) * (sum / inject_Z c)) / ((246324555 # 10000000000000) ^ 2).
Proof.
  cbn [finalize]. rewrite gradient_Q. cbn. eexists _, _. split; [reflexivity|].
  set (m := sum / inject_Z c). set (v := sq / inject_Z c). cbn. split; field.
Qed.

Lemma one_channel_stats elapsed k0 fuel s :
  first_elapsed elapsed k0 -> (k0 < fuel)%nat -> channels s = 1%nat ->
  exists off var,
    calibrate_stats elapsed fuel s = Some (Done (Nat.iter k0 next s, [(off, var)])) /\
    (off == - (sum_ok k0 s / inject_Z (Z.of_nat k0)) / (246324555 # 10000000000000)) /\
    (var == (sum_sq k0 s / inject_Z (Z.of_nat k0)
             - (sum_ok k0 s / inject_Z (Z.of_nat k0)) * (sum_ok k0 s / inject_Z (Z.of_nat k0)))
            / ((246324555 # 10000000000000) ^ 2)).
Proof.
  intros Hk0 Hf Hc. rewrite (calibrate_stats_iterate elapsed k0) by assumption. rewrite Hc.
  destruct (calib_iterate_one k0 s (f_of_Z 0) (f_of_Z 0)) as (a & b & E & Ha & Hb).
  cbn [replicate]. unfold zero_stat. rewrite E. cbn [obind].
  destruct (finalize_one a b (Z.of_nat k0)) as (off & var & Ef & Ho & Hv).
  rewrite Ef. exists off, var. split; [reflexivity|].
  change (f_of_Z 0) with 0 in Ha, Hb. rewrite Qplus_0_l in Ha, Hb.
  rewrite Ho, Hv, Ha, Hb. split; reflexivity.
Qed.
(** C29: In exact arithmetic, a one-channel calibration whose clock reaches
    five seconds at the [k0]-th test runs [k0] frames and returns the
    offset [-(S / k0) / g] and the variance [(S2 / k0 - (S / k0)^2) / g^2],
    where [S] and [S2] are the sums of the successful readings and of their
    squares and [g] is [CALIBRATION_GRADIENTS[0]]: failed frames add nothing
    to the sums but count in [k0]. *)
Theorem calibrate_one_channel elapsed k0 fuel s :
  first_elapsed elapsed k0 -> (k0 < fuel)%nat -> channels s = 1%nat ->
  exists off var,
    calibrate_stats elapsed fuel s = Some (Done (Nat.iter k0 next s, [(off, var)])) /\
    (off == - (sum_ok k0 s / inject_Z (Z.of_nat k0)) / (246324555 # 10000000000000)) /\
    (var == (sum_sq k0 s / inject_Z (Z.of_nat k0)
             - (sum_ok k0 s / inject_Z (Z.of_nat k0)) * (sum_ok k0 s / inject_Z (Z.of_nat k0)))
            / ((246324555 # 10000000000000) ^ 2)).
Proof. apply one_channel_stats. Qed.

(** The number of successful frames among the first [n]. *)
Fixpoint count_ok (n : nat) (s : St) : nat :=
  match n with
  | O => O
  | S n => ((match rd s with HxOk _ => 1 | HxErr _ => 0 end) + count_ok n (next s))%nat
  end.

Section TwoValued.
(** A channel that reads [x] whenever it reads anything. *)
Variable x : Q.
Hypothesis Hx : forall s, rd s = HxOk x \/ exists m, rd s = HxErr m.

Lemma sums_two_valued n s :
  sum_ok n s == inject_Z (Z.of_nat (count_ok n s)) * x /\
  sum_sq n s == inject_Z (Z.of_nat (count_ok n s)) * (x * x).
Proof.
  revert s. induction n as [|n IH]; intros s; cbn [sum_ok sum_sq count_ok]; [split; reflexivity|].
  destruct (IH (next s)) as [H1 H2]. rewrite H1, H2.
  rewrite Nat2Z.inj_add, inject_Z_plus.
  destruct (Hx s) as [E | (m & E)]; rewrite E; cbn [ok_value]; split; ring.
Qed.

Lemma two_valued_stats elapsed k0 fuel s :
  first_elapsed elapsed k0 -> (k0 < fuel)%nat -> channels s = 1%nat ->
  exists off var,
    calibrate_stats elapsed fuel s = Some (Done (Nat.iter k0 next s, [(off, var)])) /\
    (off == - (inject_Z (Z.of_nat (count_ok k0 s)) / inject_Z (Z.of_nat k0))
             * (x / (246324555 # 10000000000000))) /\
    (var == (inject_Z (Z.of_nat (count_ok k0 s)) / inject_Z (Z.of_nat k0)
             - (inject_Z (Z.of_nat (count_ok k0 s)) / inject_Z (Z.of_nat k0))
               * (inject_Z (Z.of_nat (count_ok k0 s)) / inject_Z (Z.of_nat k0)))
            * (x * x) / ((246324555 # 10000000000000) ^ 2)).
Proof.
  intros Hk0 Hf Hc. destruct (one_channel_stats elapsed k0 fuel s Hk0 Hf Hc) as (off & var & E & Ho & Hv).
  exists off, var. split; [exact E|]. destruct (sums_two_valued k0 s) as [H1 H2].
  rewrite Ho, Hv, H1, H2. unfold Qdiv. split; ring.
Qed.
End TwoValued.

Lemma count_ok_all n s : (forall s, exists x, rd s = HxOk x) -> count_ok n s = n.
Proof.
  intros Hall. revert s. induction n as [|n IH]; intros s; [reflexivity|].
  cbn [count_ok]. destruct (Hall s) as (x & ->). rewrite IH. reflexivity.
Qed.

Lemma count_ok_none n s : (forall s, exists m, rd s = HxErr m) -> count_ok n s = O.
Proof.
  intros Hnone. revert s. induction n as [|n IH]; intros s; [reflexivity|].
  cbn [count_ok]. destruct (Hnone s) as (m & ->). apply IH.
Qed.

(** C4: A channel that reads the constant [x] on every frame of a window of
    at least one frame calibrates, in exact arithmetic, to the offset
    [-x / g] and the variance 0 (so the noise stdev [sqrt 0 = 0]). *)
Theorem calibrate_constant elapsed k0 fuel s x :
  (forall s, rd s = HxOk x) ->
  first_elapsed elapsed k0 -> (0 < k0 < fuel)%nat -> channels s = 1%nat ->
  exists off var,
    calibrate_stats elapsed fuel s = Some (Done (Nat.iter k0 next s, [(off, var)])) /\
    (off == - x / (246324555 # 10000000000000)) /\ (var == 0).
Proof.
  intros Hx Hk0 Hf Hc.
  destruct (two_valued_stats x (fun s => or_introl (Hx s)) elapsed k0 fuel s Hk0 ltac:(lia) Hc)
    as (off & var & E & Ho & Hv).
  exists off, var. split; [exact E|].
  rewrite count_ok_all in Ho, Hv by (intros s'; exists x; apply Hx).
  assert (Hk : ~ inject_Z (Z.of_nat k0) == 0)
    by (intros E'; change (inject_Z (Z.of_nat k0) == inject_Z 0) in E'; rewrite inject_Z_injective in E'; lia).
  rewrite Ho, Hv. split; field; exact Hk.
Qed.

(** C19: Failed frames count in [readings_count]: a channel that reads [x]
    on [c] of the [k0] frames and fails on the others calibrates to the
    offset [-(c / k0) (x / g)], not [-x / g], and to the variance
    [(c/k0) (1 - c/k0) x^2 / g^2], which is not 0. *)
Theorem calibrate_failures_bias elapsed k0 fuel s x :
  (forall s, rd s = HxOk x \/ exists m, rd s = HxErr m) ->
  first_elapsed elapsed k0 -> (k0 < fuel)%nat -> channels s = 1%nat ->
  exists off var,
    calibrate_stats elapsed fuel s = Some (Done (Nat.iter k0 next s, [(off, var)])) /\
    (off == - (inject_Z (Z.of_nat (count_ok k0 s)) / inject_Z (Z.of_nat k0))
             * (x / (246324555 # 10000000000000))) /\
    (var == (inject_Z (Z.of_nat (count_ok k0 s)) / inject_Z (Z.of_nat k0))
            * (1 - inject_Z (Z.of_nat (count_ok k0 s)) / inject_Z (Z.of_nat k0))
            * (x * x) / ((246324555 # 10000000000000) ^ 2)).
Proof.
  intros Hx Hk0 Hf Hc.
  destruct (two_valued_stats x Hx elapsed k0 fuel s Hk0 Hf Hc) as (off & var & E & Ho & Hv).
  exists off, var. split; [exact E|]. rewrite Ho, Hv. unfold Qdiv. split; ring.
Qed.

End OneChannel.

(** ** A channel that never reads

    Its entry of [statistics] keeps the [(0.0, 0.0)] it starts with, and
    [finalize] divides it by the number of frames, failed ones included. *)

Section AllFailed.
Context {St F : Type} `{FloatOps F} {acq : Acquisition St F}.
Variable next : St -> St.
Hypothesis Hfail : forall s, exists m, acquire s = Done (next s, [HxErr m]).

Lemma calib_iterate_failing n s st : calib_iterate n s st = Done (Nat.iter n next s, st).
Proof.
  revert s. induction n as [|n IH]; intros s; [reflexivity|].
  cbn [calib_iterate]. unfold calib_iteration. destruct (Hfail s) as [m ->]. cbn [obind accumulate].
  rewrite IH, Nat.iter_succ_r. reflexivity.
Qed.

Lemma all_failed_stats elapsed k0 fuel s : first_elapsed elapsed k0 -> (k0 < fuel)%nat -> channels s = 1%nat ->
  calibrate_stats elapsed fuel s =
  Some (omap (fun fin => (Nat.iter k0 next s, fin)) (finalize 0 [zero_stat] (Z.of_nat k0))).
Proof.
  intros Hk0 Hf Hc. rewrite (calibrate_stats_iterate elapsed k0) by assumption.
  rewrite Hc, calib_iterate_failing. cbn [replicate obind].
  destruct (finalize 0 [zero_stat] (Z.of_nat k0)); reflexivity.
Qed.
End AllFailed.

(** The f64 statistics of a never-read channel over [k] frames. *)
Definition all_failed_zero (k : Z) : bool :=
  match finalize (F := float) 0 [zero_stat] k with
  | Done [(off, var)] => PrimFloat.is_zero off && PrimFloat.is_zero var
  | _ => false
  end.

(** [all_failed_zero] on the frame counts [k .. k + n - 1]. *)
Fixpoint all_failed_zero_upto (n : nat) (k : Z) : bool :=
  match n with
  | O => true
  | S n => all_failed_zero k && all_failed_zero_upto n (k + 1)
  end.

Lemma all_failed_zero_upto_spec n k j :
  all_failed_zero_upto n k = true -> k <= j < k + Z.of_nat n -> all_failed_zero j = true.
Proof.
  revert k. induction n as [|n IH]; intros k Hup Hj; [lia|].
  cbn [all_failed_zero_upto] in Hup. apply andb_prop in Hup as [Hk Hup].
  destruct (Z.eq_dec j k) as [->|Hne]; [exact Hk|]. apply (IH (k + 1)); [exact Hup|lia].
Qed.

(** Five seconds at the HX711's 80 samples per second are 400 frames;
    the f64 result is checked for every window up to 100000 frames. *)
Definition max_window : Z := 100000.

Lemma all_failed_zero_window j : 1 <= j <= max_window -> all_failed_zero j = true.
Proof.
  intros Hj. apply (all_failed_zero_upto_spec (Z.to_nat max_window) 1); [vm_compute; reflexivity|].
  rewrite Z2Nat.id; [lia|discriminate].
Qed.

Section AllFailedF64.
Context {St : Type} {acq : Acquisition St float}.
Variable next : St -> St.
Hypothesis Hfail : forall s, exists m, acquire s = Done (next s, [HxErr m]).

(** C37: In f64, a channel that fails on every frame of a window of one
    frame or more calibrates to the offset 0 and the variance 0, not to
    the NaN statistics the design asks for: its sums stay [0.0] and are
    divided by the frame count, failed frames included.  Only when five
    seconds have already elapsed at the first test (no frame at all) are
    the statistics NaN ([0.0 / 0.0]). *)
Theorem calibrate_all_failed elapsed k0 fuel s :
  first_elapsed elapsed k0 -> (k0 < fuel)%nat -> channels s = 1%nat -> Z.of_nat k0 <= max_window ->
  exists off var,
    calibrate_stats elapsed fuel s = Some (Done (Nat.iter k0 next s, [(off, var)])) /\
    (k0 = O -> PrimFloat.is_nan off = true /\ PrimFloat.is_nan var = true) /\
    ((1 <= k0)%nat -> PrimFloat.is_zero off = true /\ PrimFloat.is_zero var = true).
Proof.
  intros Hk0 Hf Hc Hw. rewrite (all_failed_stats next Hfail elapsed k0) by assumption.
  pose proof (all_failed_zero_window (Z.of_nat k0)) as Hz. unfold all_failed_zero in Hz.
  destruct (finalize 0 [zero_stat] (Z.of_nat k0)) as [[|[off var] [|]]|] eqn:E;
    try (destruct k0; [discriminate E|]; discriminate (Hz ltac:(lia))).
  exists off, var. split; [reflexivity|]. split.
  - intros ->. vm_compute in E. injection E as <- <-. split; reflexivity.
  - intros H1. apply andb_prop, Hz. lia.
Qed.
End AllFailedF64.

(** ** The loop and the channel count *)

(** C26: The calibration loop terminates: when the clock reaches five
    seconds at the [k0]-th test, [calibrate_zero] with more fuel than
    [k0] returns, after exactly [k0] frames, the offsets [finalize]
    computes from the statistics of those frames. *)
Theorem calibrate_zero_frames {St F} `{FloatOps F} `{Acquisition St F} elapsed k0 fuel s :
  first_elapsed elapsed k0 -> (k0 < fuel)%nat ->
  calibrate_zero elapsed fuel s =
  Some (let* (s', st) := calib_iterate k0 s (replicate (channels s) zero_stat) in
        let* fin := finalize 0 st (Z.of_nat k0) in Done (s', map fst fin)).
Proof.
  intros Hk0 Hf. unfold calibrate_zero. rewrite (calibrate_stats_iterate elapsed k0) by assumption.
  cbn [option_map]. f_equal. destruct (calib_iterate k0 s _) as [[s' st]|]; [|reflexivity].
  cbn [obind]. destruct (finalize 0 st (Z.of_nat k0)); reflexivity.
Qed.

(** C14: [CALIBRATION_GRADIENTS] has a single entry: [calibrate_zero] over
    two HX711 devices or more panics once its window has elapsed, on
    [CALIBRATION_GRADIENTS[1]] if no frame panicked before. *)
Theorem calibrate_zero_two_devices {P} `{Gpio P} {F} `{FloatOps F} elapsed k0 fuel (devs : list P) :
  first_elapsed elapsed k0 -> (k0 < fuel)%nat -> (2 <= length devs)%nat ->
  calibrate_zero (F := F) elapsed fuel devs = Some Panic.
Proof.
  intros Hk0 Hf Hd. unfold calibrate_zero.
  rewrite (calibrate_stats_multi elapsed k0) by assumption. reflexivity.
Qed.

(** In f64 the variance of a constant channel is not 0: the reading
    [0x4ADD15 / 2^23] on all of 377 frames gives a negative variance,
    and the printed noise figure [variance.sqrt()] is NaN. *)
Example calibrate_constant_f64_negative_variance :
  match calibrate_stats (acq := trace_acquisition (fun _ => HxOk (to_reading (F := float) 0x4ADD15)))
          (clock_after 377) 400 0%nat with
  | Some (Done (_, [(_, var)])) => PrimFloat.ltb var 0 && PrimFloat.is_nan (PrimFloat.sqrt var)
  | _ => false
  end = true.
Proof. vm_compute. reflexivity. Qed.

(** ** Witnesses *)

Lemma clock_after_first n : first_elapsed (clock_after n) n.
Proof.
  unfold first_elapsed, clock_after, average_time. split.
  - intros j Hj. destruct (Nat.ltb_spec j n); lia.
  - rewrite Nat.ltb_irrefl. lia.
Qed.

Lemma calibrate_one_channel_witness :
  (forall s, acquire (Acquisition := trace_acquisition alternating) s = Done (S s, [alternating s])) /\
  first_elapsed (clock_after 3) 3 /\ (3 < 4)%nat /\
  channels (Acquisition := trace_acquisition alternating) 0%nat = 1%nat /\
  exists off var,
    calibrate_stats (acq := trace_acquisition alternating) (clock_after 3) 4 0%nat =
      Some (Done (Nat.iter 3 S 0%nat, [(off, var)])) /\
    (off == - (sum_ok S alternating 3 0%nat / inject_Z (Z.of_nat 3)) / (246324555 # 10000000000000))%Q /\
    (var == (sum_sq S alternating 3 0%nat / inject_Z (Z.of_nat 3)
             - (sum_ok S alternating 3 0%nat / inject_Z (Z.of_nat 3)) * (sum_ok S alternating 3 0%nat / inject_Z (Z.of_nat 3)))
            / ((246324555 # 10000000000000) ^ 2))%Q.
Proof.
  assert (Hacq : forall s, acquire (Acquisition := trace_acquisition alternating) s = Done (S s, [alternating s]))
    by reflexivity.
  split; [exact Hacq|]. split; [apply clock_after_first|]. split; [lia|]. split; [reflexivity|].
  apply (calibrate_one_channel (acq := trace_acquisition alternating) S alternating Hacq); [apply clock_after_first|lia|reflexivity].
Defined.

Lemma calibrate_constant_witness :
  (forall s, acquire (Acquisition := trace_acquisition steady) s = Done (S s, [steady s])) /\
  (forall s, steady s = HxOk (1 # 2)) /\
  first_elapsed (clock_after 3) 3 /\ (0 < 3 < 4)%nat /\
  channels (Acquisition := trace_acquisition steady) 0%nat = 1%nat /\
  exists off var,
    calibrate_stats (acq := trace_acquisition steady) (clock_after 3) 4 0%nat =
      Some (Done (Nat.iter 3 S 0%nat, [(off, var)])) /\
    (off == - (1 # 2) / (246324555 # 10000000000000))%Q /\ (var == 0)%Q.
Proof.
  assert (Hacq : forall s, acquire (Acquisition := trace_acquisition steady) s = Done (S s, [steady s]))
    by reflexivity.
  assert (Hx : forall s, steady s = HxOk (1 # 2)) by reflexivity.
  split; [exact Hacq|]. split; [exact Hx|]. split; [apply clock_after_first|]. split; [lia|].
  split; [reflexivity|].
  apply (calibrate_constant (acq := trace_acquisition steady) S steady Hacq); [exact Hx|apply clock_after_first|lia|reflexivity].
Defined.

Lemma calibrate_failures_bias_witness :
  (forall s, acquire (Acquisition := trace_acquisition alternating) s = Done (S s, [alternating s])) /\
  (forall s, alternating s = HxOk (1 # 2) \/ exists m, alternating s = HxErr m) /\
  first_elapsed (clock_after 3) 3 /\ (3 < 4)%nat /\
  channels (Acquisition := trace_acquisition alternating) 0%nat = 1%nat /\
  exists off var,
    calibrate_stats (acq := trace_acquisition alternating) (clock_after 3) 4 0%nat =
      Some (Done (Nat.iter 3 S 0%nat, [(off, var)])) /\
    (off == - (inject_Z (Z.of_nat (count_ok S alternating 3 0%nat)) / inject_Z (Z.of_nat 3))
             * ((1 # 2) / (246324555 # 10000000000000)))%Q /\
    (var == (inject_Z (Z.of_nat (count_ok S alternating 3 0%nat)) / inject_Z (Z.of_nat 3))
            * (1 - inject_Z (Z.of_nat (count_ok S alternating 3 0%nat)) / inject_Z (Z.of_nat 3))
            * ((1 # 2) * (1 # 2)) / ((246324555 # 10000000000000) ^ 2))%Q.
Proof.
  assert (Hacq : forall s, acquire (Acquisition := trace_acquisition alternating) s = Done (S s, [alternating s]))
    by reflexivity.
  assert (Hx : forall s, alternating s = HxOk (1 # 2) \/ exists m, alternating s = HxErr m).
  { intros s. unfold alternating. destruct (Nat.even s); [left; reflexivity | right; eexists; reflexivity]. }
  split; [exact Hacq|]. split; [exact Hx|]. split; [apply clock_after_first|]. split; [lia|].
  split; [reflexivity|].
  apply (calibrate_failures_bias (acq := trace_acquisition alternating) S alternating Hacq);
    [exact Hx|apply clock_after_first|lia|reflexivity].
Defined.

Lemma calibrate_all_failed_witness :
  (forall s, exists m, acquire (Acquisition := trace_acquisition (fun _ => HxErr (A := float) read_error)) s =
                       Done (S s, [HxErr m])) /\
  first_elapsed (clock_after 3) 3 /\ (3 < 4)%nat /\
  channels (Acquisition := trace_acquisition (fun _ => HxErr (A := float) read_error)) 0%nat = 1%nat /\
  Z.of_nat 3 <= max_window /\
  exists off var,
    calibrate_stats (acq := trace_acquisition (fun _ => HxErr read_error)) (clock_after 3) 4 0%nat =
      Some (Done (Nat.iter 3 S 0%nat, [(off, var)])) /\
    (3%nat = O -> PrimFloat.is_nan off = true /\ PrimFloat.is_nan var = true) /\
    ((1 <= 3)%nat -> PrimFloat.is_zero off = true /\ PrimFloat.is_zero var = true).
Proof.
  assert (Hacq : forall s, exists m, acquire (Acquisition := trace_acquisition (fun _ => HxErr (A := float) read_error)) s =
                                     Done (S s, [HxErr m])) by (intros s; eexists; reflexivity).
  split; [exact Hacq|]. split; [apply clock_after_first|]. split; [lia|]. split; [reflexivity|].
  split; [vm_compute; discriminate|].
  apply (calibrate_all_failed (acq := trace_acquisition (fun _ => HxErr read_error)) S Hacq);
    [apply clock_after_first|lia|reflexivity|vm_compute; discriminate].
Defined.

Lemma calibrate_zero_frames_witness :
  first_elapsed (clock_after 2) 2 /\ (2 < 3)%nat /\
  calibrate_zero (acq := trace_acquisition steady) (clock_after 2) 3 0%nat =
  Some (let* (s', st) := calib_iterate (acq := trace_acquisition steady) 2 0%nat
                           (replicate (channels (Acquisition := trace_acquisition steady) 0%nat) zero_stat) in
        let* fin := finalize 0 st (Z.of_nat 2) in Done (s', map fst fin)).
Proof.
  split; [apply clock_after_first|]. split; [lia|].
  apply calibrate_zero_frames; [apply clock_after_first|lia].
Defined.

Lemma calibrate_zero_two_devices_witness :
  first_elapsed (clock_after 1) 1 /\ (1 < 2)%nat /\ (2 <= length [false; false])%nat /\
  calibrate_zero (F := Q) (clock_after 1) 2 [false; false] = Some Panic.
Proof.
  split; [apply clock_after_first|]. split; [lia|]. split; [cbn; lia|].
  apply (calibrate_zero_two_devices (clock_after 1) 1); [apply clock_after_first|lia|cbn; lia].
Defined.
