(* ===== verification/ControlLoop.v ===== *)
(** * ControlLoop: [main], [initialise], [control_sequence], [exit_sequence]
    and the Ctrl-C handler of src/logging/src/main.rs

    Two threads share the serial port (behind a [Mutex]) and the atomic
    flag [running]: the main thread (lines 95-140) calibrates, arms the
    ESC, ramps the throttle by one ["r"] per iteration while [running]
    and [throttle_command < MAX_PWM], and stops the ESC; the handler
    (lines 88-92), run once per Ctrl-C, clears [running] and stops the
    ESC itself.  The model is a step relation [step] on a [world]: each
    step is one atomic action of one thread (an atomic load or store, a
    lock acquisition, or the body of a critical section, which no other
    thread can enter).  The port is the log of its writes, tagged with the
    thread that wrote them, and the source of the lines it reads.

    The process ends when [main] returns or panics: no thread takes a
    step after that. *)

From Stdlib Require Import ZArith QArith Qfield Lia String Ascii List.
From stdpp Require Import base list relations.
From S2P Require Import Prelude Hx711 Telemetry Calibration.
Import ListNotations.

Open Scope Z_scope.

(** [const MAX_PWM: i32 = 1600]. *)
Definition MAX_PWM : Z := 1600.

Inductive thread := Main | Handler.

(** The commands written to the ESC: [" "] (arm), ["t"] (onewire), ["r"]
    (throttle increment) and [" \n"] (zero throttle). *)
Definition arm_cmd : string := " "%string.
Definition onewire_cmd : string := "t"%string.
Definition increment_cmd : string := "r"%string.
Definition stop_cmd : string := String " "%char (String "010"%char EmptyString).

(** Where the main thread is. *)
Inductive main_pc (F : Type) :=
  | MCalibrate                 (** line 96 *)
  | MInitLock | MInitCrit      (** line 98, [initialise] *)
  | MTest                      (** line 101, the loop condition *)
  | MCtrlLock | MCtrlCrit      (** line 105, [control_sequence] *)
  | MSample (row : F * F)      (** lines 106-132 *)
  | MExitLock | MExitCrit      (** lines 138-140, [exit_sequence] *)
  | MDone | MPanicked.
Arguments MCalibrate {F}. Arguments MInitLock {F}. Arguments MInitCrit {F}.
Arguments MTest {F}. Arguments MCtrlLock {F}. Arguments MCtrlCrit {F}.
Arguments MSample {F}. Arguments MExitLock {F}. Arguments MExitCrit {F}.
Arguments MDone {F}. Arguments MPanicked {F}.

(** Where the handler is: waiting for a signal, about to store [false],
    waiting for the port, or in [exit_sequence]. *)
Inductive handler_pc := HIdle | HStore | HLock | HCrit.

Record world (St F : Type) := mk_world {
  w_main : main_pc F;
  w_handler : handler_pc;
  w_running : bool;
  w_throttle : Z;
  w_lock : option thread;
  w_log : list (thread * string);
  w_lines : line_source;
  w_devs : St;
  w_offset : list F;
  w_rows : list (Z * F * (F * F))
}.
Arguments mk_world {St F}.
Arguments w_main {St F}. Arguments w_handler {St F}. Arguments w_running {St F}.
Arguments w_throttle {St F}. Arguments w_lock {St F}. Arguments w_log {St F}.
Arguments w_lines {St F}. Arguments w_devs {St F}. Arguments w_offset {St F}.
Arguments w_rows {St F}.

Section Control.
Context {St F : Type} `{FloatOps F} {acq : Acquisition St F}.

(** Lines 106-118: [thrust] starts at [0.0] and every successful channel
    [i] overwrites it with [(1.0 / CALIBRATION_GRADIENTS[i]) * read + offset[i]]. *)
Fixpoint thrust_loop (i : nat) (load_cell_read : list (hx_result F)) (offset : list F) (thrust : F)
    : outcome F :=
  match load_cell_read with
  | [] => Done thrust
  | HxErr _ :: rest => thrust_loop (S i) rest offset thrust
  | HxOk read_result :: rest =>
      let* g := get_at CALIBRATION_GRADIENTS i in
      let* o := get_at offset i in
      thrust_loop (S i) rest offset ((f_of_Z 1 ⊘ g) ⊗ read_result ⊕ o)%fl
  end.

Definition thrust_of (load_cell_read : list (hx_result F)) (offset : list F) : outcome F :=
  thrust_loop 0 load_cell_read offset (f_of_Z 0).

Definition with_main (pc : main_pc F) (w : world St F) : world St F :=
  mk_world pc (w_handler w) (w_running w) (w_throttle w) (w_lock w) (w_log w) (w_lines w)
    (w_devs w) (w_offset w) (w_rows w).

Definition with_handler (h : handler_pc) (w : world St F) : world St F :=
  mk_world (w_main w) h (w_running w) (w_throttle w) (w_lock w) (w_log w) (w_lines w)
    (w_devs w) (w_offset w) (w_rows w).

Definition with_lock (l : option thread) (w : world St F) : world St F :=
  mk_world (w_main w) (w_handler w) (w_running w) (w_throttle w) l (w_log w) (w_lines w)
    (w_devs w) (w_offset w) (w_rows w).

Definition write_port (t : thread) (s : list string) (w : world St F) : world St F :=
  mk_world (w_main w) (w_handler w) (w_running w) (w_throttle w) (w_lock w)
    (w_log w ++ map (fun x => (t, x)) s) (w_lines w) (w_devs w) (w_offset w) (w_rows w).

Definition with_lines (lines : line_source) (w : world St F) : world St F :=
  mk_world (w_main w) (w_handler w) (w_running w) (w_throttle w) (w_lock w) (w_log w) lines
    (w_devs w) (w_offset w) (w_rows w).

(** [initialise] (lines 174-186), with the port locked: [" "] then ["t"]. *)
Definition initialise (w : world St F) : world St F := write_port Main [arm_cmd; onewire_cmd] w.

(** [exit_sequence] (lines 188-200), with the port locked by thread [t]. *)
Definition exit_sequence (t : thread) (w : world St F) : world St F := write_port t [stop_cmd] w.

(** [control_sequence] (lines 202-227), with the port locked: ["r"], then
    the telemetry read; a panic leaves the ["r"] written. *)
Definition control_sequence (w : world St F) : world St F * outcome (F * F) :=
  let w := write_port Main [increment_cmd] w in
  match read_telemetry (w_lines w) with
  | Done (row, rest) => (with_lines rest w, Done row)
  | Panic => (w, Panic)
  end.

(** The loop condition of line 101. *)
Definition loop_test (w : world St F) : bool := w_running w && (w_throttle w <? MAX_PWM).

(** The process is running: [main] has neither returned nor panicked. *)
Definition alive (pc : main_pc F) : bool :=
  match pc with MDone | MPanicked => false | _ => true end.

(** One atomic action of one thread.  [elapsed] and [fuel] of the
    calibration are chosen by the environment (the wall clock). *)
Inductive step : world St F -> world St F -> Prop :=
  | s_calibrate w elapsed fuel devs' offset :
      w_main w = MCalibrate ->
      calibrate_zero elapsed fuel (w_devs w) = Some (Done (devs', offset)) ->
      step w (mk_world MInitLock (w_handler w) (w_running w) (w_throttle w) (w_lock w) (w_log w)
                (w_lines w) devs' offset (w_rows w))
  | s_calibrate_panic w elapsed fuel :
      w_main w = MCalibrate -> calibrate_zero elapsed fuel (w_devs w) = Some Panic ->
      step w (with_main MPanicked w)
  | s_init_lock w :
      w_main w = MInitLock -> w_lock w = None -> step w (with_lock (Some Main) (with_main MInitCrit w))
  | s_init_crit w :
      w_main w = MInitCrit -> step w (with_lock None (with_main MTest (initialise w)))
  | s_test_continue w :
      w_main w = MTest -> loop_test w = true ->
      step w (mk_world MCtrlLock (w_handler w) (w_running w) (w_throttle w + 50) (w_lock w) (w_log w)
                (w_lines w) (w_devs w) (w_offset w) (w_rows w))
  | s_test_exit w :
      w_main w = MTest -> loop_test w = false ->
      step w (with_main MExitLock w)
  | s_ctrl_lock w :
      w_main w = MCtrlLock -> w_lock w = None -> step w (with_lock (Some Main) (with_main MCtrlCrit w))
  | s_ctrl_crit w w1 row :
      w_main w = MCtrlCrit -> control_sequence w = (w1, Done row) ->
      step w (with_lock None (with_main (MSample row) w1))
  | s_ctrl_panic w w1 :
      w_main w = MCtrlCrit -> control_sequence w = (w1, Panic) ->
      step w (with_main MPanicked w1)
  | s_sample w row devs' rd thrust :
      w_main w = MSample row -> acquire (w_devs w) = Done (devs', rd) ->
      thrust_of rd (w_offset w) = Done thrust ->
      step w (mk_world MTest (w_handler w) (w_running w) (w_throttle w) (w_lock w) (w_log w)
                (w_lines w) devs' (w_offset w) (w_rows w ++ [(w_throttle w, thrust, row)]))
  | s_sample_panic w row :
      w_main w = MSample row ->
      (let* (_, rd) := acquire (w_devs w) in thrust_of rd (w_offset w)) = Panic ->
      step w (with_main MPanicked w)
  | s_exit_lock w :
      w_main w = MExitLock -> w_lock w = None -> step w (with_lock (Some Main) (with_main MExitCrit w))
  | s_exit_crit w :
      w_main w = MExitCrit -> step w (with_lock None (with_main MDone (exit_sequence Main w)))
  | h_signal w :
      alive (w_main w) = true -> w_handler w = HIdle -> step w (with_handler HStore w)
  | h_store w :
      alive (w_main w) = true -> w_handler w = HStore ->
      step w (mk_world (w_main w) HLock false (w_throttle w) (w_lock w) (w_log w) (w_lines w)
                (w_devs w) (w_offset w) (w_rows w))
  | h_lock w :
      alive (w_main w) = true -> w_handler w = HLock -> w_lock w = None ->
      step w (with_lock (Some Handler) (with_handler HCrit w))
  | h_crit w :
      alive (w_main w) = true -> w_handler w = HCrit ->
      step w (with_lock None (with_handler HIdle (exit_sequence Handler w))).

(** The state after [ctrlc::set_handler] (line 93). *)
Definition init (devs : St) (lines : line_source) : world St F :=
  mk_world MCalibrate HIdle true 0 None [] lines devs [] [].

Definition reachable (devs : St) (lines : line_source) (w : world St F) : Prop :=
  rtc step (init devs lines) w.
End Control.

(** The throttle commands the main thread wrote. *)
Definition is_r (e : thread * string) : bool :=
  match e with (Main, s) => String.eqb s increment_cmd | _ => false end.

Definition count_r (log : list (thread * string)) : nat := length (List.filter is_r log).

(** The main thread is inside a critical section on the port. *)
Definition main_crit {F} (pc : main_pc F) : bool :=
  match pc with MInitCrit | MCtrlCrit | MExitCrit => true | _ => false end.

(** The iteration has incremented the throttle but not yet written ["r"]. *)
Definition r_pending {F} (pc : main_pc F) : nat :=
  match pc with MCtrlLock | MCtrlCrit => 1 | _ => 0 end.

(** The iteration has incremented the throttle but not yet emitted its row. *)
Definition row_pending {F} (pc : main_pc F) : nat :=
  match pc with MCtrlLock | MCtrlCrit | MSample _ => 1 | _ => 0 end.

Definition row_throttle {F} (r : Z * F * (F * F)) : Z := r.1.1.

(** [step_inv]: what every reachable world satisfies. *)
Definition step_inv {St F} (w : world St F) : Prop :=
  0 <= w_throttle w <= MAX_PWM /\ w_throttle w mod 50 = 0 /\
  Z.of_nat (count_r (w_log w) + r_pending (w_main w)) * 50 = w_throttle w /\
  map row_throttle (w_rows w) = map (fun k => 50 * Z.of_nat (S k)) (seq 0 (length (w_rows w))) /\
  (w_main w <> MPanicked -> Z.of_nat (length (w_rows w) + row_pending (w_main w)) * 50 = w_throttle w) /\
  Z.of_nat (length (w_rows w)) * 50 <= w_throttle w /\
  (main_crit (w_main w) = true -> w_lock w = Some Main) /\
  (w_lock w = Some Main -> main_crit (w_main w) = true \/ w_main w = MPanicked) /\
  (w_lock w = Some Handler <-> w_handler w = HCrit).

(** ** Lemmas on the log *)

Lemma count_r_app l1 l2 : count_r (l1 ++ l2) = (count_r l1 + count_r l2)%nat.
Proof. unfold count_r. rewrite List.filter_app, List.length_app. reflexivity. Qed.

Lemma count_r_handler s : count_r (map (fun x => (Handler, x)) s) = O.
Proof. induction s; [reflexivity|]. exact IHs. Qed.

Lemma seq_snoc_throttle n :
  map (fun k => 50 * Z.of_nat (S k)) (seq 0 (S n)) =
  map (fun k => 50 * Z.of_nat (S k)) (seq 0 n) ++ [50 * Z.of_nat (S n)].
Proof. rewrite seq_S, map_app. reflexivity. Qed.

Lemma count_r_cmds :
  count_r [(Main, arm_cmd); (Main, onewire_cmd)] = O /\ count_r [(Main, increment_cmd)] = 1%nat /\
  count_r [(Main, stop_cmd)] = O /\ count_r [(Handler, stop_cmd)] = O.
Proof. repeat split; reflexivity. Qed.

Lemma throttle_step t : t mod 50 = 0 -> t < MAX_PWM -> t + 50 <= MAX_PWM /\ (t + 50) mod 50 = 0.
Proof.
  unfold MAX_PWM. intros Hm Hlt. pose proof (Z.div_mod t 50). split; [lia|].
  rewrite <- (Z.mod_add t 1 50) in Hm by lia. replace (t + 1 * 50) with (t + 50) in Hm by lia. exact Hm.
Qed.

Lemma rows_snoc {F} (rows : list (Z * F * (F * F))) t th row :
  map row_throttle rows = map (fun k => 50 * Z.of_nat (S k)) (seq 0 (length rows)) ->
  Z.of_nat (length rows + 1) * 50 = t ->
  map row_throttle (rows ++ [(t, th, row)]) =
  map (fun k => 50 * Z.of_nat (S k)) (seq 0 (length (rows ++ [(t, th, row)]))).
Proof.
  intros Hr Ht. rewrite length_app, map_app, Hr. cbn [length]. rewrite Nat.add_1_r, seq_snoc_throttle.
  f_equal. cbn. f_equal. lia.
Qed.

Section Sequences.
Context {St F : Type} `{FloatOps F} {acq : Acquisition St F}.

Lemma control_sequence_cases (w w1 : world St F) o : control_sequence w = (w1, o) ->
  (exists row rest, o = Done row /\ read_telemetry (w_lines w) = Done (row, rest) /\
     w1 = with_lines rest (write_port Main [increment_cmd] w)) \/
  (o = Panic /\ read_telemetry (F := F) (w_lines w) = Panic /\ w1 = write_port Main [increment_cmd] w).
Proof.
  unfold control_sequence. cbn [w_lines write_port].
  destruct (read_telemetry (w_lines w)) as [[row rest]|]; intros E; inversion E; subst.
  - left. eauto.
  - right. auto.
Qed.

Lemma control_sequence_done (w : world St F) row rest : read_telemetry (w_lines w) = Done (row, rest) ->
  control_sequence w = (with_lines rest (write_port Main [increment_cmd] w), Done row).
Proof. intros E. unfold control_sequence. cbn [w_lines write_port]. rewrite E. reflexivity. Qed.

Lemma loop_test_true (w : world St F) : w_running w = true -> w_throttle w < MAX_PWM -> loop_test w = true.
Proof. intros Hr Ht. unfold loop_test. rewrite Hr. apply Z.ltb_lt, Ht. Qed.
End Sequences.

(** ** The invariant of the two threads *)

Section Invariant.
Context {St F : Type} `{FloatOps F} {acq : Acquisition St F}.

Lemma step_inv_init (devs : St) lines : step_inv (init (F := F) devs lines).
Proof.
  unfold step_inv, init; cbn. repeat split; try discriminate; try (intros; discriminate); lia.
Qed.

Ltac inv_close :=
  repeat match goal with
  | |- _ /\ _ => split
  | |- _ <-> _ => split
  end;
  try assumption; try lia; try (intros; discriminate); try (intros; congruence);
  try (intros; right; reflexivity);
  try (intros Hx; match goal with H : main_crit _ = true -> _ |- _ => apply H in Hx; congruence end);
  try (intros _; match goal with H : _ <> MPanicked -> _ |- _ => specialize (H ltac:(discriminate)) end;
       rewrite ?length_app in *; cbn [length] in *; lia);
  try (match goal with H : _ <> MPanicked -> _ |- _ => specialize (H ltac:(discriminate)) end;
       rewrite ?length_app in *; cbn [length] in *; lia);
  try (intros Hx; match goal with H : _ -> _ \/ _ |- _ => destruct (H Hx); discriminate end);
  try (intros Hx; match goal with H : _ <-> _ |- _ => apply H in Hx; congruence end).

Lemma step_preserves (w w' : world St F) : step w w' -> step_inv w -> step_inv w'.
Proof.
  destruct count_r_cmds as (Ca & Ci & Cs & Ch).
  intros Hs (Hb & Hm & Hc & Hr & Hrl & Hrb & Hl1 & Hl2 & Hh).
  destruct Hs as [w ? ? ? ? Hpc | w ? ? Hpc | w Hpc Hlk | w Hpc | w Hpc Htest | w Hpc Hex
                 | w Hpc Hlk | w w1 row Hpc Hcs | w w1 Hpc Hcs | w row ? ? ? Hpc | w row Hpc | w Hpc Hlk | w Hpc
                 | w Hal Hhd | w Hal Hhd | w Hal Hhd Hlk | w Hal Hhd];
    try (apply control_sequence_cases in Hcs as [(row' & rest & Ho & _ & ->) | (Ho & _ & ->)];
         try discriminate);
    try (unfold loop_test in Htest; apply andb_true_iff in Htest as [Hrun Hlt%Z.ltb_lt]);
    unfold initialise, exit_sequence, with_lines in *;
    unfold step_inv, with_main, with_lock, with_handler, write_port in *;
    cbn [w_main w_handler w_running w_throttle w_lock w_log w_lines w_devs w_offset w_rows map] in *;
    try rewrite Hpc in *;
    cbn [main_crit r_pending row_pending] in *; rewrite ?count_r_app, ?count_r_handler in *;
    try (match goal with H : true = true -> _ |- _ => specialize (H eq_refl) end);
    try (match goal with H : _ <-> w_handler ?w = HCrit, Hd : w_handler ?w = HCrit |- _ =>
           pose proof (proj2 H Hd) end).
  all: inv_close.
  all: try (eapply proj1, throttle_step; eassumption); try (eapply proj2, throttle_step; eassumption).
  all: apply rows_snoc; [assumption|]; match goal with H : _ <> MPanicked -> _ |- _ => apply H; discriminate end.
Qed.
End Invariant.

(** ** How one step changes the log and the flag *)

Section StepFacts.
Context {St F : Type} `{FloatOps F} {acq : Acquisition St F}.

Ltac step_cases Hs :=
  destruct Hs as [w ? ? ? ? Hpc | w ? ? Hpc | w Hpc Hlk | w Hpc | w Hpc Htest | w Hpc Hex
                 | w Hpc Hlk | w w1 row Hpc Hcs | w w1 Hpc Hcs | w row ? ? ? Hpc | w row Hpc | w Hpc Hlk | w Hpc
                 | w Hal Hhd | w Hal Hhd | w Hal Hhd Hlk | w Hal Hhd];
    try (apply control_sequence_cases in Hcs as [(row' & rest & Ho & _ & ->) | (Ho & _ & ->)];
         try discriminate);
    try (unfold loop_test in Htest; apply andb_true_iff in Htest as [Hrun Hlt%Z.ltb_lt]);
    unfold initialise, exit_sequence, with_lines in *;
  unfold with_main, with_lock, with_handler, write_port in *;
  cbn [w_main w_handler w_running w_throttle w_lock w_log w_lines w_devs w_offset w_rows map] in *;
  try rewrite Hpc in *; cbn [r_pending] in *.

(** The log only grows. *)
Lemma step_log (w w' : world St F) : step w w' -> exists l, w_log w' = w_log w ++ l.
Proof. intros Hs. step_cases Hs; eexists; (reflexivity || (symmetry; apply app_nil_r)). Qed.

(** Nothing sets [running] back to [true]. *)
Lemma step_running (w w' : world St F) : step w w' -> w_running w = false -> w_running w' = false.
Proof. intros Hs. step_cases Hs; auto. Qed.

(** The ["r"] written plus the one pending change only when the main
    thread passes the loop test with [running] set. *)
Lemma step_r_account (w w' : world St F) : step w w' ->
  (count_r (w_log w') + r_pending (w_main w') = count_r (w_log w) + r_pending (w_main w))%nat \/
  (w_running w = true /\ w_main w = MTest).
Proof.
  destruct count_r_cmds as (Ca & Ci & Cs & Ch).
  intros Hs. step_cases Hs; rewrite ?count_r_app, ?Ca, ?Ci, ?Cs, ?Ch; try (right; split; [assumption|reflexivity]); left; lia.
Qed.

Lemma rtc_count_mono (w w' : world St F) : rtc step w w' -> (count_r (w_log w) <= count_r (w_log w'))%nat.
Proof.
  induction 1 as [|w1 w2 w3 Hs _ IH]; [lia|].
  destruct (step_log w1 w2 Hs) as (l & E). rewrite E, count_r_app in IH. lia.
Qed.

(** Once [running] is [false], the count of ["r"] plus the pending one
    stays as it is. *)
Lemma rtc_stopped (w w' : world St F) : rtc step w w' -> w_running w = false ->
  w_running w' = false /\
  (count_r (w_log w') + r_pending (w_main w') = count_r (w_log w) + r_pending (w_main w))%nat.
Proof.
  induction 1 as [|w1 w2 w3 Hs _ IH]; intros Hf; [split; auto|].
  pose proof (step_running w1 w2 Hs Hf) as Hf2. destruct (IH Hf2) as [Hf3 Hc3]. split; [exact Hf3|].
  destruct (step_r_account w1 w2 Hs) as [Hc|[Ht _]]; [lia | congruence].
Qed.
Lemma step_done (w w' : world St F) : step w w' -> w_main w' = MDone ->
  last (w_log w') = Some (Main, stop_cmd).
Proof.
  intros Hs. step_cases Hs; intros Hd; try discriminate;
    try (rewrite Hd in Hal; discriminate).
  rewrite last_snoc. reflexivity.
Qed.

(** ** One channel: only the telemetry can make [main] panic *)

Section OneChannel.
Context `{!AcquisitionLaws St F}.
(** A frame of one channel returns. *)
Hypothesis acquire_one : forall s, channels s = 1%nat -> acquire s <> Panic.

(** One channel, and one offset once the calibration has returned. *)
Definition one_channel (w : world St F) : Prop :=
  channels (w_devs w) = 1%nat /\ (w_main w <> MCalibrate -> length (w_offset w) = 1%nat).

Lemma thrust_of_one rd offset : length rd = 1%nat -> length offset = 1%nat -> thrust_of rd offset <> Panic.
Proof.
  intros Hr Ho. destruct rd as [|[x|m] [|]]; cbn in Hr; try lia;
    destruct offset as [|o [|]]; cbn in Ho; try lia; cbn; discriminate.
Qed.

Lemma step_one_channel (w w' : world St F) : step w w' -> one_channel w -> one_channel w'.
Proof.
  unfold one_channel. intros Hs [Hch Hoff].
  step_cases Hs; try (split; [exact Hch|intros Hne; apply Hoff; congruence]).
  - match goal with E : @calibrate_zero _ _ _ _ ?el ?fu _ = Some (Done _) |- _ =>
      destruct (calibrate_zero_one acquire_one el fu _ Hch) as [E'|(s' & offs & E' & Hc' & Hl)]; rewrite E in E';
      [discriminate|injection E' as -> ->; auto] end.
  - exfalso. match goal with E : @calibrate_zero _ _ _ _ ?el ?fu _ = Some Panic |- _ =>
      destruct (calibrate_zero_one acquire_one el fu _ Hch) as [E'|(s' & offs & E' & _)]; congruence end.
  - match goal with E : @acquire _ _ _ _ = Done _ |- _ => rewrite (acquire_channels _ _ _ E) end.
    split; [exact Hch|intros _; apply Hoff; discriminate].
Qed.

Lemma rtc_one_channel (w w' : world St F) : rtc step w w' -> one_channel w -> one_channel w'.
Proof. induction 1 as [|w1 w2 w3 Hs _ IH]; [auto|]. intros H1. apply IH, (step_one_channel w1 w2 Hs H1). Qed.

(** From a world of one channel, the only step into [MPanicked] is the
    telemetry read of [control_sequence]. *)
Lemma one_channel_panic (w w' : world St F) : one_channel w -> step w w' ->
  w_main w <> MPanicked -> w_main w' = MPanicked -> w_main w = MCtrlCrit.
Proof.
  unfold one_channel. intros [Hch Hoff] Hs. step_cases Hs; intros Hne Hp; try congruence.
  - exfalso. match goal with E : @calibrate_zero _ _ _ _ ?el ?fu _ = Some Panic |- _ =>
      destruct (calibrate_zero_one acquire_one el fu _ Hch) as [E'|(s' & offs & E' & _)]; congruence end.
  - exfalso. match goal with E : obind (acquire _) _ = Panic |- _ => revert E end.
    destruct (acquire (w_devs w)) as [[s' rd]|] eqn:Ea; [|exfalso; exact (acquire_one _ Hch Ea)].
    cbn [obind]. apply thrust_of_one; [rewrite (acquire_length _ _ _ Ea); exact Hch|apply Hoff; discriminate].
Qed.
End OneChannel.

End StepFacts.

Tactic Notation "take" uconstr(c) := eapply rtc_l; [eapply c; try reflexivity; try eassumption|].

Section Claims.
Context {St F : Type} `{FloatOps F} {acq : Acquisition St F}.

Lemma reachable_inv (devs : St) lines (w : world St F) : reachable devs lines w -> step_inv w.
Proof.
  unfold reachable. intros Hr. remember (init devs lines) as w0 eqn:E.
  assert (H0 : step_inv w0) by (subst; apply step_inv_init).
  clear E. induction Hr as [w0|w0 w1 w2 Hs _ IH]; [exact H0|]. apply IH, (step_preserves w0 w1 Hs H0).
Qed.

(** C20: In every reachable world [throttle_command] is a multiple of 50
    between 0 and [MAX_PWM]: the [i32] never overflows, and the ramp
    never goes past 1600. *)
Theorem throttle_bounds (devs : St) lines (w : world St F) : reachable devs lines w ->
  0 <= w_throttle w <= MAX_PWM /\ w_throttle w mod 50 = 0.
Proof. intros Hr. destruct (reachable_inv devs lines w Hr) as (Hb & Hm & _). auto. Qed.

(** C21: The throttle column of the rows written so far is the arithmetic
    progression 50, 100, ..., 50 n, with at most 32 rows. *)
Theorem rows_progression (devs : St) lines (w : world St F) : reachable devs lines w ->
  map row_throttle (w_rows w) = map (fun k => 50 * Z.of_nat (S k)) (seq 0 (length (w_rows w))) /\
  (length (w_rows w) <= 32)%nat.
Proof.
  intros Hr. destruct (reachable_inv devs lines w Hr) as (Hb & _ & _ & Hrows & _ & Hrb & _).
  split; [exact Hrows|]. unfold MAX_PWM in Hb. lia.
Qed.

(** C11: The two critical sections on the port exclude each other: the
    main thread is never in [initialise], [control_sequence] or its own
    [exit_sequence] while the handler is in its [exit_sequence]. *)
Theorem port_mutual_exclusion (devs : St) lines (w : world St F) : reachable devs lines w ->
  ~ (main_crit (w_main w) = true /\ w_handler w = HCrit).
Proof.
  intros Hr [Hm Hh]. destruct (reachable_inv devs lines w Hr) as (_ & _ & _ & _ & _ & _ & Hl1 & _ & Hlh).
  apply Hl1 in Hm. apply Hlh in Hh. congruence.
Qed.

(** The main thread writes at most 32 ["r"]: one per iteration, and
    the count written and pending is [throttle_command / 50]. *)
Theorem increments_bounded (devs : St) lines (w : world St F) : reachable devs lines w ->
  Z.of_nat (count_r (w_log w) + r_pending (w_main w)) * 50 = w_throttle w /\ (count_r (w_log w) <= 32)%nat.
Proof.
  intros Hr. destruct (reachable_inv devs lines w Hr) as (Hb & _ & Hc & _).
  split; [exact Hc|]. unfold MAX_PWM in Hb. lia.
Qed.

(** C8: Cancellation takes effect at the next loop test: from a world in
    which [running] is [false] and the main thread is at the loop
    condition, no run of the two threads writes another ["r"]. *)
Theorem stop_no_more_increments (w w' : world St F) :
  w_running w = false -> w_main w = MTest -> rtc step w w' -> count_r (w_log w') = count_r (w_log w).
Proof.
  intros Hf Hpc Hrtc. destruct (rtc_stopped w w' Hrtc Hf) as [_ Hc].
  pose proof (rtc_count_mono w w' Hrtc). rewrite Hpc in Hc. cbn [r_pending] in Hc. lia.
Qed.

(** Whatever the main thread is doing when [running] is cleared, it
    writes at most one more ["r"] (the one of an iteration that has
    already passed the loop test). *)
Theorem stop_at_most_one_increment (w w' : world St F) :
  w_running w = false -> rtc step w w' -> (count_r (w_log w') <= count_r (w_log w) + 1)%nat.
Proof.
  intros Hf Hrtc. destruct (rtc_stopped w w' Hrtc Hf) as [_ Hc].
  assert (r_pending (w_main w) <= 1)%nat by (destruct (w_main w); cbn; lia). lia.
Qed.

(** C31: When the main thread returns, the last command on the port is the
    zero-throttle [" \n"]: the ESC is stopped after everything either
    thread wrote. *)
Theorem done_last_write_stop (devs : St) lines (w : world St F) : reachable devs lines w ->
  w_main w = MDone -> last (w_log w) = Some (Main, stop_cmd).
Proof.
  unfold reachable. intros Hr Hd. apply rtc_inv_r in Hr as [<- | (w0 & _ & Hs)]; [discriminate|].
  exact (step_done w0 w Hs Hd).
Qed.


(** C17: A Ctrl-C during calibration does not skip to the shutdown: the
    handler stops the ESC, then the main thread finishes calibrating,
    arms the ESC again with [" "] and ["t"] in [initialise], and only
    then sees [running = false] and stops it a second time. *)
Theorem arm_after_stop (devs : St) lines elapsed fuel devs' offset :
  calibrate_zero elapsed fuel devs = Some (Done (devs', offset)) ->
  exists w : world St F, reachable devs lines w /\ w_main w = MDone /\
    w_log w = [(Handler, stop_cmd); (Main, arm_cmd); (Main, onewire_cmd); (Main, stop_cmd)].
Proof.
  intros Hcal. eexists. split.
  - unfold reachable. take h_signal. take h_store. take h_lock. take h_crit. take s_calibrate.
    take s_init_lock. take s_init_crit. take s_test_exit. take s_exit_lock. take s_exit_crit.
    apply rtc_refl.
  - split; reflexivity.
Qed.

(** A frame the ESC sends as the code expects it: 22 bytes that decode. *)
Definition good_frame (f : string) : Prop :=
  String.length f = 22%nat /\ exists row, process_string (F := F) f = Done row.

Lemma read_telemetry_good f rest row : String.length f = 22%nat -> process_string (F := F) f = Done row ->
  read_telemetry (Some f :: rest) = Done (row, rest).
Proof. intros Hl Hp. unfold read_telemetry. rewrite read_frame_first by exact Hl. cbn. rewrite Hp. reflexivity. Qed.

(** One iteration of the ramp with nobody else running. *)
Lemma ramp_iteration (w : world St F) f rest row devs' rd th :
  w_main w = MTest -> w_running w = true -> w_throttle w < MAX_PWM -> w_lock w = None ->
  w_lines w = Some f :: rest -> String.length f = 22%nat -> process_string (F := F) f = Done row ->
  acquire (w_devs w) = Done (devs', rd) -> thrust_of rd (w_offset w) = Done th ->
  rtc step w (mk_world MTest (w_handler w) (w_running w) (w_throttle w + 50) None
                (w_log w ++ [(Main, increment_cmd)]) rest devs' (w_offset w)
                (w_rows w ++ [(w_throttle w + 50, th, row)])).
Proof.
  intros Hpc Hrun Hlt Hlk Hlines Hlen Hrow Hacq Hth.
  assert (Hrt : read_telemetry (w_lines w) = Done (row, rest))
    by (rewrite Hlines; apply read_telemetry_good; assumption).
  eapply rtc_l; [eapply s_test_continue; [exact Hpc | apply loop_test_true; assumption]|].
  take s_ctrl_lock.
  eapply rtc_l; [eapply s_ctrl_crit; [reflexivity | apply control_sequence_done; exact Hrt]|].
  take s_sample. apply rtc_refl.
Qed.

Section Ramp.
Variable offs : list F.
(** The load cells in a state [good]: every frame from there is read
    without a panic and leaves them [good]. *)
Variable good : St -> Prop.
Hypothesis Hsample : forall s, good s ->
  exists s' rd th, acquire s = Done (s', rd) /\ good s' /\ thrust_of rd offs = Done th.

Lemma ramp_iterations fs rest : Forall good_frame fs -> forall w : world St F,
  w_main w = MTest -> w_running w = true -> w_lock w = None -> w_offset w = offs -> good (w_devs w) ->
  w_throttle w = MAX_PWM - 50 * Z.of_nat (length fs) -> w_lines w = map Some fs ++ rest ->
  exists w', rtc step w w' /\ w_main w' = MTest /\ w_running w' = true /\ w_lock w' = None /\
    w_handler w' = w_handler w /\ w_throttle w' = MAX_PWM /\
    w_log w' = w_log w ++ repeat (Main, increment_cmd) (length fs) /\
    length (w_rows w') = (length (w_rows w) + length fs)%nat.
Proof.
  induction 1 as [|f fs [Hlen [row Hrow]] _ IH]; intros w Hpc Hrun Hlk Hoff Hgood Ht Hlines.
  - exists w. cbn in *. rewrite app_nil_r, Nat.add_0_r. repeat split; auto using rtc_refl; lia.
  - destruct (Hsample (w_devs w) Hgood) as (devs' & rd & th & Hacq & Hg' & Hth).
    cbn [length map app] in Ht, Hlines.
    pose proof (ramp_iteration w f (map Some fs ++ rest) row devs' rd th Hpc Hrun
                  ltac:(lia) Hlk Hlines Hlen Hrow Hacq ltac:(rewrite Hoff; exact Hth)) as Hit.
    edestruct (IH (mk_world MTest (w_handler w) (w_running w) (w_throttle w + 50) None
                     (w_log w ++ [(Main, increment_cmd)]) (map Some fs ++ rest) devs' (w_offset w)
                     (w_rows w ++ [(w_throttle w + 50, th, row)])))
      as (w' & Hrtc & Hpc' & Hrun' & Hlk' & Hh' & Ht' & Hlog' & Hrows'); cbn; try reflexivity.
    { exact Hrun. }
    { exact Hoff. }
    { exact Hg'. }
    { rewrite Ht. lia. }
    exists w'. split; [eapply rtc_trans; [exact Hit|exact Hrtc]|].
    cbn in Hh', Hlog', Hrows'. rewrite Hlog', <- app_assoc, length_app in *. cbn [length repeat app].
    repeat split; auto.
    rewrite Hrows'. cbn [length]. lia.
Qed.
End Ramp.

(** A whole run without Ctrl-C, from load cells that stay [good]. *)
Lemma ramp_run (good : St -> Prop) (devs : St) elapsed fuel devs' offs fs rest :
  calibrate_zero elapsed fuel devs = Some (Done (devs', offs)) -> good devs' ->
  (forall s, good s -> exists s' rd th, acquire s = Done (s', rd) /\ good s' /\ thrust_of rd offs = Done th) ->
  Forall good_frame fs -> length fs = 32%nat ->
  exists w : world St F, reachable devs (map Some fs ++ rest) w /\ w_main w = MDone /\
    w_throttle w = MAX_PWM /\
    w_log w = [(Main, arm_cmd); (Main, onewire_cmd)] ++ repeat (Main, increment_cmd) 32 ++ [(Main, stop_cmd)] /\
    length (w_rows w) = 32%nat.
Proof.
  intros Hcal Hg Hsample Hfs Hlen.
  set (w3 := mk_world (F := F) MTest HIdle true 0 None [(Main, arm_cmd); (Main, onewire_cmd)]
               (map Some fs ++ rest) devs' offs []).
  assert (H3 : rtc step (init devs (map Some fs ++ rest)) w3).
  { take s_calibrate. take s_init_lock. take s_init_crit. apply rtc_refl. }
  destruct (ramp_iterations offs good Hsample fs rest Hfs w3) as (w' & Hrtc & Hpc & Hrun & Hlk & Hh & Ht & Hlog & Hrows);
    try reflexivity; [exact Hg| |].
  { cbn. rewrite Hlen. reflexivity. }
  eexists. split.
  - unfold reachable. eapply rtc_trans; [exact H3|]. eapply rtc_trans; [exact Hrtc|].
    eapply rtc_l; [eapply s_test_exit; [exact Hpc | unfold loop_test; rewrite Hrun, Ht; reflexivity]|].
    take s_exit_lock. take s_exit_crit. apply rtc_refl.
  - cbn. rewrite Ht, Hlog, Hrows, Hlen. repeat split; rewrite <- ?app_assoc; reflexivity.
Qed.

(** C5: Without Ctrl-C, when calibration returns, the ESC sends 32
    well-formed frames and no frame of the load cells panics, the main
    thread ramps the throttle to [MAX_PWM] and returns: the port receives
    [" "], ["t"], 32 ["r"] and [" \n"], and 32 rows are written. *)
Theorem ramp_without_signal (devs : St) elapsed fuel devs' offs fs rest :
  calibrate_zero elapsed fuel devs = Some (Done (devs', offs)) ->
  (forall s, exists s' rd th, acquire s = Done (s', rd) /\ thrust_of rd offs = Done th) ->
  Forall good_frame fs -> length fs = 32%nat ->
  exists w : world St F, reachable devs (map Some fs ++ rest) w /\ w_main w = MDone /\
    w_throttle w = MAX_PWM /\
    w_log w = [(Main, arm_cmd); (Main, onewire_cmd)] ++ repeat (Main, increment_cmd) 32 ++ [(Main, stop_cmd)] /\
    length (w_rows w) = 32%nat.
Proof.
  intros Hcal Hsample Hfs Hlen. apply (ramp_run (fun _ => True) devs elapsed fuel devs' offs); auto.
  intros s _. destruct (Hsample s) as (s' & rd & th & E & Ht). exists s', rd, th. auto.
Qed.
End Claims.

(** ** The thrust of one iteration *)

Section Thrust.
Context {F : Type} `{FloatOps F}.

Definition is_err (r : hx_result F) : bool := match r with HxErr _ => true | HxOk _ => false end.

Lemma thrust_loop_errs i rd offset t : forallb is_err rd = true -> thrust_loop i rd offset t = Done t.
Proof.
  revert i. induction rd as [|[x|m] rd IH]; intros i Hall; [reflexivity|discriminate|].
  cbn [thrust_loop]. apply IH. exact Hall.
Qed.

Lemma thrust_loop_late_ok i rd offset t x : (1 <= i)%nat -> In (HxOk x) rd -> thrust_loop i rd offset t = Panic.
Proof.
  revert i t. induction rd as [|r rd IH]; intros i t Hi Hin; [destruct Hin|].
  destruct Hin as [-> | Hin].
  - cbn [thrust_loop]. rewrite get_at_none; [reflexivity|]. apply lookup_ge_None_2. cbn. lia.
  - destruct r as [y|m]; cbn [thrust_loop]; [|apply IH; auto].
    rewrite get_at_none; [reflexivity|]. apply lookup_ge_None_2. cbn. lia.
Qed.

(** [thrust] is reset to [0.0] at every iteration (line 106): when no
    channel reads, the row records [0.0], not the previous thrust the
    design notes describe and not an omitted value. *)
Theorem thrust_all_failed rd offset : forallb is_err rd = true -> thrust_of rd offset = Done (f_of_Z 0).
Proof. intros Hall. apply thrust_loop_errs, Hall. Qed.

(** C36: A successful reading on any channel but the first makes the
    iteration panic on [CALIBRATION_GRADIENTS[i]] (line 114). *)
Theorem thrust_later_channel_panics r0 rd offset x : In (HxOk x) rd -> thrust_of (r0 :: rd) offset = Panic.
Proof.
  intros Hin. unfold thrust_of. destruct r0 as [y|m]; cbn [thrust_loop].
  - cbn [get_at CALIBRATION_GRADIENTS lookup list_lookup obind].
    destruct (get_at offset 0); cbn [obind]; [|reflexivity]. eapply thrust_loop_late_ok; [lia|exact Hin].
  - eapply thrust_loop_late_ok; [lia|exact Hin].
Qed.
End Thrust.

(** With one channel, the thrust of a reading [r] is, in exact
    arithmetic, [r / g + offset], the design's [reading/gradient + offset]. *)
Theorem thrust_one_channel r o : exists t, thrust_of (F := Q) [HxOk r] [o] = Done t /\
  (t == r / (246324555 # 10000000000000) + o)%Q.
Proof.
  unfold thrust_of. cbn [thrust_loop]. rewrite gradient_Q. cbn. eexists. split; [reflexivity|].
  unfold f_lit. cbn. field.
Qed.

(** ** Witnesses

    One synthetic load cell reading [1/2] on every frame
    ([trace_acquisition steady]), exact arithmetic, and the ESC frame
    [1a04b00064012c000a00] with its CRLF. *)

Definition esc_frame : string := frame_text [26; 4; 176; 0; 100; 1; 44; 0; 10; 0].

Lemma throttle_bounds_witness :
  reachable (acq := trace_acquisition steady) 0%nat [] (init (F := Q) 0%nat []) /\
  0 <= w_throttle (init (F := Q) 0%nat []) <= MAX_PWM /\ w_throttle (init (F := Q) 0%nat []) mod 50 = 0.
Proof.
  assert (Hr : reachable (acq := trace_acquisition steady) 0%nat [] (init (F := Q) 0%nat [])) by apply rtc_refl.
  split; [exact Hr|]. exact (throttle_bounds 0%nat [] _ Hr).
Defined.

Lemma rows_progression_witness :
  reachable (acq := trace_acquisition steady) 0%nat [] (init (F := Q) 0%nat []) /\
  map row_throttle (w_rows (init (F := Q) (St := nat) 0%nat [])) =
    map (fun k => 50 * Z.of_nat (S k)) (seq 0 (length (w_rows (init (F := Q) (St := nat) 0%nat [])))) /\
  (length (w_rows (init (F := Q) (St := nat) 0%nat [])) <= 32)%nat.
Proof.
  assert (Hr : reachable (acq := trace_acquisition steady) 0%nat [] (init (F := Q) 0%nat [])) by apply rtc_refl.
  split; [exact Hr|]. exact (rows_progression 0%nat [] _ Hr).
Defined.

(** A complete run: calibration over one frame, a Ctrl-C during it, the
    ESC armed again, and the shutdown. *)
Lemma steady_stopped_run : exists w : world nat Q,
  reachable (acq := trace_acquisition steady) 0%nat [] w /\ w_main w = MDone.
Proof.
  eexists. split.
  - unfold reachable. take h_signal. take h_store. take h_lock. take h_crit.
    eapply rtc_l; [eapply (s_calibrate _ (clock_after 1) 2); [reflexivity | vm_compute; reflexivity]|].
    take s_init_lock. take s_init_crit. take s_test_exit. take s_exit_lock. take s_exit_crit. apply rtc_refl.
  - reflexivity.
Qed.

Lemma port_mutual_exclusion_witness : exists w : world nat Q,
  reachable (acq := trace_acquisition steady) 0%nat [] w /\ ~ (main_crit (w_main w) = true /\ w_handler w = HCrit).
Proof.
  destruct steady_stopped_run as (w & Hr & _). exists w. split; [exact Hr|].
  exact (port_mutual_exclusion 0%nat [] w Hr).
Defined.

Lemma increments_bounded_witness : exists w : world nat Q,
  reachable (acq := trace_acquisition steady) 0%nat [] w /\
  Z.of_nat (count_r (w_log w) + r_pending (w_main w)) * 50 = w_throttle w /\ (count_r (w_log w) <= 32)%nat.
Proof.
  destruct steady_stopped_run as (w & Hr & _). exists w. split; [exact Hr|].
  exact (increments_bounded 0%nat [] w Hr).
Defined.

Lemma done_last_write_stop_witness : exists w : world nat Q,
  reachable (acq := trace_acquisition steady) 0%nat [] w /\ w_main w = MDone /\
  last (w_log w) = Some (Main, stop_cmd).
Proof.
  destruct steady_stopped_run as (w & Hr & Hd). exists w. split; [exact Hr|]. split; [exact Hd|].
  exact (done_last_write_stop 0%nat [] w Hr Hd).
Defined.

Lemma stop_no_more_increments_witness :
  let w := mk_world (F := Q) MTest HIdle false 100 None [(Main, increment_cmd); (Main, increment_cmd)]
             [] 2%nat [0%Q] [] in
  exists w', w_running w = false /\ w_main w = MTest /\
    rtc (step (acq := trace_acquisition steady)) w w' /\ count_r (w_log w') = count_r (w_log w).
Proof.
  intros w. assert (Hp : exists w', rtc (step (acq := trace_acquisition steady)) w w').
  { eexists. take s_test_exit. take s_exit_lock. take s_exit_crit. apply rtc_refl. }
  destruct Hp as (w' & Hw'). exists w'. split; [reflexivity|]. split; [reflexivity|]. split; [exact Hw'|].
  exact (stop_no_more_increments w w' eq_refl eq_refl Hw').
Defined.

Lemma stop_at_most_one_increment_witness :
  let w := mk_world (F := Q) MCtrlLock HLock false 100 None [(Main, increment_cmd)]
             [Some esc_frame] 2%nat [0%Q] [] in
  exists w', w_running w = false /\ rtc (step (acq := trace_acquisition steady)) w w' /\
    (count_r (w_log w') <= count_r (w_log w) + 1)%nat.
Proof.
  intros w. assert (Hp : exists w', rtc (step (acq := trace_acquisition steady)) w w').
  { eexists. take s_ctrl_lock.
    eapply rtc_l; [eapply s_ctrl_crit; [reflexivity | vm_compute; reflexivity]|].
    eapply rtc_l; [eapply s_sample; [reflexivity | reflexivity | vm_compute; reflexivity]|].
    take s_test_exit. take s_exit_lock. take s_exit_crit. apply rtc_refl. }
  destruct Hp as (w' & Hw'). exists w'. split; [reflexivity|]. split; [exact Hw'|].
  exact (stop_at_most_one_increment w w' eq_refl Hw').
Defined.

Lemma arm_after_stop_witness : exists devs' offset,
  calibrate_zero (acq := trace_acquisition steady) (clock_after 1) 2 0%nat = Some (Done (devs', offset)) /\
  exists w : world nat Q, reachable (acq := trace_acquisition steady) 0%nat [] w /\ w_main w = MDone /\
    w_log w = [(Handler, stop_cmd); (Main, arm_cmd); (Main, onewire_cmd); (Main, stop_cmd)].
Proof.
  eexists _, _. assert (Hc : calibrate_zero (acq := trace_acquisition steady) (clock_after 1) 2 0%nat =
                                Some (Done (1%nat, [(- (1 # 2) / (246324555 # 10000000000000))%Q]))).
  { vm_compute. reflexivity. }
  split; [exact Hc|]. exact (arm_after_stop 0%nat [] (clock_after 1) 2 _ _ Hc).
Defined.

Lemma ramp_without_signal_witness :
  calibrate_zero (acq := trace_acquisition steady) (clock_after 1) 2 0%nat =
    Some (Done (1%nat, [(- (1 # 2) / (246324555 # 10000000000000))%Q])) /\
  (forall s, exists s' rd th, acquire (Acquisition := trace_acquisition steady) s = Done (s', rd) /\
     thrust_of rd [(- (1 # 2) / (246324555 # 10000000000000))%Q] = Done th) /\
  Forall (good_frame (F := Q)) (repeat esc_frame 32) /\ length (repeat esc_frame 32) = 32%nat /\
  exists w : world nat Q,
    reachable (acq := trace_acquisition steady) 0%nat (map Some (repeat esc_frame 32) ++ []) w /\
    w_main w = MDone /\ w_throttle w = MAX_PWM /\
    w_log w = [(Main, arm_cmd); (Main, onewire_cmd)] ++ repeat (Main, increment_cmd) 32 ++ [(Main, stop_cmd)] /\
    length (w_rows w) = 32%nat.
Proof.
  assert (Hc : calibrate_zero (acq := trace_acquisition steady) (clock_after 1) 2 0%nat =
                 Some (Done (1%nat, [(- (1 # 2) / (246324555 # 10000000000000))%Q]))) by (vm_compute; reflexivity).
  assert (Hs : forall s, exists s' rd th, acquire (Acquisition := trace_acquisition steady) s = Done (s', rd) /\
                 thrust_of rd [(- (1 # 2) / (246324555 # 10000000000000))%Q] = Done th).
  { intros s. do 3 eexists. split; [reflexivity|]. vm_compute. reflexivity. }
  assert (Hf : Forall (good_frame (F := Q)) (repeat esc_frame 32)).
  { apply List.Forall_forall. intros f Hin. apply repeat_spec in Hin. subst f.
    split; [reflexivity|]. eexists. vm_compute. reflexivity. }
  split; [exact Hc|]. split; [exact Hs|]. split; [exact Hf|]. split; [reflexivity|].
  exact (ramp_without_signal 0%nat (clock_after 1) 2 _ _ _ [] Hc Hs Hf eq_refl).
Defined.

Lemma thrust_later_channel_panics_witness :
  In (HxOk (1 # 2)%Q) [HxOk (1 # 2)%Q] /\
  thrust_of (F := Q) [HxErr read_error; HxOk (1 # 2)%Q] [0%Q; 0%Q] = Panic.
Proof. split; [left; reflexivity|]. apply (thrust_later_channel_panics _ _ _ (1 # 2)%Q). left; reflexivity. Defined.
