(* ===== verification/PortRead.v ===== *)
(** * PortRead: the [BufReader] of [control_sequence] over the port's bytes

    [control_sequence] (src/logging/src/main.rs, lines 213-226) wraps the
    locked port in a fresh [BufReader], calls [read_line] until the
    buffer [telemetry] is 22 bytes long, and drops the reader.  Here the
    port is what each of its [read]s returns ([chunks]): some bytes, none
    (end of file), or an error (the 6 s timeout of line 28).  [read_line]
    is [BufRead::read_line] (the standard library): it takes the bytes up
    to and including the first newline from the reader's buffer,
    refilling the buffer with one [read] whenever it is empty.  The bytes
    are taken to be valid UTF-8 ([read_line]'s [InvalidData] error is not
    modelled).

    [frame_loop] is lines 217-221 with a fuel that is proved enough;
    [control_read] is lines 213-226.  [Telemetry.read_frame], the model
    the control loop uses, reads whole lines: it is proved exact when
    every [read] of the port returns one line; when a [read] returns more,
    the bytes after the frame stay in the dropped reader and are lost. *)

From Stdlib Require Import ZArith QArith Lia String Ascii List.
From stdpp Require Import base list.
From S2P Require Import Prelude Telemetry ControlLoop.
Import ListNotations.

(** What each [read] of the port returns. *)
Definition chunks := list (option (list ascii)).

Definition newline : ascii := "010".

(** The bytes up to and including the first newline, the bytes after
    it, and whether there was one. *)
Fixpoint split_line (cs : list ascii) : list ascii * list ascii * bool :=
  match cs with
  | [] => ([], [], false)
  | c :: cs' =>
      if Ascii.eqb c newline then ([c], cs', true)
      else let '(l, r, found) := split_line cs' in (c :: l, r, found)
  end.

(** [BufRead::read_line] on a reader whose buffer holds [buf]: the bytes
    appended to the string, the buffer left, and the port left.  A [read]
    of 0 bytes ends the line; an error is the [expect] panic of line 219. *)
Fixpoint read_line (port : chunks) (buf : list ascii) : outcome (list ascii * list ascii * chunks) :=
  let '(l, rest, found) := split_line buf in
  if found then Done (l, rest, port)
  else
    match port with
    | [] | None :: _ => Panic
    | Some [] :: port' => Done (l, [], port')
    | Some (c :: cs) :: port' =>
        let* (l', rest', port'') := read_line port' (c :: cs) in Done (l ++ l', rest', port'')
    end.

(** Lines 217-221 with [fuel] loop tests. *)
Fixpoint frame_loop (fuel : nat) (port : chunks) (buf : list ascii) (telemetry : string)
    : option (outcome (string * list ascii * chunks)) :=
  match fuel with
  | O => None
  | S fuel =>
      match read_line port buf with
      | Panic => Some Panic
      | Done (l, buf', port') =>
          let telemetry := (telemetry ++ string_of_list_ascii l)%string in
          if Nat.eqb (String.length telemetry) 22 then Some (Done (telemetry, buf', port'))
          else frame_loop fuel port' buf' telemetry
      end
  end.

(** The bytes and reads the port still has to give. *)
Fixpoint port_size (port : chunks) : nat :=
  match port with
  | [] => O
  | None :: port' => S (port_size port')
  | Some cs :: port' => S (length cs + port_size port')
  end.

(** Lines 213-226: a fresh reader, the loop, the decoding; the reader and
    what it buffered are dropped.  [S (port_size port)] tests are enough
    ([frame_loop_enough]). *)
Definition control_read {F} `{FloatOps F} (port : chunks) : outcome ((F * F) * chunks) :=
  match frame_loop (S (port_size port)) port [] EmptyString with
  | Some (Done (telemetry, _, port')) => let* row := process_string telemetry in Done (row, port')
  | Some Panic | None => Panic
  end.

(** The port that gives one line per [read]. *)
Definition chunk_of (o : option string) : option (list ascii) := option_map list_ascii_of_string o.

(** A line as [read_line] returns it: one newline, at its end. *)
Definition is_line (l : string) : bool :=
  match split_line (list_ascii_of_string l) with (_, [], true) => true | _ => false end.

(** ** The reader *)

Lemma split_line_spec cs l r b : split_line cs = (l, r, b) ->
  cs = l ++ r /\ (b = true -> (length r < length cs)%nat) /\ (b = false -> r = []).
Proof.
  revert l r b. induction cs as [|c cs IH]; intros l r b E; cbn in E.
  - invc E. split; [reflexivity|split; [discriminate|reflexivity]].
  - destruct (Ascii.eqb c newline).
    + invc E. split; [reflexivity|split; [intros _; cbn; lia|discriminate]].
    + destruct (split_line cs) as [[l' r'] f] eqn:E'. invc E.
      destruct (IH _ _ _ eq_refl) as (-> & H1 & H2). repeat split; auto.
      intros Hb. specialize (H1 Hb). cbn. rewrite length_app in *. lia.
Qed.

Lemma split_line_app l r : split_line l = (l, [], true) -> split_line (l ++ r) = (l, r, true).
Proof.
  induction l as [|c l IH]; cbn; [discriminate|].
  destruct (Ascii.eqb c newline).
  - intros E. invc E. reflexivity.
  - destruct (split_line l) as [[l' r'] f]. intros E. invc E. rewrite IH by reflexivity. reflexivity.
Qed.

Lemma read_line_found port buf l r : split_line buf = (l, r, true) -> read_line port buf = Done (l, r, port).
Proof. intros E. destruct port as [|[[|c cs]|] port]; cbn [read_line]; rewrite E; reflexivity. Qed.

(** A fresh reader on a [read] that returns a line, and maybe more. *)
Lemma read_line_fresh port cs l r : split_line cs = (l, r, true) ->
  read_line (Some cs :: port) [] = Done (l, r, port).
Proof.
  intros E. destruct cs as [|c cs]; [discriminate|]. cbn [read_line split_line].
  rewrite (read_line_found port (c :: cs) l r E). reflexivity.
Qed.

Lemma read_line_measure port buf l r port' : read_line port buf = Done (l, r, port') ->
  (length r + port_size port' < length buf + port_size port)%nat.
Proof.
  revert buf l r port'. induction port as [|[[|c cs]|] port IH]; intros buf l r port' E;
    cbn [read_line] in E; destruct (split_line buf) as [[l0 r0] [|]] eqn:Es;
    apply split_line_spec in Es as (Hb & Hf & Hnf); try (invc E; specialize (Hf eq_refl); lia);
    try discriminate.
  - invc E. cbn. lia.
  - destruct (read_line port (c :: cs)) as [[[l1 r1] p1]|] eqn:E1; cbn in E; [|discriminate].
    invc E. apply IH in E1. cbn in *. lia.
Qed.

Lemma port_size_length port : (length port <= port_size port)%nat.
Proof. induction port as [|[cs|] port IH]; cbn; lia. Qed.

Lemma is_line_split l : is_line l = true -> split_line (list_ascii_of_string l) = (list_ascii_of_string l, [], true).
Proof.
  unfold is_line. destruct (split_line (list_ascii_of_string l)) as [[x [|c r]] [|]] eqn:E; try discriminate.
  intros _. apply split_line_spec in E as (Hl & _). rewrite app_nil_r in Hl. rewrite <- Hl. reflexivity.
Qed.

(** ** The loop ends *)

(** C34: The frame loop of [control_sequence] ends: every test of its
    condition but the last follows a [read_line] that consumed a byte of
    the reader's buffer or a [read] of the port, so more tests than the
    bytes and reads left are enough: it returns a frame or panics. *)
Theorem frame_loop_enough fuel port buf t : (length buf + port_size port < fuel)%nat ->
  frame_loop fuel port buf t <> None.
Proof.
  revert port buf t. induction fuel as [|fuel IH]; intros port buf t Hf; [lia|]. cbn [frame_loop].
  destruct (read_line port buf) as [[[l buf'] port']|] eqn:E; [|discriminate].
  destruct (Nat.eqb _ 22); [discriminate|]. apply IH. pose proof (read_line_measure _ _ _ _ _ E). lia.
Qed.

(** ** One line per read: the line model is exact *)

Definition lines_ok (lines : line_source) : Prop :=
  Forall (fun o => match o with Some l => is_line l = true | None => True end) lines.

Lemma frame_loop_lines lines fuel t : lines_ok lines -> (length lines < fuel)%nat ->
  frame_loop fuel (map chunk_of lines) [] t = Some (omap (fun r => (r.1, [], map chunk_of r.2)) (read_frame lines t)).
Proof.
  intros Hl. revert fuel t. induction Hl as [|[l|] lines Hx _ IH]; intros [|fuel] t Hf; cbn in Hf; try lia;
    try reflexivity.
  cbn [map chunk_of option_map frame_loop]. rewrite (read_line_fresh _ _ _ _ (is_line_split l Hx)).
  rewrite string_of_list_ascii_of_string. cbn [read_frame].
  destruct (Nat.eqb _ 22); [reflexivity|]. apply IH. lia.
Qed.

(** C22: When every [read] of the port returns one whole line (or an
    error), [control_sequence]'s reader reads what [Telemetry.read_frame]
    reads and the port is left where [read_telemetry] leaves the lines:
    the line model the control loop uses is exact. *)
Theorem control_read_lines {F} `{FloatOps F} lines : lines_ok lines ->
  control_read (map chunk_of lines) = omap (fun r => (r.1, map chunk_of r.2)) (read_telemetry lines).
Proof.
  intros Hl. unfold control_read, read_telemetry.
  rewrite (frame_loop_lines lines); [|exact Hl|pose proof (port_size_length (map chunk_of lines));
    rewrite length_map in *; lia].
  destruct (read_frame lines EmptyString) as [[tel rest]|]; [|reflexivity]. cbn.
  destruct (process_string tel); reflexivity.
Qed.

(** C28: The reader is dropped with what it buffered: when one [read] of
    the port returns a frame and more bytes (a second frame, say), the
    bytes after the frame are lost and the next [control_sequence] reads
    from the next [read]. *)
Theorem control_read_drops_readahead {F} `{FloatOps F} f more port row :
  is_line f = true -> String.length f = 22%nat -> process_string f = Done row ->
  control_read (Some (list_ascii_of_string f ++ more) :: port) = Done (row, port).
Proof.
  intros Hl Hlen Hp. unfold control_read. cbn [port_size frame_loop].
  rewrite (read_line_fresh _ _ _ _ (split_line_app _ more (is_line_split f Hl))).
  cbn [String.append]. rewrite string_of_list_ascii_of_string, Hlen. cbn. rewrite Hp. reflexivity.
Qed.

(** ** Witnesses *)

Lemma frame_loop_enough_witness :
  (length (@nil ascii) + port_size [Some (list_ascii_of_string esc_frame)] < 24)%nat /\
  frame_loop 24 [Some (list_ascii_of_string esc_frame)] [] EmptyString <> None.
Proof.
  assert (H : (length (@nil ascii) + port_size [Some (list_ascii_of_string esc_frame)] < 24)%nat)
    by (apply Nat.ltb_lt; vm_compute; reflexivity).
  split; [exact H|]. exact (frame_loop_enough _ _ _ _ H).
Defined.

Lemma control_read_lines_witness :
  lines_ok [Some esc_frame; None] /\
  control_read (F := Q) (map chunk_of [Some esc_frame; None]) =
    omap (fun r => (r.1, map chunk_of r.2)) (read_telemetry [Some esc_frame; None]).
Proof.
  assert (H : lines_ok [Some esc_frame; None]) by (repeat constructor; vm_compute; reflexivity).
  split; [exact H|]. exact (control_read_lines _ H).
Defined.

(** Two frames in one [read]: the second is lost. *)
Lemma control_read_drops_readahead_witness : exists row,
  (is_line esc_frame = true /\ String.length esc_frame = 22%nat /\ process_string (F := Q) esc_frame = Done row) /\
  control_read (F := Q) [Some (list_ascii_of_string esc_frame ++ list_ascii_of_string esc_frame)] = Done (row, []).
Proof.
  destruct (process_string (F := Q) esc_frame) as [row|] eqn:Hp; [|vm_compute in Hp; discriminate].
  exists row.
  assert (Hl : is_line esc_frame = true) by (vm_compute; reflexivity).
  assert (Hn : String.length esc_frame = 22%nat) by reflexivity.
  split; [split; [exact Hl|split; [exact Hn|reflexivity]]|].
  exact (control_read_drops_readahead _ _ [] _ Hl Hn Hp).
Defined.
