(* ===== verification/Cli.v ===== *)
(** * Cli: the command line and the CSV log of src/logging/src/main.rs

    [main] takes the name of its CSV file from the command line (lines
    50-63), creates one [Hx711] per configured pin pair (lines 37-48),
    opens the file for appending and writes the header record (lines
    65-81), and writes one record per ramp iteration (lines 120-132).

    - Module [Args]: [check_args] is lines 51-63, with the lines it
      prints; [ends_with] is [str::ends_with].
    - Module [CsvLog]: [header_record], [sample_record] (the [Vec] of
      lines 120-129, with [Vec::insert] as [vec_insert]), the [csv]
      crate's [Writer::write_record] as [csv_line], and the file after a
      run as [csv_log], a function of the rows [ControlLoop] records.
    - Module [Setup]: the devices built from [config_load_cell_pins_list]
      by [Hx711::new] with its GPIO [expect]s ([hx711_new],
      [setup_devices]), and the proof that with them only the telemetry read can panic.
    - Module [Start]: [main_start], lines 25-93 composed (the port, the
      devices and their GPIO, the arguments, the file and its header, the threads'
      initial state), and the logger end to end ([configured_ramp]).

    The decimal text of an [i32] is [DecimalString] over [Z.to_int]; the
    text of an [f64] ([Display]) is a parameter [show] of the section. *)

From Stdlib Require Import ZArith QArith Lia String Ascii List.
From Stdlib Require Import DecimalString DecimalZ.
From stdpp Require Import base list relations.
From S2P Require Import Prelude Hx711 Telemetry Calibration ControlLoop.
Import ListNotations.

Open Scope Z_scope.

(** The double quote character. *)
Definition dq : ascii := "034".

Fixpoint prefixb (p s : list ascii) : bool :=
  match p, s with
  | [], _ => true
  | a :: p', b :: s' => Ascii.eqb a b && prefixb p' s'
  | _ :: _, [] => false
  end.

Lemma prefixb_spec p s : prefixb p s = true <-> exists r, s = p ++ r.
Proof.
  revert s. induction p as [|a p IH]; intros [|b s]; cbn.
  - split; eauto.
  - split; eauto.
  - split; [discriminate|intros [r Hr]; discriminate].
  - rewrite andb_true_iff, IH. destruct (Ascii.eqb_spec a b) as [->|Hne].
    + split; [intros [_ [r ->]]; eauto|intros [r Hr]; invc Hr; eauto].
    + split; [intros [E _]; discriminate|intros [r Hr]; invc Hr; congruence].
Qed.

Lemma list_ascii_of_string_app (s t : string) :
  list_ascii_of_string (s ++ t) = list_ascii_of_string s ++ list_ascii_of_string t.
Proof. induction s as [|a s IH]; cbn; [reflexivity|]. rewrite IH. reflexivity. Qed.

Lemma list_ascii_of_string_inj (s t : string) : list_ascii_of_string s = list_ascii_of_string t -> s = t.
Proof.
  intros E. rewrite <- (string_of_list_ascii_of_string s), <- (string_of_list_ascii_of_string t), E.
  reflexivity.
Qed.

Lemma done_inj {A} (a b : A) : Done a = Done b -> a = b.
Proof. intros H. injection H. auto. Qed.

Lemma concat_empty_cons (a : string) l :
  String.concat EmptyString (a :: l) = (a ++ String.concat EmptyString l)%string.
Proof. destruct l; cbn; [symmetry; apply string_append_empty|reflexivity]. Qed.

Module Args.

(** [str::ends_with]: the bytes of [suffix] are the last bytes of [s]. *)
Definition ends_with (s suffix : string) : bool :=
  prefixb (rev (list_ascii_of_string suffix)) (rev (list_ascii_of_string s)).

(** The lines [main] prints before it returns or goes on. *)
Definition usage_message (prog : string) : string :=
  "Usage: " ++ prog ++ " <filename.csv>".
Definition not_csv_message : string :=
  "The provided filename does not end with " ++ String dq (".csv" ++ String dq EmptyString).
Definition saving_message (filename : string) : string := "Saving results to " ++ filename.

(** Lines 51-63: the lines printed, and the file name when [main] goes
    on; [args[0]] of the usage line panics on an empty [args]. *)
Definition check_args (args : list string) : outcome (list string * option string) :=
  if negb (Nat.eqb (length args) 2) then
    let* prog := get_at args 0 in Done ([usage_message prog], None)
  else
    let* filename := get_at args 1 in
    if negb (ends_with filename ".csv") then Done ([not_csv_message], None)
    else Done ([saving_message filename], Some filename).

Lemma ends_with_spec s suffix : ends_with s suffix = true <-> exists p, s = (p ++ suffix)%string.
Proof.
  unfold ends_with. rewrite prefixb_spec. split.
  - intros [r Hr]. exists (string_of_list_ascii (rev r)). apply list_ascii_of_string_inj.
    rewrite list_ascii_of_string_app, list_ascii_of_string_of_list_ascii.
    rewrite <- (rev_involutive (list_ascii_of_string s)), Hr, rev_app_distr, rev_involutive. reflexivity.
  - intros [p ->]. exists (rev (list_ascii_of_string p)).
    rewrite list_ascii_of_string_app, rev_app_distr. reflexivity.
Qed.

(** [main] goes on to open a file exactly when it is run with one
    argument that ends in [".csv"]; it then prints the name and uses that
    argument as the file name. *)
Theorem check_args_accept args msgs f : check_args args = Done (msgs, Some f) <->
  exists prog stem, args = [prog; (stem ++ ".csv")%string] /\ f = (stem ++ ".csv")%string /\
    msgs = [saving_message f].
Proof.
  unfold check_args. split.
  - destruct args as [|prog [|f' [|x rest]]]; cbn -[ends_with]; try (intros H; inversion H; fail).
    destruct (ends_with f' ".csv") eqn:E; cbn; intros H; invc H.
    destruct (proj1 (ends_with_spec _ _) E) as [stem ->]. eauto.
  - intros (prog & stem & -> & -> & ->). cbn -[ends_with].
    rewrite (proj2 (ends_with_spec _ _) (ex_intro _ stem eq_refl)). reflexivity.
Qed.

(** The usage line indexes [args[0]]: [main] panics exactly when the
    argument vector is empty (a process started with no [argv[0]]); with
    any other wrong argument count it prints the usage line and returns. *)
Theorem check_args_panic args : check_args args = Panic <-> args = [].
Proof.
  unfold check_args. destruct args as [|prog [|f' [|x rest]]]; cbn -[ends_with]; try (split; congruence).
  destruct (ends_with f' ".csv"); cbn; split; congruence.
Qed.
End Args.

Module CsvLog.

(** Lines 79-81. *)
Definition header_record : list string :=
  ["Timestamp"; "DShot_cmd"; "Thrust"; "Voltage"; "Omega"]%string.

(** [i32::to_string]: an optional ["-"] and the decimal digits. *)
Definition i32_to_string (x : Z) : string := NilEmpty.string_of_int (Z.to_int x).

(** [format!("{:w}", s)]: [s] padded on the right with spaces to [w]
    characters. *)
Definition pad (w : nat) (s : string) : string :=
  (s ++ string_of_list_ascii (repeat " "%char (w - String.length s)))%string.

(** [Vec::insert]: panics when [index > len]. *)
Definition vec_insert {A} (index : nat) (x : A) (v : list A) : outcome (list A) :=
  if Nat.leb index (length v) then Done (take index v ++ x :: drop index v) else Panic.

(** The [csv] crate's [Writer::write_record] with the default
    [QuoteStyle::Necessary] and terminator: a field is quoted, its quotes
    doubled, when it holds the delimiter, a quote or a line break; the
    fields are joined by [","] and the record ends with ["\n"]. *)
Definition needs_quotes (field : string) : bool :=
  existsb (fun c => Ascii.eqb c "," || Ascii.eqb c dq || Ascii.eqb c "010" || Ascii.eqb c "013")
    (list_ascii_of_string field).

Fixpoint escape_quotes (cs : list ascii) : list ascii :=
  match cs with
  | [] => []
  | c :: cs' => if Ascii.eqb c dq then dq :: dq :: escape_quotes cs' else c :: escape_quotes cs'
  end.

Definition csv_field (field : string) : string :=
  if needs_quotes field then string_of_list_ascii (dq :: escape_quotes (list_ascii_of_string field) ++ [dq])
  else field.

Definition csv_line (record : list string) : string :=
  (String.concat "," (map csv_field record) ++ String "010" EmptyString)%string.

Section Records.
Context {F : Type} (show : F -> string).

(** Line 170: [vec![voltage.to_string(), omega.to_string()]]. *)
Definition telem_row (row : F * F) : list string := [show row.1; show row.2].

(** Lines 120-129: throttle and thrust, the telemetry, and the timestamp
    inserted in front. *)
Definition sample_record (timestamp : F) (throttle_command : Z) (thrust : F) (telem_data : list string)
    : outcome (list string) :=
  let sample := [i32_to_string throttle_command; pad 3 (show thrust)] in
  let sample := sample ++ telem_data in
  vec_insert 0 (show timestamp) sample.

(** The record of one row [(throttle_command, thrust, telemetry)] of
    [ControlLoop.w_rows]. *)
Definition row_record (timestamp : F) (r : Z * F * (F * F)) : outcome (list string) :=
  sample_record timestamp r.1.1 r.1.2 (telem_row r.2).

(** The file after a run: what it held before (it is opened with
    [append(true)], line 68), the header record (lines 79-81), and the
    record of each row (line 132); [timestamp k] is the clock read at
    iteration [k] (lines 126-129). *)
Definition csv_log (old : string) (timestamp : nat -> F) (rows : list (Z * F * (F * F))) : outcome string :=
  let* records := omapi (fun k r => row_record (timestamp k) r) 0 rows in
  Done (old ++ String.concat EmptyString (map csv_line (header_record :: records)))%string.

Lemma sample_record_done timestamp throttle_command thrust telem_data :
  sample_record timestamp throttle_command thrust telem_data =
  Done (show timestamp :: i32_to_string throttle_command :: pad 3 (show thrust) :: telem_data).
Proof. reflexivity. Qed.

Definition record_of (timestamp : F) (r : Z * F * (F * F)) : list string :=
  [show timestamp; i32_to_string r.1.1; pad 3 (show r.1.2); show r.2.1; show r.2.2].

Lemma csv_log_done old timestamp rows :
  csv_log old timestamp rows =
  Done (old ++ String.concat EmptyString (map csv_line (header_record ::
          imap_from (fun k r => record_of (timestamp k) r) 0 rows)))%string.
Proof.
  unfold csv_log. rewrite (omapi_total_ext _ (fun k r => record_of (timestamp k) r)); [reflexivity|].
  intros j [[th t] [v o]]. reflexivity.
Qed.

(** C32: The file is opened with [append(true)] and the header record is
    written on every run: run twice with the same file name, the file
    holds the header record twice, the second after the first run's
    records. *)
Theorem csv_log_reopen ts1 ts2 rows1 rows2 f1 f2 :
  csv_log EmptyString ts1 rows1 = Done f1 -> csv_log f1 ts2 rows2 = Done f2 ->
  exists r1 r2, f2 = (csv_line header_record ++ r1 ++ csv_line header_record ++ r2)%string.
Proof.
  rewrite !csv_log_done. intros E1%done_inj E2%done_inj. subst f1 f2. cbn [map]. rewrite !concat_empty_cons.
  change (EmptyString ++ ?x)%string with x. rewrite !string_append_assoc. do 2 eexists. reflexivity.
Qed.
End Records.

Lemma imap_from_lookup {A B} (h : nat -> A -> B) i l j x :
  l !! j = Some x -> imap_from h i l !! j = Some (h (i + j)%nat x).
Proof.
  revert i j. induction l as [|y l IH]; intros i [|j] Hj; try discriminate.
  - invc Hj. rewrite Nat.add_0_r. reflexivity.
  - cbn [imap_from]. change ((h i y :: imap_from h (S i) l) !! S j) with (imap_from h (S i) l !! j). rewrite (IH (S i) j Hj). do 2 f_equal. lia.
Qed.



Section Run.
Context {St F : Type} `{FloatOps F} {acq : Acquisition St F} (show : F -> string).

Lemma csv_log_rows (devs : St) lines (w : world St F) old timestamp :
  reachable devs lines w ->
  exists records,
    csv_log show old timestamp (w_rows w) =
      Done (old ++ String.concat EmptyString (map csv_line (header_record :: records)))%string /\
    length records = length (w_rows w) /\
    forall k r, w_rows w !! k = Some r ->
      records !! k = Some [show (timestamp k); i32_to_string (50 * Z.of_nat (S k));
                           pad 3 (show r.1.2); show r.2.1; show r.2.2].
Proof.
  intros Hr. destruct (reachable_inv devs lines w Hr) as (_ & _ & _ & Hrows & _).
  eexists. split; [apply csv_log_done|]. split; [apply imap_from_length|].
  intros k r Hk. rewrite (imap_from_lookup _ _ _ _ _ Hk). cbn [Nat.add]. unfold record_of. do 3 f_equal.
  apply (lookup_map_some row_throttle) in Hk. rewrite Hrows in Hk.
  assert (Hlt : (k < length (w_rows w))%nat) by (apply lookup_lt_Some in Hk; rewrite length_map, length_seq in Hk; exact Hk).
  rewrite (lookup_map_some _ (seq 0 (length (w_rows w))) k k) in Hk by (apply lookup_seq; lia).
  invc Hk. unfold row_throttle in *. congruence.
Qed.

(** C9: The file [main] leaves is what it held before, the header record,
    and one five-field record per ramp iteration, in the header's column
    order: the [k]-th record holds the clock of iteration [k], the
    throttle [50 (k + 1)], the padded thrust, the voltage and omega of
    that iteration's row. *)
Theorem csv_log_reachable (devs : St) lines (w : world St F) old timestamp :
  reachable devs lines w ->
  exists records,
    csv_log show old timestamp (w_rows w) =
      Done (old ++ String.concat EmptyString (map csv_line (header_record :: records)))%string /\
    length records = length (w_rows w) /\
    forall k r, w_rows w !! k = Some r ->
      records !! k = Some [show (timestamp k); i32_to_string (50 * Z.of_nat (S k));
                           pad 3 (show r.1.2); show r.2.1; show r.2.2].
Proof. apply csv_log_rows. Qed.
End Run.

(** ** Witnesses

    [show_int] renders the integers as [f64]'s [Display] does (["0"],
    ["-3"], ...); the runs below only show integers. *)
Definition show_int (q : Q) : string :=
  if Pos.eqb (Qden q) 1 then i32_to_string (Qnum q) else "NaN"%string.

Lemma csv_log_reopen_witness :
  csv_log show_int EmptyString (fun _ => 0%Q) [(50, 0%Q, (12%Q, 3%Q))] =
    Done "Timestamp,DShot_cmd,Thrust,Voltage,Omega
0,50,0  ,12,3
"%string /\
  exists r1 r2, "Timestamp,DShot_cmd,Thrust,Voltage,Omega
0,50,0  ,12,3
Timestamp,DShot_cmd,Thrust,Voltage,Omega
"%string = (csv_line header_record ++ r1 ++ csv_line header_record ++ r2)%string.
Proof.
  assert (E1 : csv_log show_int EmptyString (fun _ => 0%Q) [(50, 0%Q, (12%Q, 3%Q))] =
    Done "Timestamp,DShot_cmd,Thrust,Voltage,Omega
0,50,0  ,12,3
"%string) by (vm_compute; reflexivity).
  split; [exact E1|].
  apply (csv_log_reopen show_int (fun _ => 0%Q) (fun _ => 0%Q) _ [] _ _ E1). vm_compute. reflexivity.
Defined.

(** One ramp iteration on the ESC frame [esc_frame], after a calibration
    over one frame of [1/2]. *)
Lemma csv_log_reachable_witness : exists w : world nat Q,
  reachable (acq := trace_acquisition steady) 0%nat [Some esc_frame] w /\ length (w_rows w) = 1%nat /\
  exists records,
    csv_log show_int EmptyString (fun _ => 0%Q) (w_rows w) =
      Done (EmptyString ++ String.concat EmptyString (map csv_line (header_record :: records)))%string /\
    length records = length (w_rows w) /\
    forall k r, w_rows w !! k = Some r ->
      records !! k = Some [show_int 0%Q; i32_to_string (50 * Z.of_nat (S k));
                           pad 3 (show_int r.1.2); show_int r.2.1; show_int r.2.2].
Proof.
  assert (Hp : exists w : world nat Q,
            reachable (acq := trace_acquisition steady) 0%nat [Some esc_frame] w /\ length (w_rows w) = 1%nat).
  { eexists. split.
    - unfold reachable.
      eapply rtc_l; [eapply (s_calibrate _ (clock_after 1) 2); [reflexivity | vm_compute; reflexivity]|].
      take s_init_lock. take s_init_crit.
      eapply rtc_trans; [eapply ramp_iteration; try reflexivity; vm_compute; reflexivity|]. apply rtc_refl.
    - reflexivity. }
  destruct Hp as (w & Hr & Hl). exists w. split; [exact Hr|]. split; [exact Hl|].
  exact (csv_log_reachable show_int 0%nat [Some esc_frame] w EmptyString (fun _ => 0%Q) Hr).
Defined.
End CsvLog.

Module Setup.

(** Lines 37-48: the pin pairs, [(clock, data)] in BCM numbering, and one
    [Hx711::new] per pair; [open_pins] is rppal's [Gpio::new()] and
    [get(pin)] of the pair, the pins as [Hx711::new] receives them. *)
Definition config_load_cell_pins_list : list (Z * Z) := [(7, 1)].

Definition load_cell_devices {P} `{Gpio P} (open_pins : Z * Z -> P) : list P :=
  map (fun load_cell_pins => new (open_pins load_cell_pins)) config_load_cell_pins_list.




(** One HX711 reads without a panic. *)
Lemma hx711_acquire_one {P} `{Gpio P} {F} `{FloatOps F} (s : list P) :
  channels s = 1%nat -> acquire (Acquisition := hx711_acquisition) (F := F) s <> Panic.
Proof.
  cbn. intros Hs. apply read_multiple_not_panic. lia.
Qed.

(** C7: With the configured pin list (one HX711), [main] can only panic in
    the telemetry read of [control_sequence]: the calibration and the
    thrust of every iteration never panic, on any hardware and whatever
    the timing of Ctrl-C. *)
Theorem configured_panics_only_in_telemetry {P} `{Gpio P} {F} `{FloatOps F}
    (open_pins : Z * Z -> P) lines (w w' : world (list P) F) :
  reachable (load_cell_devices open_pins) lines w -> step w w' ->
  w_main w <> MPanicked -> w_main w' = MPanicked -> w_main w = MCtrlCrit.
Proof.
  intros Hr Hs. apply (one_channel_panic (hx711_acquire_one (F := F)) w w'); [|exact Hs].
  apply (rtc_one_channel (hx711_acquire_one (F := F)) _ _ Hr).
  split; [reflexivity|]. intros Hne. exfalso. apply Hne. reflexivity.
Qed.

(** A port that gives no line: the first [control_sequence] panics. *)
Lemma configured_panics_only_in_telemetry_witness : exists w w' : world (list bool) Q,
  reachable (load_cell_devices (fun _ => false)) [] w /\ step w w' /\
  w_main w <> MPanicked /\ w_main w' = MPanicked /\ w_main w = MCtrlCrit.
Proof.
  assert (Hp : exists w w' : world (list bool) Q,
    reachable (load_cell_devices (fun _ => false)) [] w /\ step w w' /\
    w_main w <> MPanicked /\ w_main w' = MPanicked).
  { do 2 eexists. split.
    - unfold reachable.
      eapply rtc_l; [eapply (s_calibrate _ (clock_after 1) 2); [reflexivity | vm_compute; reflexivity]|].
      take s_init_lock. take s_init_crit. take s_test_continue. take s_ctrl_lock. apply rtc_refl.
    - split; [eapply s_ctrl_panic; reflexivity|split; [discriminate|reflexivity]]. }
  destruct Hp as (w & w' & Hr & Hs & Hn & Hp). exists w, w'. do 4 (split; [assumption|]).
  exact (configured_panics_only_in_telemetry (fun _ => false) [] w w' Hr Hs Hn Hp).
Defined.
End Setup.

Module Start.
Import Args CsvLog Setup.



(** One HX711 stays one HX711, and each of its frames gives a thrust. *)
Lemma one_hx711_sample {P} `{Gpio P} {F} `{FloatOps F} (offs : list F) : length offs = 1%nat ->
  forall s : list P, channels s = 1%nat ->
  exists s' rd th, acquire s = Done (s', rd) /\ channels s' = 1%nat /\ thrust_of rd offs = Done th.
Proof.
  intros Ho s Hs. cbn in Hs |- *.
  destruct (read_multiple (F := F) s) as [[s' rd]|] eqn:E; [|exfalso; exact (read_multiple_not_panic s ltac:(lia) E)].
  destruct (read_multiple_lengths s s' rd E) as [Hrd Hs'].
  destruct (thrust_of rd offs) as [th|] eqn:Et; [|exfalso; exact (thrust_of_one rd offs ltac:(lia) Ho Et)].
  exists s', rd, th. split; [reflexivity|split; [lia|exact Et]].
Qed.

(** C6: The logger as configured, end to end: whatever the HX711 does,
    with a clock that reaches five seconds and an ESC that sends 32
    well-formed frames, and without Ctrl-C, [main] calibrates, ramps the
    throttle to [MAX_PWM] and returns: the port receives [" "], ["t"],
    32 ["r"] and [" \n"], and the CSV file holds the header and 32
    records whose throttle fields are 50, 100, ..., 1600. *)
Theorem configured_ramp {P} `{Gpio P} {F} `{FloatOps F} (open_pins : Z * Z -> P) elapsed k0 fuel fs rest
    (show : F -> string) old timestamp :
  first_elapsed elapsed k0 -> (k0 < fuel)%nat -> Forall good_frame fs -> length fs = 32%nat ->
  exists w : world (list P) F,
    reachable (load_cell_devices open_pins) (map Some fs ++ rest) w /\ w_main w = MDone /\
    w_log w = [(Main, arm_cmd); (Main, onewire_cmd)] ++ repeat (Main, increment_cmd) 32 ++ [(Main, stop_cmd)] /\
    length (w_rows w) = 32%nat /\
    exists records,
      csv_log show old timestamp (w_rows w) =
        Done (old ++ String.concat EmptyString (map csv_line (header_record :: records)))%string /\
      length records = 32%nat /\
      forall k r, w_rows w !! k = Some r ->
        records !! k = Some [show (timestamp k); i32_to_string (50 * Z.of_nat (S k));
                             pad 3 (show r.1.2); show r.2.1; show r.2.2].
Proof.
  intros Hk Hf Hfs Hlen.
  destruct (calibrate_zero_one_done (hx711_acquire_one (F := F)) elapsed k0 fuel (load_cell_devices open_pins) Hk Hf eq_refl)
    as (devs' & offs & Ecal & Hc' & Hl).
  destruct (ramp_run (fun s => channels s = 1%nat) _ elapsed fuel devs' offs fs rest Ecal Hc'
              (one_hx711_sample offs Hl) Hfs Hlen) as (w & Hr & Hd & _ & Hlog & Hrows).
  exists w. split; [exact Hr|]. split; [exact Hd|]. split; [exact Hlog|]. split; [exact Hrows|].
  destruct (csv_log_rows show _ _ w old timestamp Hr) as (records & E & Hrl & Hrec).
  exists records. split; [exact E|]. split; [lia|exact Hrec].
Qed.
(** The configured logger on a data line held low (every reading fails),
    the ESC frame [esc_frame] 32 times, and a clock past five seconds at
    its second test. *)
Lemma configured_ramp_witness :
  (first_elapsed (clock_after 1) 1 /\ (1 < 2)%nat /\ Forall (good_frame (F := Q)) (repeat esc_frame 32) /\
   length (repeat esc_frame 32) = 32%nat) /\
  exists w : world (list bool) Q,
    reachable (load_cell_devices (fun _ => false)) (map Some (repeat esc_frame 32) ++ []) w /\ w_main w = MDone /\
    w_log w = [(Main, arm_cmd); (Main, onewire_cmd)] ++ repeat (Main, increment_cmd) 32 ++ [(Main, stop_cmd)] /\
    length (w_rows w) = 32%nat /\
    exists records,
      csv_log show_int EmptyString (fun _ => 0%Q) (w_rows w) =
        Done (EmptyString ++ String.concat EmptyString (map csv_line (header_record :: records)))%string /\
      length records = 32%nat /\
      forall k r, w_rows w !! k = Some r ->
        records !! k = Some [show_int 0%Q; i32_to_string (50 * Z.of_nat (S k));
                             pad 3 (show_int r.1.2); show_int r.2.1; show_int r.2.2].
Proof.
  assert (Hf : Forall (good_frame (F := Q)) (repeat esc_frame 32)).
  { apply List.Forall_forall. intros f Hin. apply repeat_spec in Hin. subst f.
    split; [reflexivity|]. eexists. vm_compute. reflexivity. }
  assert (Hk : first_elapsed (clock_after 1) 1) by apply clock_after_first.
  split; [split; [exact Hk|split; [lia|split; [exact Hf|reflexivity]]]|].
  exact (configured_ramp (fun _ => false) (clock_after 1) 1 2 _ [] show_int EmptyString (fun _ => 0%Q)
           Hk ltac:(lia) Hf eq_refl).
Defined.
End Start.
