(* ===== verification/Stdout.v ===== *)
(** * Stdout: what src/logging/src/main.rs prints

    [main] reports to the operator with [println!]: per iteration the
    throttle sent (line 103), the fields of the telemetry frame
    ([process_string], lines 164-168), the thrust of each channel that
    read (line 115) and the timestamp (lines 134-135); after the
    calibration one line per channel (lines 267-274).  Here the output is
    a writer over [outcome] ([printing]): the value, or the panic, and
    the lines printed up to it.  [process_string_print],
    [thrust_loop_print], [finalize_print] and [iteration_print] are the
    code with its prints; on their successful runs they are proved to
    return what [process_string], [thrust_loop] and [finalize] return.
    [println!] panics when writing to stdout fails; here stdout is taken
    to be writable, and [println] always succeeds.

    The text of an [f64] is a parameter: [show] for [{}], [show_prec n]
    for [{:.n}]; [f_sqrt] is [f64::sqrt].  Width formats pad: a number
    to the right ([lpad]), a string to the left ([CsvLog.pad]). *)

From Stdlib Require Import ZArith QArith Lia String Ascii List.
From stdpp Require Import base list.
From S2P Require Import Prelude Hx711 Telemetry Calibration ControlLoop Cli.
Import ListNotations.
Import CsvLog.

Open Scope Z_scope.

(** The value or the panic, and the lines printed before. *)
Definition printing (A : Type) : Type := outcome A * list string.

Definition pret {A} (a : A) : printing A := (Done a, []).

Definition pbind {A B} (m : printing A) (k : A -> printing B) : printing B :=
  match m with
  | (Panic, out) => (Panic, out)
  | (Done a, out) => let (r, out') := k a in (r, out ++ out')
  end.

Definition println (s : string) : printing unit := (Done tt, [s]).

Definition lift {A} (m : outcome A) : printing A := (m, []).

Declare Scope printing_scope.
Notation "'plet' x ':=' m 'in' k" := (pbind m (fun x => k))
  (at level 10, x pattern, m at level 100, k at level 200) : printing_scope.
Open Scope printing_scope.

Lemma pbind_done {A B} (a : A) o (k : A -> printing B) :
  pbind (Done a, o) k = (fst (k a), o ++ snd (k a)).
Proof. cbn. destruct (k a); reflexivity. Qed.

Lemma pbind_lift_done {A B} (a : A) (k : A -> printing B) : pbind (lift (Done a)) k = k a.
Proof. unfold lift. rewrite pbind_done. destruct (k a); reflexivity. Qed.

Lemma pbind_lift_panic {A B} (k : A -> printing B) : pbind (lift Panic) k = (Panic, []).
Proof. reflexivity. Qed.

Lemma pbind_println {B} s (k : unit -> printing B) : pbind (println s) k = (fst (k tt), s :: snd (k tt)).
Proof. unfold println. rewrite pbind_done. reflexivity. Qed.

Lemma pbind_pret {A B} (a : A) (k : A -> printing B) : pbind (pret a) k = k a.
Proof. apply pbind_lift_done. Qed.

Create Rewrite HintDb printing_rw.
#[export] Hint Rewrite @pbind_lift_done @pbind_lift_panic @pbind_println @pbind_pret @pbind_done : printing_rw.

(** Rewrite the output monad away and close what remains. *)
Ltac print_simpl := autorewrite with printing_rw; cbn [fst snd app obind pret].

(** [{:w}] of a number: right-aligned to [w] characters. *)
Definition lpad (w : nat) (s : string) : string :=
  (string_of_list_ascii (repeat " "%char (w - String.length s)) ++ s)%string.

(** [{}] of a [usize] or a [u8]. *)
Definition nat_to_string (n : nat) : string := i32_to_string (Z.of_nat n).

Section Print.
Context {F : Type} `{FloatOps F} (show : F -> string) (show_prec : nat -> F -> string) (f_sqrt : F -> F).

(** Line 115. *)
Definition thrust_line (thrust : F) : string :=
  ("Measured Thrust: " ++ show_prec 2%nat thrust)%string.

(** Lines 267-272. *)
Definition calibration_line (i : nat) (stat : F * F) : string :=
  ("Load Cell " ++ nat_to_string i ++ ": offset " ++ show_prec 4%nat stat.1 ++
   " stdev " ++ show_prec 4%nat (f_sqrt stat.2) ++ " g")%string.

(** [process_string] with its prints (lines 143-172). *)
Definition process_string_print (data : string) : printing (F * F) :=
  plet telemetry := lift (parse_chunks (chunks2 (trim_end_matches_crlf data))) in
  plet fr := lift (decode_fields telemetry) in
  plet _ := println ("Temperature: " ++ i32_to_string (temperature fr))%string in
  plet _ := println ("Voltage: " ++ show_prec 2%nat (voltage fr))%string in
  plet _ := println ("Current: " ++ show_prec 2%nat (current fr))%string in
  plet _ := println ("Consumption: " ++ show (m_ah fr))%string in
  plet _ := println ("Omega: " ++ lpad 2 (show (omega fr)))%string in
  pret (voltage fr, omega fr).

(** Lines 109-118 with the print of line 115. *)
Fixpoint thrust_loop_print (i : nat) (load_cell_read : list (hx_result F)) (offset : list F) (thrust : F)
    : printing F :=
  match load_cell_read with
  | [] => pret thrust
  | HxErr _ :: rest => thrust_loop_print (S i) rest offset thrust
  | HxOk read_result :: rest =>
      plet g := lift (get_at CALIBRATION_GRADIENTS i) in
      plet o := lift (get_at offset i) in
      let thrust := ((f_of_Z 1 ⊘ g) ⊗ read_result ⊕ o)%fl in
      plet _ := println (thrust_line thrust) in
      thrust_loop_print (S i) rest offset thrust
  end.

(** Lines 256-273, from channel [i] on: each channel's offset and
    standard deviation are printed as they are computed. *)
Fixpoint finalize_print (i : nat) (statistics : list (F * F)) (readings_count : Z) : printing (list (F * F)) :=
  match statistics with
  | [] => pret []
  | (sum, sum_of_squares) :: rest =>
      let mean := (sum ⊘ f_of_Z readings_count)%fl in
      let variance := (sum_of_squares ⊘ f_of_Z readings_count ⊖ mean ⊗ mean)%fl in
      plet g := lift (get_at CALIBRATION_GRADIENTS i) in
      let coeff := (f_of_Z (-1) ⊘ g)%fl in
      let mean := (coeff ⊗ mean)%fl in
      let variance := (coeff ⊗ coeff ⊗ variance)%fl in
      plet _ := println (calibration_line i (mean, variance)) in
      plet rest := finalize_print (S i) rest readings_count in
      pret ((mean, variance) :: rest)
  end.

(** Lines 256-274: the loop, then an empty line. *)
Definition calibrate_report (statistics : list (F * F)) (readings_count : Z) : printing (list (F * F)) :=
  plet st := finalize_print 0 statistics readings_count in
  plet _ := println EmptyString in
  pret st.

(** Lines 102-135, one iteration of the ramp: [telemetry] is the line
    [control_sequence] read, [load_cell_read] the frame of line 108;
    the result is the new [throttle_command] and the CSV record. *)
Definition iteration_print (throttle_command : Z) (telemetry : string) (load_cell_read : list (hx_result F))
    (offset : list F) (timestamp : F) : printing (Z * list string) :=
  let throttle_command := throttle_command + 50 in
  plet _ := println ("Sent throttle: " ++ i32_to_string throttle_command)%string in
  plet row := process_string_print telemetry in
  plet thrust := thrust_loop_print 0 load_cell_read offset (f_of_Z 0) in
  plet sample := lift (sample_record show timestamp throttle_command thrust (telem_row show row)) in
  plet _ := println (show_prec 2%nat timestamp) in
  plet _ := println EmptyString in
  pret (throttle_command, sample).

(** What [process_string] prints for the frame [fr] (lines 164-168). *)
Definition frame_report (fr : telemetry_frame F) : list string :=
  [("Temperature: " ++ i32_to_string (temperature fr))%string;
   ("Voltage: " ++ show_prec 2%nat (voltage fr))%string;
   ("Current: " ++ show_prec 2%nat (current fr))%string;
   ("Consumption: " ++ show (m_ah fr))%string;
   ("Omega: " ++ lpad 2 (show (omega fr)))%string].

Definition is_ok (r : hx_result F) : bool := negb (is_err r).

(** ** What each printing routine prints *)

Lemma process_string_print_done data tel fr :
  parse_chunks (chunks2 (trim_end_matches_crlf data)) = Done tel -> decode_fields tel = Done fr ->
  process_string_print data = (Done (voltage fr, omega fr), frame_report fr).
Proof. intros Ep Ed. unfold process_string_print. rewrite Ep. print_simpl. rewrite Ed. print_simpl. reflexivity. Qed.

Lemma process_string_print_panic data :
  process_string data = Panic -> process_string_print data = (Panic, []).
Proof.
  unfold process_string_print, process_string.
  destruct (parse_chunks _) as [tel|]; print_simpl; [|reflexivity].
  destruct (decode_fields tel); print_simpl; [discriminate|reflexivity].
Qed.

Lemma thrust_loop_print_lines i rd offset t th :
  thrust_loop i rd offset t = Done th ->
  exists xs, thrust_loop_print i rd offset t = (Done th, map thrust_line xs) /\
    length xs = length (filter is_ok rd) /\ last (t :: xs) = Some th.
Proof.
  revert i t. induction rd as [|[x|m] rd IH]; intros i t E; cbn [thrust_loop_print thrust_loop] in *.
  - injection E as <-. exists []. auto.
  - destruct (get_at CALIBRATION_GRADIENTS i); [|discriminate]. destruct (get_at offset i); [|discriminate].
    cbn [obind] in E. destruct (IH _ _ E) as (xs & Ep & Hl & Hlast). print_simpl. rewrite Ep.
    eexists (_ :: xs). cbn. rewrite Hl. auto.
  - apply IH, E.
Qed.

Lemma finalize_print_lines i st c fin :
  finalize i st c = Done fin -> finalize_print i st c = (Done fin, imap_from calibration_line i fin).
Proof.
  revert i fin. induction st as [|[sum sq] st IH]; intros i fin E; cbn [finalize finalize_print] in *.
  - injection E as <-. reflexivity.
  - destruct (get_at CALIBRATION_GRADIENTS i); [|discriminate]. cbn [obind] in E.
    destruct (finalize (S i) st c) as [fin'|] eqn:Ef; [|discriminate]. injection E as <-.
    print_simpl. rewrite (IH _ _ Ef), pbind_done. cbn. rewrite app_nil_r. reflexivity.
Qed.

(** ** What one iteration and the calibration print *)

(** C10: An iteration whose telemetry line decodes and whose thrust is
    computed prints, in this order, the throttle sent, the five fields of
    the frame, one "Measured Thrust" line per channel that read (none
    when every channel failed), the timestamp to two decimals and an
    empty line; the last thrust printed is the thrust recorded, and the
    record written to the CSV file is [record_of] of the row. *)
Theorem iteration_print_spec throttle_command data tel fr rd offset timestamp th :
  parse_chunks (chunks2 (trim_end_matches_crlf data)) = Done tel -> decode_fields tel = Done fr ->
  thrust_of rd offset = Done th ->
  exists xs,
    iteration_print throttle_command data rd offset timestamp =
      (Done (throttle_command + 50,
             record_of show timestamp (throttle_command + 50, th, (voltage fr, omega fr))),
       ("Sent throttle: " ++ i32_to_string (throttle_command + 50))%string :: frame_report fr ++
         map thrust_line xs ++ [show_prec 2%nat timestamp; EmptyString]) /\
    length xs = length (filter is_ok rd) /\ last (f_of_Z 0 :: xs) = Some th.
Proof.
  intros Ep Ed Et. destruct (thrust_loop_print_lines _ _ _ _ _ Et) as (xs & Eprint & Hl & Hlast).
  exists xs. split; [|auto].
  unfold iteration_print. print_simpl. rewrite (process_string_print_done _ _ _ Ep Ed), pbind_done.
  rewrite Eprint, pbind_done. cbn [fst snd]. print_simpl. rewrite sample_record_done. print_simpl.
  rewrite ?app_nil_r, <- ?app_assoc. reflexivity.
Qed.

(** When the telemetry line does not decode, the iteration
    panics in [process_string] having printed only the throttle it sent:
    no field, no thrust and no timestamp line. *)
Lemma iteration_print_telemetry_panic throttle_command data rd offset timestamp :
  process_string data = Panic ->
  iteration_print throttle_command data rd offset timestamp =
    (Panic, [("Sent throttle: " ++ i32_to_string (throttle_command + 50))%string]).
Proof. intros Ep. unfold iteration_print. print_simpl. rewrite (process_string_print_panic _ Ep). reflexivity. Qed.

(** C33: After the calibration, for the statistics [finalize]
    computes, [main] prints channel [i]'s offset and the square root of
    its variance on the [i]-th line, then an empty line; the offsets
    returned are those [finalize] computes. *)
Theorem calibrate_report_spec statistics readings_count fin :
  finalize 0 statistics readings_count = Done fin ->
  calibrate_report statistics readings_count = (Done fin, imap_from calibration_line 0 fin ++ [EmptyString]).
Proof.
  intros Ef. unfold calibrate_report. rewrite (finalize_print_lines _ _ _ _ Ef). print_simpl. reflexivity.
Qed.
End Print.

(** ** Witnesses, with [Q] for [f64] and integers shown as [Display]
    shows them *)

Definition show_q_prec (_ : nat) (q : Q) : string := show_int q.

Lemma iteration_print_spec_witness : exists tel (fr : telemetry_frame Q) th,
  parse_chunks (chunks2 (trim_end_matches_crlf esc_frame)) = Done tel /\ decode_fields tel = Done fr /\
  thrust_of [HxOk (1 # 2)%Q] [0%Q] = Done th /\
  exists xs,
    iteration_print show_int show_q_prec 0 esc_frame [HxOk (1 # 2)%Q] [0%Q] 7%Q =
      (Done (0 + 50, record_of show_int 7%Q (0 + 50, th, (voltage fr, omega fr))),
       ("Sent throttle: " ++ i32_to_string (0 + 50))%string :: frame_report show_int show_q_prec fr ++
         map (thrust_line show_q_prec) xs ++ [show_q_prec 2%nat 7%Q; EmptyString]) /\
    length xs = length (filter is_ok [HxOk (1 # 2)%Q]) /\ last (f_of_Z 0 :: xs) = Some th.
Proof.
  do 3 eexists. split; [vm_compute; reflexivity|]. split; [vm_compute; reflexivity|].
  split; [vm_compute; reflexivity|]. eapply iteration_print_spec; vm_compute; reflexivity.
Defined.

Lemma calibrate_report_spec_witness : exists fin,
  finalize 0 [(5%Q, 6%Q)] 5 = Done fin /\
  calibrate_report show_q_prec (fun q => q) [(5%Q, 6%Q)] 5 =
    (Done fin, imap_from (calibration_line show_q_prec (fun q => q)) 0 fin ++ [EmptyString]).
Proof. eexists. split; [vm_compute; reflexivity|]. apply calibrate_report_spec. vm_compute. reflexivity. Defined.
